(** * CommandStreamReceiver: command-buffer growth, residency and fence waiting

    A shallow embedding of [runtime/command_stream/command_stream_receiver.cpp]
    (namespace OCLRT).  Member functions become state transformers over the
    record [CommandStreamReceiver]; a reference parameter
    ([GraphicsAllocation &]) is passed in and handed back; a null
    dereference and [UNRECOVERABLE_IF] are outcomes of the error monad
    [Outcome]. *)

From Stdlib Require Import ZArith Lia List Bool.
From stdpp Require Import base option list gmap.
Import ListNotations.

Local Open Scope Z_scope.

(** ** Machine integers *)

(** [size_t] is 64 bits wide, [uint32_t] 32 bits; unsigned arithmetic wraps. *)
Definition size_t_bits : Z := 64.
Definition uint32_bits : Z := 32.

Definition wrap_size_t (x : Z) : Z := x mod 2 ^ size_t_bits.
Definition wrap_uint32 (x : Z) : Z := x mod 2 ^ uint32_bits.

Definition in_size_t (x : Z) : Prop := 0 <= x < 2 ^ size_t_bits.
Definition in_uint32 (x : Z) : Prop := 0 <= x < 2 ^ uint32_bits.

(** [std::max] on unsigned values. *)
Definition std_max (a b : Z) : Z := if a <? b then b else a.

(** [alignUp(before, alignment)]:
    [mask = alignment - 1; return (before + mask) & ~mask;] on [size_t]. *)
Definition alignUp (before alignment : Z) : Z :=
  let mask := wrap_size_t (alignment - 1) in
  Z.land (wrap_size_t (before + mask)) (wrap_size_t (Z.lnot mask)).

(** ** Outcomes of a member function

    A call either returns, dereferences a null pointer (undefined behaviour
    in C++), or stops in [UNRECOVERABLE_IF] (an abort that is compiled into
    every build; [DEBUG_BREAK_IF] is compiled out of release builds and is
    not an outcome). *)
Inductive Outcome (A : Type) : Type :=
| Ok (a : A)
| NullDereference
| Unrecoverable.
Arguments Ok {A} a.
Arguments NullDereference {A}.
Arguments Unrecoverable {A}.

#[global] Instance Outcome_ret : MRet Outcome := fun A a => Ok a.

#[global] Instance Outcome_bind : MBind Outcome := fun A B k m =>
  match m with
  | Ok a => k a
  | NullDereference => NullDereference
  | Unrecoverable => Unrecoverable
  end.

(** [ptr->member] on a possibly null pointer. *)
Definition deref {A} (p : option A) : Outcome A :=
  match p with Some a => Ok a | None => NullDereference end.

(** ** GraphicsAllocation *)

(** Modelled from the spec: the type tag of an allocation (section 3);
    these are the four values of [GraphicsAllocation::AllocationType] that
    the source names. *)
Inductive AllocationType := COMMAND_BUFFER | LINEAR_STREAM | INTERNAL_HEAP | UNDECIDED.

#[global] Instance AllocationType_eq_dec : EqDecision AllocationType.
Proof. solve_decision. Defined.

Module GraphicsAllocation.

(** Modelled from the spec: the per-context usage record of
    [GraphicsAllocation] (graphics_allocation.h is not under src/).
    Section 3 gives an allocation a per-context residency flag and a
    per-context last-referenced task count; the residency watermark is the
    task count up to which the allocation stays resident. *)
Record UsageInfo := {
  taskCount : Z;
  residencyTaskCount : Z;
  resident : bool }.

(** Modelled from the spec: the record of a context that has not used the
    allocation: not resident, nothing referenced. *)
Definition unusedInfo : UsageInfo :=
  {| taskCount := 0; residencyTaskCount := 0; resident := false |}.

(** Modelled from the spec: class [GraphicsAllocation] (section 3:
    opaque handle with base address, size, type tag and the per-context
    records).  [self] stands for the address of the object, which is what
    the residency and eviction containers hold. *)
Record t := {
  self : N;
  underlyingBuffer : Z;
  underlyingBufferSize : Z;
  allocationType : AllocationType;
  evictable : bool;
  usageInfos : gmap N UsageInfo }.

(** Modelled from the spec: reading and writing [usageInfos[contextId]]. *)
Definition usage (a : t) (contextId : N) : UsageInfo :=
  default unusedInfo (usageInfos a !! contextId).

Definition withUsage (a : t) (contextId : N) (u : UsageInfo) : t :=
  {| self := self a; underlyingBuffer := underlyingBuffer a;
     underlyingBufferSize := underlyingBufferSize a;
     allocationType := allocationType a; evictable := evictable a;
     usageInfos := <[contextId := u]> (usageInfos a) |}.

(** Modelled from the spec: the accessors of the handle. *)
Definition getUnderlyingBuffer (a : t) : Z := underlyingBuffer a.
Definition getUnderlyingBufferSize (a : t) : Z := underlyingBufferSize a.
Definition getAllocationType (a : t) : AllocationType := allocationType a.
Definition getTaskCount (a : t) (contextId : N) : Z := taskCount (usage a contextId).
Definition getResidencyTaskCount (a : t) (contextId : N) : Z :=
  residencyTaskCount (usage a contextId).

(** Modelled from the spec: the evictable mark of section 4.1, read by
    [peekEvictable] and written by [setEvictable]. *)
Definition peekEvictable (a : t) : bool := evictable a.

Definition setEvictable (a : t) (e : bool) : t :=
  {| self := self a; underlyingBuffer := underlyingBuffer a;
     underlyingBufferSize := underlyingBufferSize a;
     allocationType := allocationType a; evictable := e;
     usageInfos := usageInfos a |}.

(** Modelled from the spec: [isResident] reads the per-context residency
    flag. *)
Definition isResident (a : t) (contextId : N) : bool := resident (usage a contextId).

(** Modelled from the spec: [isResidencyTaskCountBelow].  An allocation
    that is not resident in the context has no watermark to compare and is
    below every task count (section 4.1: [makeResident] registers the
    allocation and counts its memory on first-time residency, which the
    source does under this test); a resident one is below when its
    watermark is. *)
Definition isResidencyTaskCountBelow (a : t) (taskCount : Z) (contextId : N) : bool :=
  negb (isResident a contextId) || (getResidencyTaskCount a contextId <? taskCount).

(** Modelled from the spec: [updateTaskCount] records the last-referenced
    task count. *)
Definition updateTaskCount (a : t) (newTaskCount : Z) (contextId : N) : t :=
  let u := usage a contextId in
  withUsage a contextId
    {| taskCount := newTaskCount; residencyTaskCount := residencyTaskCount u;
       resident := resident u |}.

(** Modelled from the spec: [updateResidencyTaskCount] raises the
    watermark to the maximum of its previous value and the new task count
    (section 4.1) and sets the residency flag. *)
Definition updateResidencyTaskCount (a : t) (newTaskCount : Z) (contextId : N) : t :=
  let u := usage a contextId in
  withUsage a contextId
    {| taskCount := taskCount u;
       residencyTaskCount := std_max (residencyTaskCount u) newTaskCount;
       resident := true |}.

(** Modelled from the spec: [releaseResidencyInOsContext] clears the
    residency flag (section 4.1); the watermark is kept (section 3: it
    never decreases). *)
Definition clearResident (u : UsageInfo) : UsageInfo :=
  {| taskCount := taskCount u; residencyTaskCount := residencyTaskCount u;
     resident := false |}.

Definition releaseResidencyInOsContext (a : t) (contextId : N) : t :=
  {| self := self a; underlyingBuffer := underlyingBuffer a;
     underlyingBufferSize := underlyingBufferSize a;
     allocationType := allocationType a; evictable := evictable a;
     usageInfos := alter clearResident contextId (usageInfos a) |}.

End GraphicsAllocation.

(** ** LinearStream and IndirectHeap *)

Module LinearStream.

(** Modelled from the spec: class [LinearStream] (linear_stream.h is not
    under src/).  Section 3: a linear cursor with a backing allocation, a
    capacity and a used offset; [buffer] is the CPU base address, 0 for
    [nullptr]. *)
Record t := {
  buffer : Z;
  maxAvailableSpace : Z;
  sizeUsed : Z;
  graphicsAllocation : option GraphicsAllocation.t }.

(** Modelled from the spec: a stream without a buffer, as the receiver has
    it before the first [getCS]. *)
Definition empty : t :=
  {| buffer := 0; maxAvailableSpace := 0; sizeUsed := 0; graphicsAllocation := None |}.

(** Modelled from the spec: the accessors of the cursor. *)
Definition getCpuBase (s : t) : Z := buffer s.
Definition getGraphicsAllocation (s : t) : option GraphicsAllocation.t :=
  graphicsAllocation s.
Definition getMaxAvailableSpace (s : t) : Z := maxAvailableSpace s.
Definition getUsed (s : t) : Z := sizeUsed s.

(** Modelled from the spec: [getAvailableSpace], the free space of the
    cursor: capacity minus used offset. *)
Definition getAvailableSpace (s : t) : Z := maxAvailableSpace s - sizeUsed s.

(** Modelled from the spec: [replaceBuffer] points the cursor at a new
    buffer of the given size with nothing used; the backing allocation is
    replaced by a call of its own, and [overrideMaxSize] changes the
    capacity only. *)
Definition replaceBuffer (s : t) (newBuffer bufferSize : Z) : t :=
  {| buffer := newBuffer; maxAvailableSpace := bufferSize; sizeUsed := 0;
     graphicsAllocation := graphicsAllocation s |}.

Definition replaceGraphicsAllocation (s : t) (a : option GraphicsAllocation.t) : t :=
  {| buffer := buffer s; maxAvailableSpace := maxAvailableSpace s;
     sizeUsed := sizeUsed s; graphicsAllocation := a |}.

Definition overrideMaxSize (s : t) (newMaxSize : Z) : t :=
  {| buffer := buffer s; maxAvailableSpace := newMaxSize;
     sizeUsed := sizeUsed s; graphicsAllocation := graphicsAllocation s |}.

(** Modelled from the spec: the constructor of [LinearStream] from an
    allocation, a cursor over the whole allocation. *)
Definition ofAllocation (a : GraphicsAllocation.t) : t :=
  {| buffer := GraphicsAllocation.getUnderlyingBuffer a;
     maxAvailableSpace := GraphicsAllocation.getUnderlyingBufferSize a;
     sizeUsed := 0; graphicsAllocation := Some a |}.

(** Modelled from the spec: the same constructor on an allocation pointer
    that may be null; over a null pointer the cursor has no backing
    allocation. *)
Definition ofPointer (p : option GraphicsAllocation.t) : t :=
  match p with
  | Some a => ofAllocation a
  | None => empty
  end.

End LinearStream.

Module IndirectHeap.

(** Modelled from the spec: the auxiliary heap types of section 3
    (indirect_heap.h is not under src/); the source names
    [SURFACE_STATE] and [INDIRECT_OBJECT]. *)
Inductive Type_ := DYNAMIC_STATE | INDIRECT_OBJECT | SURFACE_STATE | INSTRUCTION.

#[global] Instance Type_eq_dec : EqDecision Type_.
Proof. solve_decision. Defined.

(** Modelled from the spec: class [IndirectHeap], a linear stream that may
    live in the internal 4 GB heap. *)
Record t := {
  stream : LinearStream.t;
  canBeUtilizedAs4GbHeap : bool }.

(** Modelled from the spec: the member functions that [IndirectHeap]
    inherits from [LinearStream]. *)
Definition onStream (f : LinearStream.t -> LinearStream.t) (h : t) : t :=
  {| stream := f (stream h); canBeUtilizedAs4GbHeap := canBeUtilizedAs4GbHeap h |}.

Definition getGraphicsAllocation (h : t) := LinearStream.getGraphicsAllocation (stream h).
Definition getAvailableSpace (h : t) := LinearStream.getAvailableSpace (stream h).
Definition getMaxAvailableSpace (h : t) := LinearStream.getMaxAvailableSpace (stream h).

(** Modelled from the spec: [new IndirectHeap(heapMemory,
    requireInternalHeap)], a heap over the whole allocation; [heapMemory]
    is a pointer, which the constructor is handed as it is. *)
Definition create (heapMemory : option GraphicsAllocation.t) (internal : bool) : t :=
  {| stream := LinearStream.ofPointer heapMemory; canBeUtilizedAs4GbHeap := internal |}.

End IndirectHeap.


(** ** InternalAllocationStorage *)

Module InternalAllocationStorage.

(** Modelled from the spec: the list kinds of section 3. *)
Inductive AllocationUsage := TEMPORARY_ALLOCATION | REUSABLE_ALLOCATION.

(** Modelled from the spec: a lifecycle list entry (section 3: allocation
    and free-after task count; the list kind is the list the entry is in).
    internal_allocation_storage.h and its implementation are not under
    src/. *)
Record Entry := {
  allocation : GraphicsAllocation.t;
  freeAfter : Z }.

(** Modelled from the spec: the two deferred-reclamation lists of
    section 2. *)
Record t := {
  temporaryAllocations : list Entry;
  allocationsForReuse : list Entry }.

(** Modelled from the spec: the storage of a new receiver. *)
Definition empty : t := {| temporaryAllocations := []; allocationsForReuse := [] |}.

(** Modelled from the spec: [storeAllocation] (section 4.2) appends with
    free-after = current task count + 1 for temporary entries, or the
    allocation's recorded last-submission count for reusable entries. *)
Definition storeAllocation (gfxAllocation : GraphicsAllocation.t)
    (allocationUsage : AllocationUsage) (csrTaskCount : Z) (contextId : N) (st : t) : t :=
  match allocationUsage with
  | TEMPORARY_ALLOCATION =>
      {| temporaryAllocations :=
           temporaryAllocations st ++
             [{| allocation := gfxAllocation; freeAfter := wrap_uint32 (csrTaskCount + 1) |}];
         allocationsForReuse := allocationsForReuse st |}
  | REUSABLE_ALLOCATION =>
      {| temporaryAllocations := temporaryAllocations st;
         allocationsForReuse :=
           allocationsForReuse st ++
             [{| allocation := gfxAllocation;
                 freeAfter := GraphicsAllocation.getTaskCount gfxAllocation contextId |}] |}
  end.

(** Modelled from the spec: the test of [obtainReusableAllocation]
    (section 4.2) on one entry: matching type, capacity at least the
    required size, and a free-after count that the fence has reached. *)
Definition reusableNow (requiredSize : Z) (allocationType : AllocationType)
    (fence : Z) (e : Entry) : bool :=
  bool_decide (GraphicsAllocation.getAllocationType (allocation e) = allocationType)
  && (requiredSize <=? GraphicsAllocation.getUnderlyingBufferSize (allocation e))
  && (freeAfter e <=? fence).

(** Modelled from the spec: the scan of the reusable list; the first entry
    that passes the test is removed and returned with the remaining list. *)
Fixpoint detachAllocation (requiredSize : Z) (allocationType : AllocationType)
    (fence : Z) (l : list Entry) : option (Entry * list Entry) :=
  match l with
  | [] => None
  | e :: l' =>
      if reusableNow requiredSize allocationType fence e then Some (e, l')
      else match detachAllocation requiredSize allocationType fence l' with
           | Some (r, rest) => Some (r, e :: rest)
           | None => None
           end
  end.

(** Modelled from the spec: [obtainReusableAllocation] (section 4.2).
    [tagAddress] is the fence cell of the receiver, [Some v] when the cell
    holds [v]; without a fence cell nothing counts as completed and the
    call signals "none available". *)
Definition obtainReusableAllocation (requiredSize : Z) (allocationType : AllocationType)
    (tagAddress : option Z) (st : t) : option Entry * t :=
  match tagAddress with
  | None => (None, st)
  | Some fence =>
      match detachAllocation requiredSize allocationType fence (allocationsForReuse st) with
      | Some (e, rest) =>
          (Some e, {| temporaryAllocations := temporaryAllocations st;
                      allocationsForReuse := rest |})
      | None => (None, st)
      end
  end.

End InternalAllocationStorage.

(** ** Collaborators *)

(** Modelled from the spec: the allocator collaborator of section 6,
    [allocate(size, type) -> Allocation | failure]; memory_manager.h is not
    under src/.  [None] is the null pointer the source tests for. *)
Class MemoryManager (MM : Type) := {
  allocateGraphicsMemoryWithProperties :
    Z -> AllocationType -> MM -> option GraphicsAllocation.t * MM }.

(** [DebugManager.flags] as far as this file reads them. *)
Record DebugVariables := {
  AddPatchInfoCommentsForAUBDump : bool;
  EnableNullHardware : bool }.

(** ** The receiver *)

(** The data members of [CommandStreamReceiver] that the functions below
    touch.  [tagAddress] is [None] for [nullptr] and [Some v] when it points
    at a fence cell that holds [v]; the containers hold object addresses
    ([GraphicsAllocation.self]); [indirectHeap] is the array of heap
    pointers, [None] for [nullptr]. *)
Record CommandStreamReceiver {MM : Type} := {
  taskCount : Z;
  latestFlushedTaskCount : Z;
  totalMemoryUsed : Z;
  residencyAllocations : list N;
  evictionAllocations : list N;
  commandStream : LinearStream.t;
  indirectHeap : IndirectHeap.Type_ -> option IndirectHeap.t;
  internalAllocationStorage : InternalAllocationStorage.t;
  tagAllocation : option GraphicsAllocation.t;
  tagAddress : option Z;
  debugSurface : option GraphicsAllocation.t;
  osContextId : N;
  memoryManager : MM }.
Arguments CommandStreamReceiver : clear implicits.

Section Setters.
Context {MM : Type}.
Implicit Type s : CommandStreamReceiver MM.

Definition setTotalMemoryUsed s (v : Z) : CommandStreamReceiver MM :=
  {| taskCount := taskCount s; latestFlushedTaskCount := latestFlushedTaskCount s;
     totalMemoryUsed := v; residencyAllocations := residencyAllocations s;
     evictionAllocations := evictionAllocations s; commandStream := commandStream s;
     indirectHeap := indirectHeap s;
     internalAllocationStorage := internalAllocationStorage s;
     tagAllocation := tagAllocation s; tagAddress := tagAddress s;
     debugSurface := debugSurface s; osContextId := osContextId s;
     memoryManager := memoryManager s |}.

Definition setResidencyAllocations s (v : list N) : CommandStreamReceiver MM :=
  {| taskCount := taskCount s; latestFlushedTaskCount := latestFlushedTaskCount s;
     totalMemoryUsed := totalMemoryUsed s; residencyAllocations := v;
     evictionAllocations := evictionAllocations s; commandStream := commandStream s;
     indirectHeap := indirectHeap s;
     internalAllocationStorage := internalAllocationStorage s;
     tagAllocation := tagAllocation s; tagAddress := tagAddress s;
     debugSurface := debugSurface s; osContextId := osContextId s;
     memoryManager := memoryManager s |}.

Definition setEvictionAllocations s (v : list N) : CommandStreamReceiver MM :=
  {| taskCount := taskCount s; latestFlushedTaskCount := latestFlushedTaskCount s;
     totalMemoryUsed := totalMemoryUsed s; residencyAllocations := residencyAllocations s;
     evictionAllocations := v; commandStream := commandStream s;
     indirectHeap := indirectHeap s;
     internalAllocationStorage := internalAllocationStorage s;
     tagAllocation := tagAllocation s; tagAddress := tagAddress s;
     debugSurface := debugSurface s; osContextId := osContextId s;
     memoryManager := memoryManager s |}.

Definition setCommandStream s (v : LinearStream.t) : CommandStreamReceiver MM :=
  {| taskCount := taskCount s; latestFlushedTaskCount := latestFlushedTaskCount s;
     totalMemoryUsed := totalMemoryUsed s; residencyAllocations := residencyAllocations s;
     evictionAllocations := evictionAllocations s; commandStream := v;
     indirectHeap := indirectHeap s;
     internalAllocationStorage := internalAllocationStorage s;
     tagAllocation := tagAllocation s; tagAddress := tagAddress s;
     debugSurface := debugSurface s; osContextId := osContextId s;
     memoryManager := memoryManager s |}.

Definition setIndirectHeap s (heapType : IndirectHeap.Type_) (v : option IndirectHeap.t)
    : CommandStreamReceiver MM :=
  {| taskCount := taskCount s; latestFlushedTaskCount := latestFlushedTaskCount s;
     totalMemoryUsed := totalMemoryUsed s; residencyAllocations := residencyAllocations s;
     evictionAllocations := evictionAllocations s; commandStream := commandStream s;
     indirectHeap := fun t => if decide (t = heapType) then v else indirectHeap s t;
     internalAllocationStorage := internalAllocationStorage s;
     tagAllocation := tagAllocation s; tagAddress := tagAddress s;
     debugSurface := debugSurface s; osContextId := osContextId s;
     memoryManager := memoryManager s |}.

Definition setInternalAllocationStorage s (v : InternalAllocationStorage.t)
    : CommandStreamReceiver MM :=
  {| taskCount := taskCount s; latestFlushedTaskCount := latestFlushedTaskCount s;
     totalMemoryUsed := totalMemoryUsed s; residencyAllocations := residencyAllocations s;
     evictionAllocations := evictionAllocations s; commandStream := commandStream s;
     indirectHeap := indirectHeap s; internalAllocationStorage := v;
     tagAllocation := tagAllocation s; tagAddress := tagAddress s;
     debugSurface := debugSurface s; osContextId := osContextId s;
     memoryManager := memoryManager s |}.

Definition setTag s (a : option GraphicsAllocation.t) (address : option Z)
    : CommandStreamReceiver MM :=
  {| taskCount := taskCount s; latestFlushedTaskCount := latestFlushedTaskCount s;
     totalMemoryUsed := totalMemoryUsed s; residencyAllocations := residencyAllocations s;
     evictionAllocations := evictionAllocations s; commandStream := commandStream s;
     indirectHeap := indirectHeap s;
     internalAllocationStorage := internalAllocationStorage s;
     tagAllocation := a; tagAddress := address;
     debugSurface := debugSurface s; osContextId := osContextId s;
     memoryManager := memoryManager s |}.

Definition setDebugSurface s (v : option GraphicsAllocation.t) : CommandStreamReceiver MM :=
  {| taskCount := taskCount s; latestFlushedTaskCount := latestFlushedTaskCount s;
     totalMemoryUsed := totalMemoryUsed s; residencyAllocations := residencyAllocations s;
     evictionAllocations := evictionAllocations s; commandStream := commandStream s;
     indirectHeap := indirectHeap s;
     internalAllocationStorage := internalAllocationStorage s;
     tagAllocation := tagAllocation s; tagAddress := tagAddress s;
     debugSurface := v; osContextId := osContextId s;
     memoryManager := memoryManager s |}.

Definition setMemoryManager s (v : MM) : CommandStreamReceiver MM :=
  {| taskCount := taskCount s; latestFlushedTaskCount := latestFlushedTaskCount s;
     totalMemoryUsed := totalMemoryUsed s; residencyAllocations := residencyAllocations s;
     evictionAllocations := evictionAllocations s; commandStream := commandStream s;
     indirectHeap := indirectHeap s;
     internalAllocationStorage := internalAllocationStorage s;
     tagAllocation := tagAllocation s; tagAddress := tagAddress s;
     debugSurface := debugSurface s; osContextId := osContextId s;
     memoryManager := v |}.

End Setters.

(** Constants and globals that the file reads and that are declared in
    headers outside src/ ([MemoryConstants], [CSRequirements],
    [defaultHeapSize], the receiver's [defaultSshSize] and
    [initialHardwareTag], [DebugManager.flags]); they are parameters of the
    development. *)
Class Platform := {
  pageSize : Z;
  pageSize64k : Z;
  cacheLineSize : Z;
  csOverfetchSize : Z;
  defaultHeapSize : Z;
  defaultSshSize : Z;
  initialHardwareTag : Z;
  flags : DebugVariables }.

(** The virtual member functions that the base class leaves to the
    hardware-specific receivers, and the scratch-space controller's
    [reserveHeap]; their code is not under src/. *)
Class Overrides (MM : Type) := {
  makeCoherent : GraphicsAllocation.t -> CommandStreamReceiver MM ->
                 GraphicsAllocation.t * CommandStreamReceiver MM;
  flushBatchedSubmissions : CommandStreamReceiver MM -> CommandStreamReceiver MM;
  reserveHeap : IndirectHeap.Type_ -> IndirectHeap.t -> IndirectHeap.t }.

Section Receiver.
Context {MM : Type} `{!MemoryManager MM} `{!Platform} `{!Overrides MM}.
Implicit Type s : CommandStreamReceiver MM.

(** [auto submissionTaskCount = this->taskCount + 1;] on [uint32_t]. *)
Definition submissionTaskCount s : Z := wrap_uint32 (taskCount s + 1).

(** [CommandStreamReceiver::makeResident]. *)
Definition makeResident (gfxAllocation : GraphicsAllocation.t) s
    : GraphicsAllocation.t * CommandStreamReceiver MM :=
  let contextId := osContextId s in
  let '(gfx1, s1) :=
    if GraphicsAllocation.isResidencyTaskCountBelow gfxAllocation (submissionTaskCount s) contextId
    then
      let s1 := setResidencyAllocations s
                  (residencyAllocations s ++ [GraphicsAllocation.self gfxAllocation]) in
      let gfx1 := GraphicsAllocation.updateTaskCount gfxAllocation (submissionTaskCount s) contextId in
      let s2 :=
        if negb (GraphicsAllocation.isResident gfx1 contextId)
        then setTotalMemoryUsed s1
               (wrap_size_t (totalMemoryUsed s1 + GraphicsAllocation.getUnderlyingBufferSize gfx1))
        else s1 in
      (gfx1, s2)
    else (gfxAllocation, s) in
  (GraphicsAllocation.updateResidencyTaskCount gfx1 (submissionTaskCount s) contextId, s1).

(** [CommandStreamReceiver::processEviction]. *)
Definition processEviction s : CommandStreamReceiver MM := setEvictionAllocations s [].

(** [CommandStreamReceiver::makeNonResident]. *)
Definition makeNonResident (gfxAllocation : GraphicsAllocation.t) s
    : GraphicsAllocation.t * CommandStreamReceiver MM :=
  let '(gfx1, s1) :=
    if GraphicsAllocation.isResident gfxAllocation (osContextId s) then
      let '(gfx0, s0) := makeCoherent gfxAllocation s in
      if GraphicsAllocation.peekEvictable gfx0
      then (gfx0, setEvictionAllocations s0
                    (evictionAllocations s0 ++ [GraphicsAllocation.self gfx0]))
      else (GraphicsAllocation.setEvictable gfx0 true, s0)
    else (gfxAllocation, s) in
  (GraphicsAllocation.releaseResidencyInOsContext gfx1 (osContextId s1), s1).

(** The storage keeps a reference to its receiver and reads the task count,
    the context id and the fence cell through it. *)
Definition storeAllocation (gfxAllocation : GraphicsAllocation.t)
    (allocationUsage : InternalAllocationStorage.AllocationUsage) s
    : CommandStreamReceiver MM :=
  setInternalAllocationStorage s
    (InternalAllocationStorage.storeAllocation gfxAllocation allocationUsage
       (taskCount s) (osContextId s) (internalAllocationStorage s)).

Definition obtainReusableAllocation (requiredSize : Z) (allocationType : AllocationType) s
    : option InternalAllocationStorage.Entry * CommandStreamReceiver MM :=
  let '(e, st) := InternalAllocationStorage.obtainReusableAllocation requiredSize allocationType
                    (tagAddress s) (internalAllocationStorage s) in
  (e, setInternalAllocationStorage s st).

(** [getMemoryManager()->allocateGraphicsMemoryWithProperties({size, type})]. *)
Definition allocateGraphicsMemory (size : Z) (allocationType : AllocationType) s
    : option GraphicsAllocation.t * CommandStreamReceiver MM :=
  let '(a, mm) := allocateGraphicsMemoryWithProperties size allocationType (memoryManager s) in
  (a, setMemoryManager s mm).

(** The size that [getCS] asks for once the stream is too small: the request
    plus a cache line and the overfetch area, rounded up to 64 KB pages. *)
Definition csAllocationSize (minRequiredSize : Z) : Z :=
  alignUp (wrap_size_t (wrap_size_t (minRequiredSize + cacheLineSize) + csOverfetchSize))
    pageSize64k.

(** The size of the stream over that allocation:
    [minRequiredSize - MemoryConstants::cacheLineSize - CSRequirements::csOverfetchSize]. *)
Definition csStreamSize (minRequiredSize : Z) : Z :=
  wrap_size_t (wrap_size_t (csAllocationSize minRequiredSize - cacheLineSize) - csOverfetchSize).

(** [CommandStreamReceiver::getCS]; the result is the receiver, whose
    [commandStream] is the returned reference. *)
Definition getCS (minRequiredSize : Z) s : Outcome (CommandStreamReceiver MM) :=
  if LinearStream.getAvailableSpace (commandStream s) <? minRequiredSize then
    let size := csAllocationSize minRequiredSize in
    let '(reused, s1) := obtainReusableAllocation size COMMAND_BUFFER s in
    let '(allocation, s2) :=
      match reused with
      | Some e => (Some (InternalAllocationStorage.allocation e), s1)
      | None => allocateGraphicsMemory size COMMAND_BUFFER s1
      end in
    s3 ← (if bool_decide (LinearStream.getCpuBase (commandStream s2) = 0) then Ok s2
          else old ← deref (LinearStream.getGraphicsAllocation (commandStream s2));
               Ok (storeAllocation old InternalAllocationStorage.REUSABLE_ALLOCATION s2));
    a ← deref allocation;
    let cs1 := LinearStream.replaceBuffer (commandStream s3)
                 (GraphicsAllocation.getUnderlyingBuffer a) (csStreamSize minRequiredSize) in
    let cs2 := LinearStream.replaceGraphicsAllocation cs1 (Some a) in
    Ok (setCommandStream s3 cs2)
  else Ok s.

(** The first part of [allocateHeapMemory]: whether the heap goes to the
    internal heap, and the size asked of the storage and the memory manager,
    [alignUp(std::max(finalHeapSize, minRequiredSize), MemoryConstants::pageSize)]
    with [reservedSize = 0] added to the request. *)
Definition requireInternalHeap (heapType : IndirectHeap.Type_) : bool :=
  if AddPatchInfoCommentsForAUBDump flags then false
  else bool_decide (IndirectHeap.INDIRECT_OBJECT = heapType).

Definition heapAllocationType (heapType : IndirectHeap.Type_) : AllocationType :=
  if requireInternalHeap heapType then INTERNAL_HEAP else LINEAR_STREAM.

Definition heapAllocationSize (heapType : IndirectHeap.Type_) (minRequiredSize : Z) : Z :=
  let reservedSize := 0 in
  let finalHeapSize :=
    if bool_decide (IndirectHeap.SURFACE_STATE = heapType) then defaultSshSize
    else defaultHeapSize in
  let minRequiredSize := wrap_size_t (minRequiredSize + reservedSize) in
  alignUp (std_max finalHeapSize minRequiredSize) pageSize.

(** [CommandStreamReceiver::allocateHeapMemory]; [heap] is the slot
    [IndirectHeap *&indirectHeap], handed back updated.  [heapMemory] is
    dereferenced only when the slot holds a heap
    ([heapMemory->getUnderlyingBuffer()]); for an empty slot the pointer is
    passed to [new IndirectHeap] as it is, null or not. *)
Definition allocateHeapMemory (heapType : IndirectHeap.Type_) (minRequiredSize : Z)
    (heap : option IndirectHeap.t) s : Outcome (IndirectHeap.t * CommandStreamReceiver MM) :=
  let finalHeapSize := heapAllocationSize heapType minRequiredSize in
  let allocationType := heapAllocationType heapType in
  let '(reused, s1) := obtainReusableAllocation finalHeapSize allocationType s in
  let '(heapMemory, finalHeapSize, s2) :=
    match reused with
    | None =>
        let '(a, s2) := allocateGraphicsMemory finalHeapSize allocationType s1 in
        (a, finalHeapSize, s2)
    | Some e =>
        let a := InternalAllocationStorage.allocation e in
        (Some a, std_max (GraphicsAllocation.getUnderlyingBufferSize a) finalHeapSize, s1)
    end in
  let finalHeapSize :=
    if bool_decide (IndirectHeap.SURFACE_STATE = heapType)
    then wrap_size_t (defaultSshSize - pageSize)
    else finalHeapSize in
  heap' ←
    match heap with
    | Some h =>
        a ← deref heapMemory;
        Ok (IndirectHeap.onStream
              (fun st => LinearStream.replaceGraphicsAllocation
                           (LinearStream.replaceBuffer st
                              (GraphicsAllocation.getUnderlyingBuffer a) finalHeapSize)
                           (Some a)) h)
    | None =>
        Ok (IndirectHeap.onStream (fun st => LinearStream.overrideMaxSize st finalHeapSize)
              (IndirectHeap.create heapMemory (requireInternalHeap heapType)))
    end;
  Ok (reserveHeap heapType heap', s2).

(** [CommandStreamReceiver::getIndirectHeap]; the returned reference is the
    heap in slot [heapType] of the resulting receiver. *)
Definition getIndirectHeap (heapType : IndirectHeap.Type_) (minRequiredSize : Z) s
    : Outcome (CommandStreamReceiver MM) :=
  let heap := indirectHeap s heapType in
  let heapMemory := h ← heap; IndirectHeap.getGraphicsAllocation h in
  let '(heapMemory, s1) :=
    match heap, heapMemory with
    | Some h, Some a =>
        if IndirectHeap.getAvailableSpace h <? minRequiredSize
        then (None, storeAllocation a InternalAllocationStorage.REUSABLE_ALLOCATION s)
        else (heapMemory, s)
    | _, _ => (heapMemory, s)
    end in
  match heapMemory with
  | None =>
      '(h', s2) ← allocateHeapMemory heapType minRequiredSize heap s1;
      Ok (setIndirectHeap s2 heapType (Some h'))
  | Some _ => _ ← deref heap; Ok s1
  end.

(** [CommandStreamReceiver::setTagAllocation]: [tagAddress] becomes the
    underlying buffer of the allocation, whose cell holds whatever the
    memory holds (0 for a fresh allocation), or [nullptr]. *)
Definition setTagAllocation (allocation : option GraphicsAllocation.t) s
    : CommandStreamReceiver MM :=
  setTag s allocation (match allocation with Some _ => Some 0 | None => None end).

(** [*this->tagAddress = value;] *)
Definition writeTag (value : Z) s : Outcome (CommandStreamReceiver MM) :=
  _ ← deref (tagAddress s); Ok (setTag s (tagAllocation s) (Some value)).

(** [CommandStreamReceiver::initializeTagAllocation]; the initial tag is
    [-1] as [uint32_t] under [EnableNullHardware]. *)
Definition initializeTagAllocation s : Outcome (bool * CommandStreamReceiver MM) :=
  let '(tagAllocation, s1) := allocateGraphicsMemory pageSize UNDECIDED s in
  match tagAllocation with
  | None => Ok (false, s1)
  | Some a =>
      let s2 := setTagAllocation (Some a) s1 in
      s3 ← writeTag (if EnableNullHardware flags then wrap_uint32 (-1)
                     else initialHardwareTag) s2;
      Ok (true, s3)
  end.

(** [CommandStreamReceiver::allocateDebugSurface]. *)
Definition allocateDebugSurface (size : Z) s
    : Outcome (option GraphicsAllocation.t * CommandStreamReceiver MM) :=
  if bool_decide (debugSurface s ≠ None) then Unrecoverable
  else
    let '(a, s1) := allocateGraphicsMemory size UNDECIDED s in
    Ok (a, setDebugSurface s1 a).

End Receiver.

(** ** Waiting for the fence *)

(** The fence cell is written by the hardware and the clock advances on its
    own, so a call sees them through its successive reads: [tagAt n] is the
    value found by the [n]-th read of [*getTagAddress()] in the call, and
    [elapsedAt n] the microseconds between [time1] and the [n]-th later
    reading of the clock. *)
Record Hardware := {
  tagAt : nat -> Z;
  elapsedAt : nat -> Z }.

(** What a call of [waitForCompletionWithTimeout] did: its return value,
    how often it read the fence (in the tests of the loop and once after
    the loop) and the clock (for [time1] before the loop and for [time2]
    inside it), the task count passed to [gtpinNotifyTaskCompletion] if
    any, and whether it flushed. *)
Record WaitResult := {
  completed : bool;
  tagReads : nat;
  clockReads : nat;
  notified : option Z;
  flushed : bool }.

Section Wait.
Context {MM : Type} `{!Overrides MM}.
Variable hw : Hardware.
Variable gtpinIsGTPinInitialized : bool.

(** The [while] loop, entered with [reads] fence reads and [clocks]
    readings of [time2] done; [fuel] bounds the number of loop tests, and
    the result is the number of reads and readings when the loop is left. *)
Fixpoint pollLoop (enableTimeout : bool) (timeoutMicroseconds taskCountToWait : Z)
    (fuel reads clocks : nat) (timeDiff : Z) : option (nat * nat) :=
  match fuel with
  | O => None
  | S fuel' =>
      if (tagAt hw reads <? taskCountToWait) && (timeDiff <=? timeoutMicroseconds) then
        if enableTimeout
        then pollLoop enableTimeout timeoutMicroseconds taskCountToWait
               fuel' (S reads) (S clocks) (elapsedAt hw clocks)
        else pollLoop enableTimeout timeoutMicroseconds taskCountToWait
               fuel' (S reads) clocks timeDiff
      else Some (S reads, clocks)
  end.

(** [CommandStreamReceiver::waitForCompletionWithTimeout].  [None]: the
    loop is still running when the fuel is spent.  The first test of the
    loop dereferences [getTagAddress()] with no test of the pointer, after
    the flush and the reading of [time1]. *)
Definition waitForCompletionWithTimeout (enableTimeout : bool)
    (timeoutMicroseconds taskCountToWait : Z) (fuel : nat) (s : CommandStreamReceiver MM)
    : option (Outcome (WaitResult * CommandStreamReceiver MM)) :=
  let timeDiff := 0 in
  let latestSentTaskCount := latestFlushedTaskCount s in
  let doFlush := latestSentTaskCount <? taskCountToWait in
  let s1 := if doFlush then flushBatchedSubmissions s else s in
  match tagAddress s1 with
  | None => Some NullDereference
  | Some _ =>
      match pollLoop enableTimeout timeoutMicroseconds taskCountToWait fuel 0 0 timeDiff with
      | None => None
      | Some (reads, clocks) =>
          let last := tagAt hw reads in
          let s2 := setTag s1 (tagAllocation s1) (Some last) in
          if taskCountToWait <=? last then
            Some (Ok ({| completed := true; tagReads := S reads; clockReads := S clocks;
                         notified := if gtpinIsGTPinInitialized then Some taskCountToWait
                                     else None;
                         flushed := doFlush |}, s2))
          else
            Some (Ok ({| completed := false; tagReads := S reads; clockReads := S clocks;
                         notified := None; flushed := doFlush |}, s2))
      end
  end.

End Wait.

(** ** A concrete configuration

    Used to run the functions on concrete inputs. *)

(** A memory manager that hands out allocations of the requested size and
    type at fresh addresses while [remaining] allows and fails afterwards. *)
Record MockMemoryManager := {
  nextSelf : N;
  remaining : nat }.

Definition mockAllocate (size : Z) (allocationType : AllocationType) (mm : MockMemoryManager)
    : option GraphicsAllocation.t * MockMemoryManager :=
  match remaining mm with
  | O => (None, mm)
  | S n =>
      (Some {| GraphicsAllocation.self := nextSelf mm;
               GraphicsAllocation.underlyingBuffer := 4096 * (Z.of_N (nextSelf mm) + 1);
               GraphicsAllocation.underlyingBufferSize := size;
               GraphicsAllocation.allocationType := allocationType;
               GraphicsAllocation.evictable := false;
               GraphicsAllocation.usageInfos := ∅ |},
       {| nextSelf := nextSelf mm + 1; remaining := n |})
  end.

#[global] Instance MockMemoryManager_ops : MemoryManager MockMemoryManager :=
  {| allocateGraphicsMemoryWithProperties := mockAllocate |}.

(** 4 KB pages, 64 KB large pages, 64-byte cache lines, one page of
    overfetch, 64 KB default heaps, fence initialised to 0. *)
Definition testPlatform : Platform :=
  {| pageSize := 4096; pageSize64k := 65536; cacheLineSize := 64;
     csOverfetchSize := 4096; defaultHeapSize := 65536; defaultSshSize := 65536;
     initialHardwareTag := 0;
     flags := {| AddPatchInfoCommentsForAUBDump := false; EnableNullHardware := false |} |}.

(** The base-class behaviour: nothing to make coherent, nothing batched,
    nothing reserved in a heap. *)
Definition baseOverrides : Overrides MockMemoryManager :=
  {| makeCoherent := fun a s => (a, s);
     flushBatchedSubmissions := fun s => s;
     reserveHeap := fun _ h => h |}.

Definition newReceiver (mm : MockMemoryManager) : CommandStreamReceiver MockMemoryManager :=
  {| taskCount := 0; latestFlushedTaskCount := 0; totalMemoryUsed := 0;
     residencyAllocations := []; evictionAllocations := [];
     commandStream := LinearStream.empty;
     indirectHeap := fun _ => None;
     internalAllocationStorage := InternalAllocationStorage.empty;
     tagAllocation := None; tagAddress := None;
     debugSurface := None; osContextId := 0%N;
     memoryManager := mm |}.

Definition withTaskCount {MM} (s : CommandStreamReceiver MM) (v : Z) : CommandStreamReceiver MM :=
  {| taskCount := v; latestFlushedTaskCount := latestFlushedTaskCount s;
     totalMemoryUsed := totalMemoryUsed s; residencyAllocations := residencyAllocations s;
     evictionAllocations := evictionAllocations s; commandStream := commandStream s;
     indirectHeap := indirectHeap s;
     internalAllocationStorage := internalAllocationStorage s;
     tagAllocation := tagAllocation s; tagAddress := tagAddress s;
     debugSurface := debugSurface s; osContextId := osContextId s;
     memoryManager := memoryManager s |}.

Definition testAllocation (self : N) (size : Z) (ty : AllocationType) : GraphicsAllocation.t :=
  {| GraphicsAllocation.self := self;
     GraphicsAllocation.underlyingBuffer := 4096 * (Z.of_N self + 1);
     GraphicsAllocation.underlyingBufferSize := size;
     GraphicsAllocation.allocationType := ty;
     GraphicsAllocation.evictable := false;
     GraphicsAllocation.usageInfos := ∅ |}.

(** A new receiver after its tag allocation was set up: the fence cell
    holds 0. *)
Definition initializedReceiver (mm : MockMemoryManager)
    : CommandStreamReceiver MockMemoryManager :=
  setTag (newReceiver mm) (Some (testAllocation 0 4096 UNDECIDED)) (Some 0).

(** The watermark of an allocation after three [makeResident] calls made
    while the task count of the receiver is [t1], [t2], [t3]. *)
Definition watermarkAfterThree {MM} (t1 t2 t3 : Z)
    (gfxAllocation : GraphicsAllocation.t) (s : CommandStreamReceiver MM) : Z :=
  let '(g1, s1) := makeResident gfxAllocation (withTaskCount s t1) in
  let '(g2, s2) := makeResident g1 (withTaskCount s1 t2) in
  let '(g3, s3) := makeResident g2 (withTaskCount s2 t3) in
  GraphicsAllocation.getResidencyTaskCount g3 (osContextId s3).

(** [n] consecutive [makeResident] calls on the same allocation. *)
Fixpoint makeResidentTimes {MM} (n : nat)
    (gfxAllocation : GraphicsAllocation.t) (s : CommandStreamReceiver MM)
    : GraphicsAllocation.t * CommandStreamReceiver MM :=
  match n with
  | O => (gfxAllocation, s)
  | S n' => let '(g, s') := makeResident gfxAllocation s in makeResidentTimes n' g s'
  end.

(** The fence has reached the free-after count of a list entry: the
    receiver has a fence cell and the value it holds is at least the count. *)
Definition fenceReached {MM} (s : CommandStreamReceiver MM)
    (e : InternalAllocationStorage.Entry) : Prop :=
  exists fence, tagAddress s = Some fence /\ InternalAllocationStorage.freeAfter e <= fence.

(** A receiver at task count 9 whose fence cell holds 5 and whose reusable
    list holds a command buffer of 128 KB that is free only after task count
    8, a command buffer of 64 KB that is free after task count 3, and a
    linear-stream allocation of 64 KB free after 4. *)
Definition reuseReceiver : CommandStreamReceiver MockMemoryManager :=
  {| taskCount := 9; latestFlushedTaskCount := 9; totalMemoryUsed := 0;
     residencyAllocations := []; evictionAllocations := [];
     commandStream := LinearStream.empty;
     indirectHeap := fun _ => None;
     internalAllocationStorage :=
       {| InternalAllocationStorage.temporaryAllocations := [];
          InternalAllocationStorage.allocationsForReuse :=
            [ {| InternalAllocationStorage.allocation := testAllocation 3 131072 COMMAND_BUFFER;
                 InternalAllocationStorage.freeAfter := 8 |};
              {| InternalAllocationStorage.allocation := testAllocation 1 65536 COMMAND_BUFFER;
                 InternalAllocationStorage.freeAfter := 3 |};
              {| InternalAllocationStorage.allocation := testAllocation 2 65536 LINEAR_STREAM;
                 InternalAllocationStorage.freeAfter := 4 |} ] |};
     tagAllocation := None; tagAddress := Some 5;
     debugSurface := None; osContextId := 0%N;
     memoryManager := {| nextSelf := 10; remaining := 1 |} |}.

(** A receiver whose heap of type [heapType] has the backing [backing],
    a capacity of [capacity] bytes and [used] bytes in use. *)
Definition heapReceiver (heapType : IndirectHeap.Type_) (backing : GraphicsAllocation.t)
    (capacity used : Z) (mm : MockMemoryManager) : CommandStreamReceiver MockMemoryManager :=
  setIndirectHeap (initializedReceiver mm) heapType
    (Some {| IndirectHeap.stream :=
               {| LinearStream.buffer := GraphicsAllocation.getUnderlyingBuffer backing;
                  LinearStream.maxAvailableSpace := capacity;
                  LinearStream.sizeUsed := used;
                  LinearStream.graphicsAllocation := Some backing |};
             IndirectHeap.canBeUtilizedAs4GbHeap := false |}).

(** The free space and the capacity of the heap in slot [heapType]. *)
Definition heapAvailableSpace {MM} (heapType : IndirectHeap.Type_)
    (s : CommandStreamReceiver MM) : option Z :=
  IndirectHeap.getAvailableSpace <$> indirectHeap s heapType.

Definition heapCapacity {MM} (heapType : IndirectHeap.Type_)
    (s : CommandStreamReceiver MM) : option Z :=
  IndirectHeap.getMaxAvailableSpace <$> indirectHeap s heapType.

(** The value of [timeDiff] at the [i]-th test of the loop condition of
    [waitForCompletionWithTimeout], counting from 0: it starts at 0 and is
    refreshed from the clock at the end of an iteration only when the
    timeout is enabled. *)
Definition timeDiffAt (hw : Hardware) (enableTimeout : bool) (i : nat) : Z :=
  match i with
  | O => 0
  | S j => if enableTimeout then elapsedAt hw j else 0
  end.

(** The loop is left at the [i]-th test: the fence has reached the target
    or [timeDiff] is above the timeout. *)
Definition leavesLoopAt (hw : Hardware) (enableTimeout : bool)
    (timeoutMicroseconds taskCountToWait : Z) (i : nat) : Prop :=
  taskCountToWait <= tagAt hw i
  \/ timeoutMicroseconds < timeDiffAt hw enableTimeout i.

(** Hardware that never completes anything: the fence stays at 0 while the
    clock advances by a microsecond per reading. *)
Definition idleHardware : Hardware :=
  {| tagAt := fun _ => 0; elapsedAt := fun n => Z.of_nat (S n) |}.

(** Hardware that completes one task per fence read. *)
Definition busyHardware : Hardware :=
  {| tagAt := fun n => Z.of_nat n; elapsedAt := fun n => Z.of_nat (S n) |}.

(** An initialised receiver whose debug surface is set as well; the memory
    manager can still allocate. *)
Definition debugReceiver : CommandStreamReceiver MockMemoryManager :=
  setDebugSurface (initializedReceiver {| nextSelf := 20; remaining := 4 |})
    (Some (testAllocation 8 4096 UNDECIDED)).

(** ** Further member functions *)

(** [CommandStreamReceiver::setRequiredScratchSize], on the data member
    [requiredScratchSize]. *)
Definition setRequiredScratchSize (newRequiredScratchSize requiredScratchSize : Z) : Z :=
  if requiredScratchSize <? newRequiredScratchSize then newRequiredScratchSize
  else requiredScratchSize.

(** [CommandStreamReceiver::releaseIndirectHeap]. *)
Definition releaseIndirectHeap {MM} (heapType : IndirectHeap.Type_)
    (s : CommandStreamReceiver MM) : CommandStreamReceiver MM :=
  match indirectHeap s heapType with
  | Some heap =>
      let s1 :=
        match IndirectHeap.getGraphicsAllocation heap with
        | Some heapMemory =>
            storeAllocation heapMemory InternalAllocationStorage.REUSABLE_ALLOCATION s
        | None => s
        end in
      setIndirectHeap s1 heapType
        (Some (IndirectHeap.onStream
                 (fun st => LinearStream.replaceGraphicsAllocation
                              (LinearStream.replaceBuffer st 0 0) None) heap))
  | None => s
  end.

(** [waitBeforeMakingNonResidentWhenRequired], a virtual member function
    whose code is not under src/. *)
Class ResidencyOverrides (MM : Type) := {
  waitBeforeMakingNonResidentWhenRequired :
    CommandStreamReceiver MM -> CommandStreamReceiver MM }.

(** The argument of [makeSurfacePackNonResident] is a reference to a
    container of allocation pointers, which is the receiver's own
    [residencyAllocations] or some other container. *)
Inductive ResidencyContainerRef :=
| OwnResidencyAllocations
| OtherContainer (surfaces : list N).

Definition containerContents {MM} (c : ResidencyContainerRef)
    (s : CommandStreamReceiver MM) : list N :=
  match c with
  | OwnResidencyAllocations => residencyAllocations s
  | OtherContainer surfaces => surfaces
  end.

Section SurfacePack.
Context {MM : Type} `{!Overrides MM} `{!ResidencyOverrides MM}.

(** The loop [for (auto &surface : allocationsForResidency)
    makeNonResident(surface)]: [objects] holds the allocation objects by
    address, and a pointer without an object is a null or dangling
    pointer. *)
Fixpoint makeNonResidentEach (surfaces : list N) (objects : gmap N GraphicsAllocation.t)
    (s : CommandStreamReceiver MM)
    : Outcome (gmap N GraphicsAllocation.t * CommandStreamReceiver MM) :=
  match surfaces with
  | [] => Ok (objects, s)
  | surface :: rest =>
      gfxAllocation ← deref (objects !! surface);
      let '(g, s') := makeNonResident gfxAllocation s in
      makeNonResidentEach rest (<[surface := g]> objects) s'
  end.

(** [CommandStreamReceiver::makeSurfacePackNonResident]; the container is
    handed back cleared. *)
Definition makeSurfacePackNonResident (allocationsForResidency : ResidencyContainerRef)
    (objects : gmap N GraphicsAllocation.t) (s : CommandStreamReceiver MM)
    : Outcome (ResidencyContainerRef * gmap N GraphicsAllocation.t * CommandStreamReceiver MM) :=
  let s0 := waitBeforeMakingNonResidentWhenRequired s in
  '(objects', s1) ← makeNonResidentEach (containerContents allocationsForResidency s0) objects s0;
  let '(c, s2) :=
    match allocationsForResidency with
    | OwnResidencyAllocations => (OwnResidencyAllocations, setResidencyAllocations s1 [])
    | OtherContainer _ => (OtherContainer [], s1)
    end in
  Ok (c, objects', processEviction s2).

(** A submission cycle of one allocation: made resident, then made
    non-resident; and [n] such cycles in a row with no [processEviction]
    in between. *)
Definition residencyCycle (gfxAllocation : GraphicsAllocation.t) (s : CommandStreamReceiver MM)
    : GraphicsAllocation.t * CommandStreamReceiver MM :=
  let '(g, s') := makeResident gfxAllocation s in makeNonResident g s'.

Fixpoint residencyCycles (n : nat) (gfxAllocation : GraphicsAllocation.t)
    (s : CommandStreamReceiver MM) : GraphicsAllocation.t * CommandStreamReceiver MM :=
  match n with
  | O => (gfxAllocation, s)
  | S n' => let '(g, s') := residencyCycle gfxAllocation s in residencyCycles n' g s'
  end.

End SurfacePack.

(** The base-class behaviour of [waitBeforeMakingNonResidentWhenRequired]:
    nothing to wait for. *)
Definition baseResidencyOverrides : ResidencyOverrides MockMemoryManager :=
  {| waitBeforeMakingNonResidentWhenRequired := fun s => s |}.


(** The fence never goes back. *)
Definition fenceMonotone (hw : Hardware) : Prop :=
  forall i j : nat, (i <= j)%nat -> tagAt hw i <= tagAt hw j.

(** ** Cleaning up *)

(** Modelled from the spec: the release operation of the allocator
    collaborator of section 6, [free(Allocation)]
    ([MemoryManager::freeGraphicsMemory]; memory_manager.h is not under
    src/).  The argument is the pointer passed, [None] for [nullptr]. *)
Class MemoryManagerRelease (MM : Type) := {
  freeGraphicsMemory : option GraphicsAllocation.t -> MM -> MM }.

(** A run of the fence-polling functions either is still spinning when the
    fuel is spent ([None]) or has an outcome. *)
Definition bindRun {A B : Type} (m : option (Outcome A)) (k : A -> option (Outcome B))
    : option (Outcome B) :=
  match m with
  | None => None
  | Some (Ok a) => k a
  | Some NullDereference => Some NullDereference
  | Some Unrecoverable => Some Unrecoverable
  end.

(** The heap slots in the order of the loop [for (int i = 0; i <
    IndirectHeap::NUM_TYPES; ++i)]. *)
Definition heapTypes : list IndirectHeap.Type_ :=
  [IndirectHeap.DYNAMIC_STATE; IndirectHeap.INDIRECT_OBJECT;
   IndirectHeap.SURFACE_STATE; IndirectHeap.INSTRUCTION].

(** Modelled from the spec: the list of the storage that an allocation
    usage names. *)
Definition allocationList (allocationUsage : InternalAllocationStorage.AllocationUsage)
    (st : InternalAllocationStorage.t) : list InternalAllocationStorage.Entry :=
  match allocationUsage with
  | InternalAllocationStorage.TEMPORARY_ALLOCATION =>
      InternalAllocationStorage.temporaryAllocations st
  | InternalAllocationStorage.REUSABLE_ALLOCATION =>
      InternalAllocationStorage.allocationsForReuse st
  end.

Definition setAllocationList (allocationUsage : InternalAllocationStorage.AllocationUsage)
    (l : list InternalAllocationStorage.Entry) (st : InternalAllocationStorage.t)
    : InternalAllocationStorage.t :=
  match allocationUsage with
  | InternalAllocationStorage.TEMPORARY_ALLOCATION =>
      {| InternalAllocationStorage.temporaryAllocations := l;
         InternalAllocationStorage.allocationsForReuse :=
           InternalAllocationStorage.allocationsForReuse st |}
  | InternalAllocationStorage.REUSABLE_ALLOCATION =>
      {| InternalAllocationStorage.temporaryAllocations :=
           InternalAllocationStorage.temporaryAllocations st;
         InternalAllocationStorage.allocationsForReuse := l |}
  end.

(** Modelled from the spec: the test of [cleanAllocationList] (section
    4.2) on one entry: its free-after count is at most the task count, or
    the task count is the sentinel for "all", which the source writes [-1]
    (as [uint32_t]). *)
Definition cleanedAt (waitTaskCount : Z) (e : InternalAllocationStorage.Entry) : bool :=
  bool_decide (waitTaskCount = wrap_uint32 (-1))
  || (InternalAllocationStorage.freeAfter e <=? waitTaskCount).

Section Cleanup.
Context {MM : Type} `{!MemoryManagerRelease MM}.
Implicit Type s : CommandStreamReceiver MM.

(** A sequence of [freeGraphicsMemory] calls. *)
Definition freeSequence (pointers : list (option GraphicsAllocation.t)) (mm : MM) : MM :=
  fold_left (fun mm a => freeGraphicsMemory a mm) pointers mm.

(** [getMemoryManager()->freeGraphicsMemory(allocation)]. *)
Definition freeThroughManager (allocation : option GraphicsAllocation.t) s
    : CommandStreamReceiver MM :=
  setMemoryManager s (freeGraphicsMemory allocation (memoryManager s)).

(** Modelled from the spec: [InternalAllocationStorage::cleanAllocationList]
    (section 4.2) frees every entry of the list whose free-after count is at
    most the task count, in list order, and keeps the others.  It frees
    through the memory manager of the receiver: [hasMemoryManager] says
    whether [executionEnvironment.memoryManager] is set, and freeing
    without one dereferences null. *)
Definition cleanAllocationList (hasMemoryManager : bool) (waitTaskCount : Z)
    (allocationUsage : InternalAllocationStorage.AllocationUsage) s
    : Outcome (CommandStreamReceiver MM) :=
  let l := allocationList allocationUsage (internalAllocationStorage s) in
  let freed := List.filter (cleanedAt waitTaskCount) l in
  let kept := List.filter (fun e => negb (cleanedAt waitTaskCount e)) l in
  match freed with
  | [] => Ok s
  | _ :: _ =>
      if hasMemoryManager then
        Ok (setMemoryManager
              (setInternalAllocationStorage s
                 (setAllocationList allocationUsage kept (internalAllocationStorage s)))
              (freeSequence (map (fun e => Some (InternalAllocationStorage.allocation e)) freed)
                 (memoryManager s)))
      else NullDereference
  end.

Variable hw : Hardware.

(** The empty loop that spins while the value at [address] is below
    [requiredTaskCount], entered with [reads] fence reads done; the result
    is the number of reads when it is left. *)
Fixpoint spinUntil (requiredTaskCount : Z) (fuel reads : nat) : option nat :=
  match fuel with
  | O => None
  | S fuel' =>
      if tagAt hw reads <? requiredTaskCount
      then spinUntil requiredTaskCount fuel' (S reads)
      else Some (S reads)
  end.

(** [CommandStreamReceiver::waitForTaskCountAndCleanAllocationList]; the
    result carries the number of fence reads done so far. *)
Definition waitForTaskCountAndCleanAllocationList (hasMemoryManager : bool)
    (requiredTaskCount : Z) (allocationUsage : InternalAllocationStorage.AllocationUsage)
    (fuel reads : nat) s : option (Outcome (nat * CommandStreamReceiver MM)) :=
  match tagAddress s with
  | Some _ =>
      match spinUntil requiredTaskCount fuel reads with
      | None => None
      | Some reads' =>
          let s0 := setTag s (tagAllocation s) (Some (tagAt hw (Nat.pred reads'))) in
          Some (s1 ← cleanAllocationList hasMemoryManager requiredTaskCount allocationUsage s0;
                Ok (reads', s1))
      end
  | None =>
      Some (s1 ← cleanAllocationList hasMemoryManager requiredTaskCount allocationUsage s;
            Ok (reads, s1))
  end.

(** The three releases at the end of [cleanupResources]. *)
Definition releaseDebugSurface s : CommandStreamReceiver MM :=
  match debugSurface s with
  | Some d => setDebugSurface (freeThroughManager (Some d) s) None
  | None => s
  end.

Definition releaseCommandStream s : CommandStreamReceiver MM :=
  if bool_decide (LinearStream.getCpuBase (commandStream s) = 0) then s
  else
    let s1 := freeThroughManager (LinearStream.getGraphicsAllocation (commandStream s)) s in
    setCommandStream s1
      (LinearStream.replaceBuffer
         (LinearStream.replaceGraphicsAllocation (commandStream s1) None) 0 0).

Definition releaseTagAllocation s : CommandStreamReceiver MM :=
  match tagAllocation s with
  | Some t => setTag (freeThroughManager (Some t) s) None None
  | None => s
  end.

(** [CommandStreamReceiver::cleanupResources]. *)
Definition cleanupResources (hasMemoryManager : bool) (fuel reads : nat) s
    : option (Outcome (nat * CommandStreamReceiver MM)) :=
  if negb hasMemoryManager then Some (Ok (reads, s))
  else
    bindRun (waitForTaskCountAndCleanAllocationList hasMemoryManager
               (latestFlushedTaskCount s) InternalAllocationStorage.TEMPORARY_ALLOCATION
               fuel reads s)
      (fun '(reads1, s1) =>
    bindRun (waitForTaskCountAndCleanAllocationList hasMemoryManager
               (latestFlushedTaskCount s1) InternalAllocationStorage.REUSABLE_ALLOCATION
               fuel reads1 s1)
      (fun '(reads2, s2) =>
    Some (Ok (reads2,
              releaseTagAllocation (releaseCommandStream (releaseDebugSurface s2)))))).

(** One round of the loop of the destructor: the backing of the heap goes
    to the reusable list and the heap is deleted. *)
Definition retireHeap s (heapType : IndirectHeap.Type_) : CommandStreamReceiver MM :=
  match indirectHeap s heapType with
  | Some heap =>
      let s1 :=
        match IndirectHeap.getGraphicsAllocation heap with
        | Some allocation =>
            storeAllocation allocation InternalAllocationStorage.REUSABLE_ALLOCATION s
        | None => s
        end in
      setIndirectHeap s1 heapType None
  | None => s
  end.

(** [CommandStreamReceiver::~CommandStreamReceiver]. *)
Definition destroyReceiver (hasMemoryManager : bool) (fuel reads : nat) s
    : option (Outcome (nat * CommandStreamReceiver MM)) :=
  let s0 := fold_left retireHeap heapTypes s in
  bindRun (cleanupResources hasMemoryManager fuel reads s0)
    (fun '(reads1, s1) =>
       Some (s2 ← cleanAllocationList hasMemoryManager (wrap_uint32 (-1))
                    InternalAllocationStorage.REUSABLE_ALLOCATION s1;
             s3 ← cleanAllocationList hasMemoryManager (wrap_uint32 (-1))
                    InternalAllocationStorage.TEMPORARY_ALLOCATION s2;
             Ok (reads1, s3))).

(** The allocations that a receiver holds apart from the command stream's:
    the entries of both lists, the backings of the heaps and the debug
    surface. *)
Definition storedPointers s : list (option GraphicsAllocation.t) :=
  map (fun e => Some (InternalAllocationStorage.allocation e))
    (InternalAllocationStorage.temporaryAllocations (internalAllocationStorage s))
  ++ map (fun e => Some (InternalAllocationStorage.allocation e))
       (InternalAllocationStorage.allocationsForReuse (internalAllocationStorage s))
  ++ omap (fun t => heap ← indirectHeap s t;
                    a ← IndirectHeap.getGraphicsAllocation heap; Some (Some a)) heapTypes
  ++ match debugSurface s with Some d => [Some d] | None => [] end.

(** The allocations that a receiver owns: those, the allocation of the
    command stream if it has one, and the tag allocation. *)
Definition ownedPointers s : list (option GraphicsAllocation.t) :=
  storedPointers s
  ++ match LinearStream.getGraphicsAllocation (commandStream s) with
     | Some c => [Some c]
     | None => []
     end
  ++ match tagAllocation s with Some t => [Some t] | None => [] end.

(** The pointers that the destructor passes to [freeGraphicsMemory]: the
    pointer of the command stream is passed, null or not, exactly when the
    stream has a CPU base. *)
Definition releasedPointers s : list (option GraphicsAllocation.t) :=
  storedPointers s
  ++ (if bool_decide (LinearStream.getCpuBase (commandStream s) = 0) then []
      else [LinearStream.getGraphicsAllocation (commandStream s)])
  ++ match tagAllocation s with Some t => [Some t] | None => [] end.

End Cleanup.

(** A memory manager that keeps a log of the pointers it was asked to
    free. *)
Record LoggingMemoryManager := {
  freed : list (option GraphicsAllocation.t) }.

#[global] Instance LoggingMemoryManager_release : MemoryManagerRelease LoggingMemoryManager :=
  {| freeGraphicsMemory := fun a mm => {| freed := freed mm ++ [a] |} |}.

(** A receiver at the end of its life: the fence cell holds 3 and the
    last flushed task count is 5; a temporary entry free after 2, a
    reusable entry free after 7, a dynamic-state heap, a debug surface, a
    command stream with a buffer and the tag allocation. *)
Definition dyingReceiver : CommandStreamReceiver LoggingMemoryManager :=
  {| taskCount := 5; latestFlushedTaskCount := 5; totalMemoryUsed := 0;
     residencyAllocations := []; evictionAllocations := [];
     commandStream := LinearStream.ofAllocation (testAllocation 4 65536 COMMAND_BUFFER);
     indirectHeap := fun t =>
       if decide (t = IndirectHeap.DYNAMIC_STATE)
       then Some (IndirectHeap.create (Some (testAllocation 5 65536 LINEAR_STREAM)) false)
       else None;
     internalAllocationStorage :=
       {| InternalAllocationStorage.temporaryAllocations :=
            [{| InternalAllocationStorage.allocation := testAllocation 1 4096 UNDECIDED;
                InternalAllocationStorage.freeAfter := 2 |}];
          InternalAllocationStorage.allocationsForReuse :=
            [{| InternalAllocationStorage.allocation := testAllocation 2 65536 COMMAND_BUFFER;
                InternalAllocationStorage.freeAfter := 7 |}] |};
     tagAllocation := Some (testAllocation 0 4096 UNDECIDED); tagAddress := Some 3;
     debugSurface := Some (testAllocation 3 4096 UNDECIDED); osContextId := 0%N;
     memoryManager := {| freed := [] |} |}.

(** ** Host pointer surfaces *)

(** Modelled from the spec: the two further requests to the allocator
    collaborator that [createAllocationForHostSurface] makes
    (memory_manager.h is not under src/): an allocation over the caller's
    memory, and an allocation of its own with the given alignment. *)
Class HostPtrMemoryManager (MM : Type) := {
  allocateGraphicsMemoryForHostPtr :
    Z -> Z -> bool -> bool -> MM -> option GraphicsAllocation.t * MM;
  allocateAlignedGraphicsMemory :
    Z -> AllocationType -> Z -> MM -> option GraphicsAllocation.t * MM }.

(** The members of [HostPtrSurface] that the receiver uses (surface.h is
    not under src/). *)
Record HostPtrSurface := {
  surfaceSize : Z;
  memoryPointer : Z;
  isPtrCopyAllowed : bool;
  surfaceAllocation : option GraphicsAllocation.t }.

Definition setAllocation (surface : HostPtrSurface) (a : GraphicsAllocation.t)
    : HostPtrSurface :=
  {| surfaceSize := surfaceSize surface; memoryPointer := memoryPointer surface;
     isPtrCopyAllowed := isPtrCopyAllowed surface; surfaceAllocation := Some a |}.

Section HostSurface.
Context {MM : Type} `{!HostPtrMemoryManager MM} `{!Platform}.
(** [Event::eventNotReady], declared in event.h, which is not under src/. *)
Variable eventNotReady : Z.

(** [CommandStreamReceiver::createAllocationForHostSurface]; [isFullRangeSvm]
    is [device.isFullRangeSvm()].  The bytes that [memcpy_s] copies into the
    new allocation are not part of the model. *)
Definition createAllocationForHostSurface (surface : HostPtrSurface) (isFullRangeSvm : bool)
    (requiresL3Flush : bool) (s : CommandStreamReceiver MM)
    : bool * HostPtrSurface * CommandStreamReceiver MM :=
  let '(allocation, mm1) :=
    allocateGraphicsMemoryForHostPtr (surfaceSize surface) (memoryPointer surface)
      isFullRangeSvm requiresL3Flush (memoryManager s) in
  let '(allocation, mm2) :=
    match allocation with
    | None =>
        if isPtrCopyAllowed surface
        then allocateAlignedGraphicsMemory (surfaceSize surface) UNDECIDED pageSize mm1
        else (None, mm1)
    | Some a => (Some a, mm1)
    end in
  let s1 := setMemoryManager s mm2 in
  match allocation with
  | None => (false, surface, s1)
  | Some a =>
      let a1 := GraphicsAllocation.updateTaskCount a eventNotReady (osContextId s1) in
      (true, setAllocation surface a1,
       storeAllocation a1 InternalAllocationStorage.TEMPORARY_ALLOCATION s1)
  end.

End HostSurface.

(** A host-pointer memory manager that cannot map the caller's memory and
    has [budget] allocations of its own left. *)
Record CopyOnlyMemoryManager := {
  budget : nat;
  nextAddress : N }.

#[global] Instance CopyOnlyMemoryManager_ops : HostPtrMemoryManager CopyOnlyMemoryManager :=
  {| allocateGraphicsMemoryForHostPtr := fun _ _ _ _ mm => (None, mm);
     allocateAlignedGraphicsMemory := fun size ty _ mm =>
       match budget mm with
       | O => (None, mm)
       | S n => (Some (testAllocation (nextAddress mm) size ty),
                 {| budget := n; nextAddress := nextAddress mm + 1 |})
       end |}.

Definition hostReceiver (mm : CopyOnlyMemoryManager) : CommandStreamReceiver CopyOnlyMemoryManager :=
  {| taskCount := 4; latestFlushedTaskCount := 4; totalMemoryUsed := 0;
     residencyAllocations := []; evictionAllocations := [];
     commandStream := LinearStream.empty;
     indirectHeap := fun _ => None;
     internalAllocationStorage := InternalAllocationStorage.empty;
     tagAllocation := Some (testAllocation 0 4096 UNDECIDED); tagAddress := Some 0;
     debugSurface := None; osContextId := 0%N;
     memoryManager := mm |}.

(** * Properties *)

(** ** Arithmetic *)

Lemma std_max_spec a b : std_max a b = Z.max a b.
Proof. unfold std_max. destruct (Z.ltb_spec a b); lia. Qed.

Lemma wrap_size_t_small x : in_size_t x -> wrap_size_t x = x.
Proof. unfold in_size_t, wrap_size_t. intros H. by apply Z.mod_small. Qed.


Lemma wrap_uint32_small x : in_uint32 x -> wrap_uint32 x = x.
Proof. unfold in_uint32, wrap_uint32. intros H. by apply Z.mod_small. Qed.

(** On a power-of-two alignment and without overflow, [alignUp] is the
    usual rounding: the least multiple of the alignment at or above
    [before]. *)
Lemma alignUp_pow2 (before k : Z) :
  0 <= k < size_t_bits -> 0 <= before -> before + 2 ^ k <= 2 ^ size_t_bits ->
  alignUp before (2 ^ k) = ((before + (2 ^ k - 1)) / 2 ^ k) * 2 ^ k.
Proof.
  intros Hk Hb Hov. unfold alignUp.
  assert (Hpk : 0 < 2 ^ k) by (apply Z.pow_pos_nonneg; lia).
  assert (Hle : 2 ^ k < 2 ^ size_t_bits) by (apply Z.pow_lt_mono_r; lia).
  rewrite (wrap_size_t_small (2 ^ k - 1)) by (unfold in_size_t; lia).
  rewrite (wrap_size_t_small (before + _)) by (unfold in_size_t; lia).
  set (x := before + (2 ^ k - 1)).
  assert (Hx : 0 <= x < 2 ^ size_t_bits) by (unfold x; lia).
  replace (2 ^ k - 1) with (Z.ones k) by (rewrite Z.ones_equiv; lia).
  rewrite <- Z.shiftl_mul_pow2, <- Z.shiftr_div_pow2 by lia.
  rewrite <- Z.ldiff_ones_r by lia.
  apply Z.bits_inj'. intros n Hn.
  rewrite Z.land_spec, Z.ldiff_spec.
  unfold wrap_size_t. destruct (Z.ltb_spec n size_t_bits) as [Hlt|Hge].
  - rewrite Z.mod_pow2_bits_low by lia. by rewrite Z.lnot_spec by lia.
  - rewrite Z.mod_pow2_bits_high by (unfold size_t_bits in *; lia).
    rewrite andb_false_r.
    rewrite (Z.bits_above_log2 x n); [done | lia |].
    destruct (Z.eq_dec x 0) as [->|Hnz]; [simpl; unfold size_t_bits in *; lia|].
    apply Z.log2_lt_pow2; [lia|].
    eapply Z.lt_le_trans; [apply Hx|]. apply Z.pow_le_mono_r; lia.
Qed.

Lemma alignUp_ge (before k : Z) :
  0 <= k < size_t_bits -> 0 <= before -> before + 2 ^ k <= 2 ^ size_t_bits ->
  before <= alignUp before (2 ^ k) < before + 2 ^ k.
Proof.
  intros Hk Hb Hov. rewrite alignUp_pow2 by done.
  assert (Hpk : 0 < 2 ^ k) by (apply Z.pow_pos_nonneg; lia).
  pose proof (Z.div_mod (before + (2 ^ k - 1)) (2 ^ k) ltac:(lia)) as Hdm.
  pose proof (Z.mod_pos_bound (before + (2 ^ k - 1)) (2 ^ k) Hpk) as Hm.
  lia.
Qed.

(** ** Accessors of GraphicsAllocation *)

Section AllocationFacts.
Import GraphicsAllocation.
Implicit Types (a : GraphicsAllocation.t) (c : N).

Lemma usage_withUsage a c u : usage (withUsage a c u) c = u.
Proof. unfold usage, withUsage; simpl. by rewrite lookup_insert_eq. Qed.

Lemma isResident_updateTaskCount a tc c :
  isResident (updateTaskCount a tc c) c = isResident a c.
Proof. unfold isResident, updateTaskCount. by rewrite usage_withUsage. Qed.

Lemma getResidencyTaskCount_updateTaskCount a tc c :
  getResidencyTaskCount (updateTaskCount a tc c) c = getResidencyTaskCount a c.
Proof. unfold getResidencyTaskCount, updateTaskCount. by rewrite usage_withUsage. Qed.

Lemma isResident_updateResidencyTaskCount a tc c :
  isResident (updateResidencyTaskCount a tc c) c = true.
Proof. unfold isResident, updateResidencyTaskCount. by rewrite usage_withUsage. Qed.

Lemma getResidencyTaskCount_updateResidencyTaskCount a tc c :
  getResidencyTaskCount (updateResidencyTaskCount a tc c) c
  = Z.max (getResidencyTaskCount a c) tc.
Proof.
  unfold getResidencyTaskCount, updateResidencyTaskCount.
  rewrite usage_withUsage. simpl. apply std_max_spec.
Qed.

Lemma self_updateResidencyTaskCount a tc c : self (updateResidencyTaskCount a tc c) = self a.
Proof. done. Qed.

Lemma releaseResidency_not_resident a c :
  isResident a c = false -> releaseResidencyInOsContext a c = a.
Proof.
  unfold isResident, usage, releaseResidencyInOsContext. intros Hnr.
  rewrite alter_id; [by destruct a|].
  intros u Hu. rewrite Hu in Hnr. simpl in Hnr. destruct u; simpl in *. by subst.
Qed.

Lemma isResident_releaseResidency a c :
  isResident (releaseResidencyInOsContext a c) c = false.
Proof.
  unfold isResident, usage, releaseResidencyInOsContext. simpl.
  rewrite lookup_alter_eq. by destruct (usageInfos a !! c).
Qed.

End AllocationFacts.

(** ** Residency *)

Section ResidencyFacts.
Context {MM : Type} `{!Overrides MM}.
Implicit Type s : CommandStreamReceiver MM.
Implicit Type gfx : GraphicsAllocation.t.

Lemma makeResident_receiver gfx s :
  taskCount (makeResident gfx s).2 = taskCount s
  /\ osContextId (makeResident gfx s).2 = osContextId s.
Proof.
  unfold makeResident.
  destruct (GraphicsAllocation.isResidencyTaskCountBelow _ _ _); [|done].
  by destruct (negb _).
Qed.

Lemma makeResident_watermark gfx s :
  GraphicsAllocation.getResidencyTaskCount (makeResident gfx s).1 (osContextId s)
  = Z.max (GraphicsAllocation.getResidencyTaskCount gfx (osContextId s))
          (submissionTaskCount s).
Proof.
  unfold makeResident.
  destruct (GraphicsAllocation.isResidencyTaskCountBelow _ _ _); simpl.
  - rewrite getResidencyTaskCount_updateResidencyTaskCount.
    by rewrite getResidencyTaskCount_updateTaskCount.
  - by rewrite getResidencyTaskCount_updateResidencyTaskCount.
Qed.

Lemma makeResident_resident gfx s :
  GraphicsAllocation.isResident (makeResident gfx s).1 (osContextId s) = true.
Proof.
  unfold makeResident.
  destruct (GraphicsAllocation.isResidencyTaskCountBelow _ _ _); simpl;
    apply isResident_updateResidencyTaskCount.
Qed.

(** After a call the guard of the append is false for the same task
    count. *)
Lemma makeResident_not_below gfx s :
  GraphicsAllocation.isResidencyTaskCountBelow (makeResident gfx s).1
    (submissionTaskCount s) (osContextId s) = false.
Proof.
  unfold GraphicsAllocation.isResidencyTaskCountBelow.
  rewrite makeResident_resident, makeResident_watermark. simpl.
  apply Z.ltb_ge. lia.
Qed.

Lemma makeResident_again gfx s :
  residencyAllocations (makeResident (makeResident gfx s).1 (makeResident gfx s).2).2
  = residencyAllocations (makeResident gfx s).2.
Proof.
  destruct (makeResident_receiver gfx s) as [Htc Hctx].
  pose proof (makeResident_not_below gfx s) as Hnb.
  destruct (makeResident gfx s) as [g s'] eqn:E. simpl in *.
  unfold makeResident at 1. unfold submissionTaskCount in *.
  rewrite Htc, Hctx. by rewrite Hnb.
Qed.

End ResidencyFacts.

Section ResidencyClaims.
Context {MM : Type} `{!Overrides MM}.
Implicit Type s : CommandStreamReceiver MM.
Implicit Type gfx : GraphicsAllocation.t.

(** C3.  Every [makeResident] call sets the residency watermark of the
    allocation in the receiver's context to the maximum of its previous
    value and the task count of the submission it registers for (the task
    count of the receiver plus one, in [uint32_t]), so the watermark never
    decreases.  Three calls for the submissions that are assigned the task
    counts 5, 6, 7 (the receiver's own task count being 4, 5, 6 at the
    calls) leave the watermark at the maximum of its initial value and 7:
    at 7, not at the sum, for every allocation whose watermark was at most
    7.  (Were the receiver's own task count 5, 6, 7 at the calls, the
    submissions would be 6, 7, 8 and the maximum taken with 8.) *)
Theorem makeResident_raises_watermark gfx s :
  let w := GraphicsAllocation.getResidencyTaskCount gfx (osContextId s) in
  GraphicsAllocation.getResidencyTaskCount (makeResident gfx s).1 (osContextId s)
    = Z.max w (submissionTaskCount s)
  /\ w <= GraphicsAllocation.getResidencyTaskCount (makeResident gfx s).1 (osContextId s)
  /\ watermarkAfterThree 4 5 6 gfx s = Z.max w 7
  /\ (w <= 7 -> watermarkAfterThree 4 5 6 gfx s = 7)
  /\ watermarkAfterThree 5 6 7 gfx s = Z.max w 8.
Proof.
  intros w. split; [apply makeResident_watermark|].
  split; [rewrite makeResident_watermark; lia|].
  assert (Hthree : forall t1 t2 t3,
    watermarkAfterThree t1 t2 t3 gfx s
    = Z.max (Z.max (Z.max w (wrap_uint32 (t1 + 1))) (wrap_uint32 (t2 + 1)))
            (wrap_uint32 (t3 + 1))).
  { intros t1 t2 t3. unfold watermarkAfterThree.
    pose proof (makeResident_watermark gfx (withTaskCount s t1)) as W1.
    destruct (makeResident_receiver gfx (withTaskCount s t1)) as [_ C1].
    destruct (makeResident gfx (withTaskCount s t1)) as [g1 s1]. simpl in *.
    pose proof (makeResident_watermark g1 (withTaskCount s1 t2)) as W2.
    destruct (makeResident_receiver g1 (withTaskCount s1 t2)) as [_ C2].
    destruct (makeResident g1 (withTaskCount s1 t2)) as [g2 s2]. simpl in *.
    pose proof (makeResident_watermark g2 (withTaskCount s2 t3)) as W3.
    destruct (makeResident_receiver g2 (withTaskCount s2 t3)) as [_ C3].
    destruct (makeResident g2 (withTaskCount s2 t3)) as [g3 s3]. simpl in *.
    rewrite C3, C2, C1. rewrite C2, C1 in W3. rewrite C1 in W2.
    by rewrite W3, W2, W1. }
  rewrite !Hthree. change (wrap_uint32 (4 + 1)) with 5.
  change (wrap_uint32 (5 + 1)) with 6. change (wrap_uint32 (6 + 1)) with 7.
  change (wrap_uint32 (7 + 1)) with 8. lia.
Qed.

(** C4.  [makeResident] adds the underlying buffer size of the allocation
    to [totalMemoryUsed] (an addition in [size_t]) when the allocation was
    not resident in the receiver's context before the call, and leaves
    [totalMemoryUsed] as it was when the allocation was already resident. *)
Theorem makeResident_totalMemoryUsed gfx s :
  totalMemoryUsed (makeResident gfx s).2
  = if GraphicsAllocation.isResident gfx (osContextId s)
    then totalMemoryUsed s
    else wrap_size_t (totalMemoryUsed s + GraphicsAllocation.getUnderlyingBufferSize gfx).
Proof.
  unfold makeResident, GraphicsAllocation.isResidencyTaskCountBelow.
  rewrite isResident_updateTaskCount.
  destruct (GraphicsAllocation.isResident gfx (osContextId s)); simpl.
  - by destruct (_ <? _).
  - done.
Qed.

(** C5.  On an allocation that is not resident in the receiver's context,
    [makeNonResident] changes nothing: the allocation (its residency flag,
    watermark and evictable mark) and the receiver (its eviction container
    included) are returned as they were.  Every [makeNonResident] call
    leaves the allocation in that state, so a second consecutive call is
    such a no-op. *)
Theorem makeNonResident_twice gfx s :
  GraphicsAllocation.isResident gfx (osContextId s) = false ->
  makeNonResident gfx s = (gfx, s)
  /\ evictionAllocations (makeNonResident gfx s).2 = evictionAllocations s
  /\ forall gfx0 s0,
       makeNonResident (makeNonResident gfx0 s0).1 (makeNonResident gfx0 s0).2
       = makeNonResident gfx0 s0.
Proof.
  assert (Hnoop : forall g r, GraphicsAllocation.isResident g (osContextId r) = false ->
                              makeNonResident g r = (g, r)).
  { intros g r Hnr. unfold makeNonResident. rewrite Hnr.
    by rewrite releaseResidency_not_resident. }
  intros Hnr. rewrite (Hnoop _ _ Hnr). do 2 (split; [done|]).
  intros gfx0 s0. destruct (makeNonResident gfx0 s0) as [g' s'] eqn:E. simpl.
  apply Hnoop. unfold makeNonResident in E.
  destruct (GraphicsAllocation.isResident gfx0 (osContextId s0)).
  - destruct (makeCoherent gfx0 s0) as [g1 s1].
    destruct (GraphicsAllocation.peekEvictable g1); inversion E; subst;
      apply isResident_releaseResidency.
  - inversion E; subst. apply isResident_releaseResidency.
Qed.

(** C10.  While the task count of the receiver stays the same, repeated
    [makeResident] calls on one allocation append it to the residency
    container at most once: after the first call the guard
    [isResidencyTaskCountBelow(taskCount + 1)] is false, and the container
    after [n + 1] calls is the container after the first. *)
Theorem makeResident_appends_once gfx s (n : nat) :
  GraphicsAllocation.isResidencyTaskCountBelow (makeResident gfx s).1
    (submissionTaskCount (makeResident gfx s).2) (osContextId (makeResident gfx s).2) = false
  /\ residencyAllocations (makeResidentTimes (S n) gfx s).2
     = residencyAllocations (makeResident gfx s).2
  /\ (residencyAllocations (makeResident gfx s).2 = residencyAllocations s
      \/ residencyAllocations (makeResident gfx s).2
         = residencyAllocations s ++ [GraphicsAllocation.self gfx]).
Proof.
  split; [|split].
  - destruct (makeResident_receiver gfx s) as [Htc Hctx].
    unfold submissionTaskCount. rewrite Htc, Hctx. apply makeResident_not_below.
  - revert gfx s. induction n as [|n IH]; intros gfx s.
    + simpl. by destruct (makeResident gfx s).
    + change (makeResidentTimes (S (S n)) gfx s)
        with (let '(g, s') := makeResident gfx s in makeResidentTimes (S n) g s').
      pose proof (makeResident_again gfx s) as Hag.
      destruct (makeResident gfx s) as [g s'] eqn:E. simpl in Hag.
      rewrite IH. exact Hag.
  - unfold makeResident.
    destruct (GraphicsAllocation.isResidencyTaskCountBelow _ _ _); [|by left].
    right. by destruct (negb _).
Qed.

End ResidencyClaims.

Lemma makeResident_raises_watermark_witness :
  let gfx := testAllocation 1 4096 UNDECIDED in
  let s := newReceiver {| nextSelf := 2; remaining := 0 |} in
  GraphicsAllocation.getResidencyTaskCount gfx (osContextId s) <= 7
  /\ @watermarkAfterThree MockMemoryManager 4 5 6 gfx s = 7.
Proof.
  intros gfx s.
  assert (Hw : GraphicsAllocation.getResidencyTaskCount gfx (osContextId s) <= 7)
    by (by vm_compute).
  split; [exact Hw|].
  exact (proj1 (proj2 (proj2 (proj2 (@makeResident_raises_watermark MockMemoryManager
                                        gfx s)))) Hw).
Defined.

Lemma makeNonResident_twice_witness :
  let gfx := testAllocation 1 4096 UNDECIDED in
  let s := newReceiver {| nextSelf := 2; remaining := 0 |} in
  GraphicsAllocation.isResident gfx (osContextId s) = false
  /\ @makeNonResident _ baseOverrides gfx s = (gfx, s).
Proof.
  intros gfx s. split; [reflexivity|].
  apply (@makeNonResident_twice _ baseOverrides gfx s). reflexivity.
Defined.

(** ** The reusable list *)

Section StorageFacts.
Import InternalAllocationStorage.

Lemma detachAllocation_Some size ty fence l e rest :
  detachAllocation size ty fence l = Some (e, rest) ->
  reusableNow size ty fence e = true
  /\ exists l1 l2, l = l1 ++ e :: l2 /\ rest = l1 ++ l2
     /\ Forall (fun x => reusableNow size ty fence x = false) l1.
Proof.
  revert e rest. induction l as [|x l IH]; intros e rest; simpl; [done|].
  destruct (reusableNow size ty fence x) eqn:Hx.
  - intros [= <- <-]. split; [done|]. exists [], l. by repeat split.
  - destruct (detachAllocation size ty fence l) as [[r rest']|] eqn:Hd; [|done].
    intros [= <- <-]. destruct (IH r rest' eq_refl) as (Hr & l1 & l2 & -> & -> & Hall).
    split; [done|]. exists (x :: l1), l2. repeat split. by constructor.
Qed.

Lemma detachAllocation_None size ty fence l :
  detachAllocation size ty fence l = None <->
  Forall (fun x => reusableNow size ty fence x = false) l.
Proof.
  induction l as [|x l IH]; simpl; [by split; [constructor|]|].
  destruct (reusableNow size ty fence x) eqn:Hx.
  - split; [done|]. intros H. inversion H; congruence.
  - destruct (detachAllocation size ty fence l) as [[r rest']|].
    + split; [done|]. intros H. inversion H as [|? ? _ Hl]; subst.
      by apply IH in Hl.
    + split; [|done]. intros _. constructor; [done|]. by apply IH.
Qed.

Lemma reusableNow_true size ty fence e :
  reusableNow size ty fence e = true ->
  GraphicsAllocation.getAllocationType (allocation e) = ty
  /\ size <= GraphicsAllocation.getUnderlyingBufferSize (allocation e)
  /\ freeAfter e <= fence.
Proof.
  unfold reusableNow. rewrite !andb_true_iff, bool_decide_eq_true.
  intros [[? ?%Z.leb_le] ?%Z.leb_le]. done.
Qed.

End StorageFacts.

Section ReuseClaims.
Context {MM : Type} `{!MemoryManager MM} `{!Platform} `{!Overrides MM}.
Implicit Type s : CommandStreamReceiver MM.

Lemma obtainReusableAllocation_Some size ty s e s' :
  obtainReusableAllocation size ty s = (Some e, s') ->
  fenceReached s e
  /\ e ∈ InternalAllocationStorage.allocationsForReuse (internalAllocationStorage s)
  /\ GraphicsAllocation.getAllocationType (InternalAllocationStorage.allocation e) = ty
  /\ size <= GraphicsAllocation.getUnderlyingBufferSize (InternalAllocationStorage.allocation e).
Proof.
  unfold obtainReusableAllocation, InternalAllocationStorage.obtainReusableAllocation.
  destruct (tagAddress s) as [fence|] eqn:Htag; [|by intros [= ]].
  destruct (InternalAllocationStorage.detachAllocation _ _ _ _) as [[r rest]|] eqn:Hd;
    [|by intros [= ]].
  intros [= -> <-]. apply detachAllocation_Some in Hd as (Hr & l1 & l2 & Hl & _ & _).
  apply reusableNow_true in Hr as (Hty & Hsz & Hfree).
  split; [by exists fence|]. split; [|done].
  rewrite Hl. apply elem_of_app. right. by left.
Qed.

(** C1.  An entry that [obtainReusableAllocation] hands out is taken from
    the reusable list and its free-after count is at most the value that
    the fence cell of the receiver holds at that moment; so an entry whose
    free-after count [T] is above the fence is not the one returned.  In
    [getCS] (for the command buffer) and in [allocateHeapMemory] (for a
    heap, when the scratch-space controller keeps the backing of the heap it
    is given) the allocation of such an entry becomes the new backing. *)
Theorem reused_allocation_fence_reached s :
  (forall size ty e s',
     obtainReusableAllocation size ty s = (Some e, s') ->
     fenceReached s e
     /\ e ∈ InternalAllocationStorage.allocationsForReuse (internalAllocationStorage s)
     /\ forall fence e0, tagAddress s = Some fence ->
          fence < InternalAllocationStorage.freeAfter e0 -> e <> e0)
  /\ (forall minRequiredSize e s1 s',
        LinearStream.getAvailableSpace (commandStream s) < minRequiredSize ->
        obtainReusableAllocation (csAllocationSize minRequiredSize) COMMAND_BUFFER s
          = (Some e, s1) ->
        getCS minRequiredSize s = Ok s' ->
        fenceReached s e
        /\ LinearStream.getGraphicsAllocation (commandStream s')
           = Some (InternalAllocationStorage.allocation e))
  /\ (forall heapType minRequiredSize heap e s1 h' s',
        (forall h, IndirectHeap.getGraphicsAllocation (reserveHeap heapType h)
                   = IndirectHeap.getGraphicsAllocation h) ->
        obtainReusableAllocation (heapAllocationSize heapType minRequiredSize)
          (heapAllocationType heapType) s = (Some e, s1) ->
        allocateHeapMemory heapType minRequiredSize heap s = Ok (h', s') ->
        fenceReached s e
        /\ IndirectHeap.getGraphicsAllocation h'
           = Some (InternalAllocationStorage.allocation e)).
Proof.
  split; [|split].
  - intros size ty e s' Hob.
    destruct (obtainReusableAllocation_Some _ _ _ _ _ Hob) as (Hf & Hin & _).
    do 2 (split; [done|]). intros fence e0 Htag Hlt ->.
    destruct Hf as (f & Htag' & Hle). rewrite Htag in Htag'. injection Htag' as <-. lia.
  - intros minRequiredSize e s1 s' Hlt Hob Hcs.
    destruct (obtainReusableAllocation_Some _ _ _ _ _ Hob) as (Hf & _).
    split; [done|]. unfold getCS in Hcs.
    apply Z.ltb_lt in Hlt. rewrite Hlt, Hob in Hcs.
    destruct (bool_decide _); simpl in Hcs.
    + by injection Hcs as <-.
    + destruct (LinearStream.getGraphicsAllocation (commandStream s1)); [|done].
      simpl in Hcs. by injection Hcs as <-.
  - intros heapType minRequiredSize heap e s1 h' s' Hres Hob Hal.
    destruct (obtainReusableAllocation_Some _ _ _ _ _ Hob) as (Hf & _).
    split; [done|]. unfold allocateHeapMemory in Hal. rewrite Hob in Hal.
    destruct heap; simpl in Hal; injection Hal as <- <-; by rewrite Hres.
Qed.

End ReuseClaims.

Lemma reused_allocation_fence_reached_witness :
  let e := {| InternalAllocationStorage.allocation := testAllocation 1 65536 COMMAND_BUFFER;
              InternalAllocationStorage.freeAfter := 3 |} in
  let e2 := {| InternalAllocationStorage.allocation := testAllocation 2 65536 LINEAR_STREAM;
               InternalAllocationStorage.freeAfter := 4 |} in
  fenceReached reuseReceiver e
  /\ (exists s', @getCS _ MockMemoryManager_ops testPlatform 100 reuseReceiver = Ok s'
        /\ LinearStream.getGraphicsAllocation (commandStream s')
           = Some (InternalAllocationStorage.allocation e))
  /\ (exists h' s',
        @allocateHeapMemory _ MockMemoryManager_ops testPlatform baseOverrides
          IndirectHeap.DYNAMIC_STATE 100 None reuseReceiver = Ok (h', s')
        /\ IndirectHeap.getGraphicsAllocation h'
           = Some (InternalAllocationStorage.allocation e2)).
Proof.
  intros e e2.
  pose proof (@reused_allocation_fence_reached _ MockMemoryManager_ops testPlatform
                baseOverrides reuseReceiver) as (H1 & H2 & H3).
  split; [|split].
  - eapply (H1 65536 COMMAND_BUFFER e). vm_compute. reflexivity.
  - eexists. split; [vm_compute; reflexivity|].
    eapply (H2 100 e); [vm_compute; reflexivity | vm_compute; reflexivity
                        | vm_compute; reflexivity].
  - eexists. eexists. split; [vm_compute; reflexivity|].
    eapply (H3 IndirectHeap.DYNAMIC_STATE 100 None e2);
      [intros h; reflexivity | vm_compute; reflexivity | vm_compute; reflexivity].
Defined.

(** ** Growth of the command stream and of the heaps *)

Section GrowthFacts.
Context {MM : Type} `{!MemoryManager MM} `{!Platform} `{!Overrides MM}.
Implicit Type s : CommandStreamReceiver MM.

Lemma obtainReusableAllocation_frame size ty s :
  let s1 := (obtainReusableAllocation size ty s).2 in
  commandStream s1 = commandStream s /\ indirectHeap s1 = indirectHeap s
  /\ taskCount s1 = taskCount s /\ osContextId s1 = osContextId s
  /\ memoryManager s1 = memoryManager s.
Proof.
  unfold obtainReusableAllocation.
  by destruct (InternalAllocationStorage.obtainReusableAllocation _ _ _ _).
Qed.

Lemma allocateGraphicsMemory_frame size ty s :
  let s1 := (allocateGraphicsMemory size ty s).2 in
  commandStream s1 = commandStream s /\ indirectHeap s1 = indirectHeap s
  /\ taskCount s1 = taskCount s /\ osContextId s1 = osContextId s
  /\ internalAllocationStorage s1 = internalAllocationStorage s.
Proof.
  unfold allocateGraphicsMemory.
  by destruct (allocateGraphicsMemoryWithProperties _ _ _).
Qed.

(** Without overflow the stream that [getCS] installs has room for the
    request. *)
Lemma csStreamSize_ge (k minRequiredSize : Z) :
  pageSize64k = 2 ^ k -> 0 <= k < size_t_bits ->
  0 <= cacheLineSize -> 0 <= csOverfetchSize -> 0 <= minRequiredSize ->
  minRequiredSize + cacheLineSize + csOverfetchSize + pageSize64k <= 2 ^ size_t_bits ->
  minRequiredSize <= csStreamSize minRequiredSize.
Proof.
  intros Hp Hk Hc Ho Hm Hov. unfold csStreamSize, csAllocationSize. rewrite Hp in *.
  assert (Hpk : 0 < 2 ^ k) by (apply Z.pow_pos_nonneg; lia).
  rewrite (wrap_size_t_small (minRequiredSize + cacheLineSize)) by (unfold in_size_t; lia).
  rewrite (wrap_size_t_small (minRequiredSize + cacheLineSize + csOverfetchSize))
    by (unfold in_size_t; lia).
  assert (Hal : minRequiredSize + cacheLineSize + csOverfetchSize
                <= alignUp (minRequiredSize + cacheLineSize + csOverfetchSize) (2 ^ k)
                < minRequiredSize + cacheLineSize + csOverfetchSize + 2 ^ k)
    by (apply alignUp_ge; lia).
  rewrite (wrap_size_t_small (_ - cacheLineSize)) by (unfold in_size_t; lia).
  rewrite wrap_size_t_small by (unfold in_size_t; lia). lia.
Qed.

Lemma heapAllocationSize_ge (k minRequiredSize : Z) (heapType : IndirectHeap.Type_) :
  pageSize = 2 ^ k -> 0 <= k < size_t_bits -> 0 <= minRequiredSize ->
  Z.max (if bool_decide (IndirectHeap.SURFACE_STATE = heapType)
         then defaultSshSize else defaultHeapSize) minRequiredSize + pageSize
    <= 2 ^ size_t_bits ->
  minRequiredSize <= heapAllocationSize heapType minRequiredSize.
Proof.
  intros Hp Hk Hm Hov. unfold heapAllocationSize. rewrite Hp in *.
  assert (Hpk : 0 < 2 ^ k) by (apply Z.pow_pos_nonneg; lia).
  rewrite Z.add_0_r, (wrap_size_t_small minRequiredSize) by (unfold in_size_t; lia).
  rewrite std_max_spec.
  set (m := Z.max _ _) in *.
  assert (m <= alignUp m (2 ^ k) < m + 2 ^ k) by (apply alignUp_ge; lia). lia.
Qed.

Lemma getCS_no_swap minRequiredSize s :
  minRequiredSize <= LinearStream.getAvailableSpace (commandStream s) ->
  getCS minRequiredSize s = Ok s.
Proof. intros Hge. unfold getCS. by rewrite (proj2 (Z.ltb_ge _ _) Hge). Qed.

(** A call of [getCS] that finds too little room and returns has replaced
    the backing once: the stream is a fresh cursor of [csStreamSize] bytes
    over one allocation, and the reusable list is what the lookup left,
    followed by the retired backing if there was one. *)
Lemma getCS_swap minRequiredSize s s' :
  LinearStream.getAvailableSpace (commandStream s) < minRequiredSize ->
  getCS minRequiredSize s = Ok s' ->
  let s1 := (obtainReusableAllocation (csAllocationSize minRequiredSize) COMMAND_BUFFER s).2 in
  (exists a,
     commandStream s'
     = {| LinearStream.buffer := GraphicsAllocation.getUnderlyingBuffer a;
          LinearStream.maxAvailableSpace := csStreamSize minRequiredSize;
          LinearStream.sizeUsed := 0;
          LinearStream.graphicsAllocation := Some a |})
  /\ LinearStream.getAvailableSpace (commandStream s') = csStreamSize minRequiredSize
  /\ InternalAllocationStorage.allocationsForReuse (internalAllocationStorage s')
     = InternalAllocationStorage.allocationsForReuse (internalAllocationStorage s1)
       ++ (if bool_decide (LinearStream.getCpuBase (commandStream s) = 0) then []
           else match LinearStream.getGraphicsAllocation (commandStream s) with
                | Some old =>
                    [{| InternalAllocationStorage.allocation := old;
                        InternalAllocationStorage.freeAfter :=
                          GraphicsAllocation.getTaskCount old (osContextId s) |}]
                | None => []
                end).
Proof.
  intros Hlt Hcs s1. unfold getCS in Hcs. apply Z.ltb_lt in Hlt. rewrite Hlt in Hcs.
  destruct (obtainReusableAllocation_frame (csAllocationSize minRequiredSize)
              COMMAND_BUFFER s) as (Hcs1 & _ & _ & Hctx1 & _).
  fold s1 in Hcs1, Hctx1.
  destruct (obtainReusableAllocation _ _ s) as [reused s1'] eqn:Hob. simpl in s1.
  subst s1.
  set (r := match reused with
            | Some e => (Some (InternalAllocationStorage.allocation e), s1')
            | None => allocateGraphicsMemory (csAllocationSize minRequiredSize)
                        COMMAND_BUFFER s1'
            end) in *.
  assert (Hfr : commandStream r.2 = commandStream s /\ osContextId r.2 = osContextId s
                /\ internalAllocationStorage r.2 = internalAllocationStorage s1').
  { subst r. destruct reused; simpl; [done|].
    destruct (allocateGraphicsMemory_frame (csAllocationSize minRequiredSize)
                COMMAND_BUFFER s1') as (-> & _ & _ & -> & ->). done. }
  destruct r as [allocation s2]. simpl in Hfr. destruct Hfr as (Hc2 & Hx2 & Hst2).
  rewrite Hc2 in Hcs.
  destruct (bool_decide (LinearStream.getCpuBase (commandStream s) = 0)); simpl in Hcs.
  - destruct allocation as [a|]; [|done]. simpl in Hcs. injection Hcs as <-. simpl.
    rewrite Hc2, Hst2, app_nil_r. split; [by exists a|]. split; [|done].
    unfold LinearStream.getAvailableSpace. simpl. lia.
  - destruct (LinearStream.getGraphicsAllocation (commandStream s)) as [old|]; [|done].
    simpl in Hcs. destruct allocation as [a|]; [|done]. simpl in Hcs.
    injection Hcs as <-. simpl. rewrite Hc2, Hst2, Hx2. split; [by exists a|].
    split; [|done]. unfold LinearStream.getAvailableSpace. simpl. lia.
Qed.

(** The lookup leaves the temporary list alone. *)
Lemma obtainReusableAllocation_temporary size ty s :
  InternalAllocationStorage.temporaryAllocations
    (internalAllocationStorage (obtainReusableAllocation size ty s).2)
  = InternalAllocationStorage.temporaryAllocations (internalAllocationStorage s).
Proof.
  unfold obtainReusableAllocation, InternalAllocationStorage.obtainReusableAllocation.
  destruct (tagAddress s); [|done].
  by destruct (InternalAllocationStorage.detachAllocation _ _ _ _) as [[e rest]|].
Qed.

(** The whole effect of a call of [getCS] that finds too little room and
    returns: where the new backing comes from, what becomes of the two
    lists and of the memory manager, and that the heaps stay. *)
Lemma getCS_replaces minRequiredSize s s' :
  LinearStream.getAvailableSpace (commandStream s) < minRequiredSize ->
  getCS minRequiredSize s = Ok s' ->
  let lookup := obtainReusableAllocation (csAllocationSize minRequiredSize) COMMAND_BUFFER s in
  let fresh := allocateGraphicsMemoryWithProperties (csAllocationSize minRequiredSize)
                 COMMAND_BUFFER (memoryManager s) in
  exists a,
    commandStream s'
    = {| LinearStream.buffer := GraphicsAllocation.getUnderlyingBuffer a;
         LinearStream.maxAvailableSpace := csStreamSize minRequiredSize;
         LinearStream.sizeUsed := 0;
         LinearStream.graphicsAllocation := Some a |}
    /\ match lookup.1 with
       | Some e =>
           a = InternalAllocationStorage.allocation e /\ memoryManager s' = memoryManager s
       | None => fresh = (Some a, memoryManager s')
       end
    /\ InternalAllocationStorage.temporaryAllocations (internalAllocationStorage s')
       = InternalAllocationStorage.temporaryAllocations (internalAllocationStorage s)
    /\ (LinearStream.getCpuBase (commandStream s) = 0 ->
        InternalAllocationStorage.allocationsForReuse (internalAllocationStorage s')
        = InternalAllocationStorage.allocationsForReuse (internalAllocationStorage lookup.2))
    /\ (LinearStream.getCpuBase (commandStream s) <> 0 ->
        exists old e0,
          LinearStream.getGraphicsAllocation (commandStream s) = Some old
          /\ InternalAllocationStorage.allocation e0 = old
          /\ InternalAllocationStorage.allocationsForReuse (internalAllocationStorage s')
             = InternalAllocationStorage.allocationsForReuse
                 (internalAllocationStorage lookup.2) ++ [e0])
    /\ indirectHeap s' = indirectHeap s.
Proof.
  intros Hlt Hcs lookup fresh. unfold getCS in Hcs. apply Z.ltb_lt in Hlt. rewrite Hlt in Hcs.
  destruct (obtainReusableAllocation_frame (csAllocationSize minRequiredSize)
              COMMAND_BUFFER s) as (Hcs1 & Hih1 & _ & _ & Hmm1).
  pose proof (obtainReusableAllocation_temporary (csAllocationSize minRequiredSize)
                COMMAND_BUFFER s) as Htemp1.
  subst lookup fresh.
  destruct (obtainReusableAllocation _ _ s) as [reused s1]. simpl in *.
  assert (Hstore : forall (r : CommandStreamReceiver MM) allocation,
            commandStream r = commandStream s ->
            (s3 ← (if bool_decide (LinearStream.getCpuBase (commandStream r) = 0) then Ok r
                   else old ← deref (LinearStream.getGraphicsAllocation (commandStream r));
                        Ok (storeAllocation old InternalAllocationStorage.REUSABLE_ALLOCATION r));
             a ← deref allocation;
             Ok (setCommandStream s3
                   (LinearStream.replaceGraphicsAllocation
                      (LinearStream.replaceBuffer (commandStream s3)
                         (GraphicsAllocation.getUnderlyingBuffer a)
                         (csStreamSize minRequiredSize)) (Some a)))) = Ok s' ->
            exists a,
              allocation = Some a
              /\ commandStream s'
                 = {| LinearStream.buffer := GraphicsAllocation.getUnderlyingBuffer a;
                      LinearStream.maxAvailableSpace := csStreamSize minRequiredSize;
                      LinearStream.sizeUsed := 0;
                      LinearStream.graphicsAllocation := Some a |}
              /\ memoryManager s' = memoryManager r
              /\ InternalAllocationStorage.temporaryAllocations (internalAllocationStorage s')
                 = InternalAllocationStorage.temporaryAllocations (internalAllocationStorage r)
              /\ (LinearStream.getCpuBase (commandStream s) = 0 ->
                  InternalAllocationStorage.allocationsForReuse (internalAllocationStorage s')
                  = InternalAllocationStorage.allocationsForReuse (internalAllocationStorage r))
              /\ (LinearStream.getCpuBase (commandStream s) <> 0 ->
                  exists old e0,
                    LinearStream.getGraphicsAllocation (commandStream s) = Some old
                    /\ InternalAllocationStorage.allocation e0 = old
                    /\ InternalAllocationStorage.allocationsForReuse
                         (internalAllocationStorage s')
                       = InternalAllocationStorage.allocationsForReuse
                           (internalAllocationStorage r) ++ [e0])
              /\ indirectHeap s' = indirectHeap r).
  { intros r allocation Hr. rewrite Hr.
    destruct (bool_decide_reflect (LinearStream.getCpuBase (commandStream s) = 0))
      as [Hbase|Hbase]; simpl.
    - destruct allocation as [a|]; [|done]. simpl. intros [= <-]. exists a.
      do 5 (split; [done|]). split; [done|]. done.
    - destruct (LinearStream.getGraphicsAllocation (commandStream s)) as [old|]; [|done].
      simpl. destruct allocation as [a|]; [|done]. simpl. intros [= <-]. exists a.
      do 5 (split; [done|]). split; [|done]. intros _.
      eexists old, _. split; [done|]. split; [|reflexivity]. done. }
  destruct reused as [e|].
  - destruct (Hstore s1 _ Hcs1 Hcs) as (a & [= <-] & Hstream & Hmm & Htemp & Hr0 & Hr1 & Hih).
    exists (InternalAllocationStorage.allocation e). split; [done|].
    split; [split; [done | congruence]|]. split; [congruence|].
    split; [done|]. split; [done | congruence].
  - unfold allocateGraphicsMemory in Hcs. rewrite Hmm1 in Hcs.
    destruct (allocateGraphicsMemoryWithProperties _ _ (memoryManager s)) as [fa mm'].
    destruct (Hstore (setMemoryManager s1 mm') fa Hcs1 Hcs)
      as (a & -> & Hstream & Hmm & Htemp & Hr0 & Hr1 & Hih).
    exists a. split; [done|]. simpl in *. split; [by rewrite Hmm|].
    split; [congruence|]. split; [done|]. split; [done | congruence].
Qed.

(** What [allocateHeapMemory] hands back when it returns: a heap with
    nothing used, passed through the scratch-space controller, over the
    allocation that the lookup in the reusable list or else the memory
    manager gave.  The surface-state heap has [defaultSshSize - pageSize]
    bytes, every other heap at least the size that was looked up.  A heap
    that was in the slot has a backing afterwards; a new heap has whatever
    pointer was obtained. *)
Lemma allocateHeapMemory_Ok heapType minRequiredSize heap s h' s' :
  allocateHeapMemory heapType minRequiredSize heap s = Ok (h', s') ->
  let lookup := obtainReusableAllocation (heapAllocationSize heapType minRequiredSize)
                  (heapAllocationType heapType) s in
  let fresh := allocateGraphicsMemoryWithProperties
                 (heapAllocationSize heapType minRequiredSize)
                 (heapAllocationType heapType) (memoryManager s) in
  exists h0,
    h' = reserveHeap heapType h0
    /\ LinearStream.getUsed (IndirectHeap.stream h0) = 0
    /\ (heapType = IndirectHeap.SURFACE_STATE ->
        IndirectHeap.getMaxAvailableSpace h0 = wrap_size_t (defaultSshSize - pageSize))
    /\ (heapType <> IndirectHeap.SURFACE_STATE ->
        heapAllocationSize heapType minRequiredSize <= IndirectHeap.getMaxAvailableSpace h0)
    /\ match lookup.1 with
       | Some e =>
           IndirectHeap.getGraphicsAllocation h0
           = Some (InternalAllocationStorage.allocation e)
           /\ memoryManager s' = memoryManager s
       | None => fresh = (IndirectHeap.getGraphicsAllocation h0, memoryManager s')
       end
    /\ (forall a, IndirectHeap.getGraphicsAllocation h0 = Some a ->
          LinearStream.getCpuBase (IndirectHeap.stream h0)
          = GraphicsAllocation.getUnderlyingBuffer a)
    /\ (is_Some heap -> is_Some (IndirectHeap.getGraphicsAllocation h0))
    /\ internalAllocationStorage s' = internalAllocationStorage lookup.2
    /\ indirectHeap s' = indirectHeap s
    /\ commandStream s' = commandStream s.
Proof.
  intros Hal lookup fresh. subst lookup fresh. unfold allocateHeapMemory in Hal.
  destruct (obtainReusableAllocation_frame (heapAllocationSize heapType minRequiredSize)
              (heapAllocationType heapType) s) as (Hcs1 & Hih1 & _ & _ & Hmm1).
  destruct (obtainReusableAllocation _ _ s) as [reused s1]. simpl in Hcs1, Hih1, Hmm1.
  set (size := heapAllocationSize heapType minRequiredSize) in *.
  destruct reused as [e|].
  - assert (Hcap : heapType <> IndirectHeap.SURFACE_STATE ->
              size <= (if bool_decide (IndirectHeap.SURFACE_STATE = heapType)
                       then wrap_size_t (defaultSshSize - pageSize)
                       else std_max (GraphicsAllocation.getUnderlyingBufferSize
                                       (InternalAllocationStorage.allocation e)) size)).
    { intros Hne. rewrite bool_decide_eq_false_2 by congruence. rewrite std_max_spec. lia. }
    assert (Hssh : heapType = IndirectHeap.SURFACE_STATE ->
              (if bool_decide (IndirectHeap.SURFACE_STATE = heapType)
               then wrap_size_t (defaultSshSize - pageSize)
               else std_max (GraphicsAllocation.getUnderlyingBufferSize
                               (InternalAllocationStorage.allocation e)) size)
              = wrap_size_t (defaultSshSize - pageSize)).
    { intros ->. by rewrite bool_decide_eq_true_2. }
    destruct heap as [h|]; simpl in Hal; injection Hal as <- <-;
      (eexists; split; [reflexivity|]); simpl;
      (split; [done|]); (split; [exact Hssh|]); (split; [exact Hcap|]);
      (split; [done|]); (split; [by intros a [= <-]|]); (split; [by intros _; eexists|]);
      done.
  - destruct (allocateGraphicsMemory_frame size (heapAllocationType heapType) s1)
      as (Hcs2 & Hih2 & _ & _ & Hst2).
    unfold allocateGraphicsMemory in *. rewrite Hmm1 in *.
    destruct (allocateGraphicsMemoryWithProperties size (heapAllocationType heapType)
                (memoryManager s)) as [fa mm'].
    simpl in Hcs2, Hih2, Hst2.
    assert (Hcap : heapType <> IndirectHeap.SURFACE_STATE ->
              size <= (if bool_decide (IndirectHeap.SURFACE_STATE = heapType)
                       then wrap_size_t (defaultSshSize - pageSize) else size)).
    { intros Hne. rewrite bool_decide_eq_false_2 by congruence. lia. }
    assert (Hssh : heapType = IndirectHeap.SURFACE_STATE ->
              (if bool_decide (IndirectHeap.SURFACE_STATE = heapType)
               then wrap_size_t (defaultSshSize - pageSize) else size)
              = wrap_size_t (defaultSshSize - pageSize)).
    { intros ->. by rewrite bool_decide_eq_true_2. }
    destruct heap as [h|]; simpl in Hal.
    + destruct fa as [a|]; [|done]. simpl in Hal. injection Hal as <- <-.
      eexists. split; [reflexivity|]. simpl.
      split; [done|]. split; [exact Hssh|]. split; [exact Hcap|]. split; [done|].
      split; [by intros a0 [= <-]|]. split; [by intros _; eexists|].
      split; [done|]. split; congruence.
    + injection Hal as <- <-.
      eexists. split; [reflexivity|]. simpl.
      split; [by destruct fa|]. split; [exact Hssh|]. split; [exact Hcap|].
      split; [by destruct fa|]. split; [destruct fa; [by intros a0 [= <-] | done]|].
      split; [by intros [? [=]]|]. split; [done|]. split; congruence.
Qed.

Lemma getIndirectHeap_no_swap heapType minRequiredSize s h a :
  indirectHeap s heapType = Some h ->
  IndirectHeap.getGraphicsAllocation h = Some a ->
  minRequiredSize <= IndirectHeap.getAvailableSpace h ->
  getIndirectHeap heapType minRequiredSize s = Ok s.
Proof.
  intros Hh Ha Hge. unfold getIndirectHeap. rewrite Hh. simpl. rewrite Ha.
  by rewrite (proj2 (Z.ltb_ge _ _) Hge).
Qed.

(** The whole effect of a call of [getIndirectHeap] that finds too little
    room in a heap with a backing and returns.  The backing is stored in
    the reusable list first and the lookup runs on that list, so the
    allocation installed can be the one that was retired; only the slot of
    this heap changes. *)
Lemma getIndirectHeap_swap heapType minRequiredSize s h a s' :
  indirectHeap s heapType = Some h ->
  IndirectHeap.getGraphicsAllocation h = Some a ->
  IndirectHeap.getAvailableSpace h < minRequiredSize ->
  getIndirectHeap heapType minRequiredSize s = Ok s' ->
  let s0 := storeAllocation a InternalAllocationStorage.REUSABLE_ALLOCATION s in
  let lookup := obtainReusableAllocation (heapAllocationSize heapType minRequiredSize)
                  (heapAllocationType heapType) s0 in
  let fresh := allocateGraphicsMemoryWithProperties
                 (heapAllocationSize heapType minRequiredSize)
                 (heapAllocationType heapType) (memoryManager s) in
  exists h0 a',
    indirectHeap s' heapType = Some (reserveHeap heapType h0)
    /\ IndirectHeap.getGraphicsAllocation h0 = Some a'
    /\ LinearStream.getCpuBase (IndirectHeap.stream h0)
       = GraphicsAllocation.getUnderlyingBuffer a'
    /\ LinearStream.getUsed (IndirectHeap.stream h0) = 0
    /\ (exists e0,
          InternalAllocationStorage.allocation e0 = a
          /\ InternalAllocationStorage.allocationsForReuse (internalAllocationStorage s0)
             = InternalAllocationStorage.allocationsForReuse (internalAllocationStorage s)
               ++ [e0])
    /\ match lookup.1 with
       | Some e =>
           a' = InternalAllocationStorage.allocation e /\ memoryManager s' = memoryManager s
       | None => fresh = (Some a', memoryManager s')
       end
    /\ internalAllocationStorage s' = internalAllocationStorage lookup.2
    /\ (forall t, t <> heapType -> indirectHeap s' t = indirectHeap s t)
    /\ commandStream s' = commandStream s
    /\ (heapType = IndirectHeap.SURFACE_STATE ->
        IndirectHeap.getMaxAvailableSpace h0 = wrap_size_t (defaultSshSize - pageSize))
    /\ (heapType <> IndirectHeap.SURFACE_STATE ->
        heapAllocationSize heapType minRequiredSize <= IndirectHeap.getMaxAvailableSpace h0).
Proof.
  intros Hh Ha Hlt Hget s0 lookup fresh. unfold getIndirectHeap in Hget.
  rewrite Hh in Hget. simpl in Hget. rewrite Ha in Hget.
  rewrite (proj2 (Z.ltb_lt _ _) Hlt) in Hget.
  destruct (allocateHeapMemory _ _ _ _) as [[h' s2]| |] eqn:Hal; [|done..].
  simpl in Hget. injection Hget as <-.
  destruct (allocateHeapMemory_Ok _ _ _ _ _ _ Hal)
    as (h0 & -> & Hused & Hssh & Hother & Hsrc & Hbase & Hsome & Hst & Hih & Hcs).
  destruct (Hsome ltac:(by eexists)) as [a' Ha'].
  exists h0, a'. simpl. rewrite decide_True by done.
  split; [done|]. split; [done|]. split; [by apply Hbase|]. split; [done|].
  split; [eexists; split; [|reflexivity]; done|]. split.
  { fold s0 lookup in Hsrc. change (memoryManager s0) with (memoryManager s) in Hsrc.
    fold fresh in Hsrc. destruct (lookup.1) as [e|].
    - destruct Hsrc as [He Hmm]. split; [congruence | done].
    - by rewrite Ha' in Hsrc. }
  split; [done|]. split.
  { intros t Hne. rewrite decide_False by done. by rewrite Hih. }
  done.
Qed.

End GrowthFacts.

Section GrowthClaims.
Context {MM : Type} `{!MemoryManager MM} `{!Platform} `{!Overrides MM}.
Implicit Type s : CommandStreamReceiver MM.

(** C2, as amended.  With page sizes that are powers of two and a
    non-negative request:
    - [getCS] on a stream, and [getIndirectHeap] on a heap that has a
      backing, return the receiver unchanged when the free space is at
      least the request;
    - when the free space of the stream is below the request and [getCS]
      returns, the backing has been replaced once: one allocation was
      obtained, the first entry of the reusable list that qualifies (which
      leaves the list) or else one from the memory manager, which is then
      asked once; it is installed with nothing used; the retired backing,
      if the stream had a buffer, is appended to the reusable list after
      the lookup; the temporary list and the heaps are as before;
    - when the free space of the heap is below the request and
      [getIndirectHeap] returns, the backing has been replaced once in the
      same way, except that the retired backing is appended to the reusable
      list before the lookup, so that the allocation installed can be the
      retired one itself; no other heap and not the command stream has
      changed;
    - after that the free space is at least the request for the command
      stream, and for a heap of a type other than surface-state in which
      the scratch-space controller reserves nothing, provided the sizes
      computed do not wrap around in [size_t];
    - the surface-state heap has [defaultSshSize - pageSize] bytes after a
      swap whatever was requested. *)
Theorem backing_swap (k64 k minRequiredSize : Z) s :
  pageSize64k = 2 ^ k64 -> 0 <= k64 < size_t_bits ->
  pageSize = 2 ^ k -> 0 <= k < size_t_bits ->
  0 <= cacheLineSize -> 0 <= csOverfetchSize -> 0 <= minRequiredSize ->
  ((minRequiredSize <= LinearStream.getAvailableSpace (commandStream s) ->
    getCS minRequiredSize s = Ok s)
   /\ forall s',
        LinearStream.getAvailableSpace (commandStream s) < minRequiredSize ->
        getCS minRequiredSize s = Ok s' ->
        let lookup := obtainReusableAllocation (csAllocationSize minRequiredSize)
                        COMMAND_BUFFER s in
        let fresh := allocateGraphicsMemoryWithProperties (csAllocationSize minRequiredSize)
                       COMMAND_BUFFER (memoryManager s) in
        exists a,
          commandStream s'
          = {| LinearStream.buffer := GraphicsAllocation.getUnderlyingBuffer a;
               LinearStream.maxAvailableSpace := csStreamSize minRequiredSize;
               LinearStream.sizeUsed := 0;
               LinearStream.graphicsAllocation := Some a |}
          /\ match lookup.1 with
             | Some e =>
                 a = InternalAllocationStorage.allocation e
                 /\ memoryManager s' = memoryManager s
             | None => fresh = (Some a, memoryManager s')
             end
          /\ InternalAllocationStorage.temporaryAllocations (internalAllocationStorage s')
             = InternalAllocationStorage.temporaryAllocations (internalAllocationStorage s)
          /\ (LinearStream.getCpuBase (commandStream s) = 0 ->
              InternalAllocationStorage.allocationsForReuse (internalAllocationStorage s')
              = InternalAllocationStorage.allocationsForReuse
                  (internalAllocationStorage lookup.2))
          /\ (LinearStream.getCpuBase (commandStream s) <> 0 ->
              exists old e0,
                LinearStream.getGraphicsAllocation (commandStream s) = Some old
                /\ InternalAllocationStorage.allocation e0 = old
                /\ InternalAllocationStorage.allocationsForReuse (internalAllocationStorage s')
                   = InternalAllocationStorage.allocationsForReuse
                       (internalAllocationStorage lookup.2) ++ [e0])
          /\ indirectHeap s' = indirectHeap s
          /\ (minRequiredSize + cacheLineSize + csOverfetchSize + pageSize64k
                <= 2 ^ size_t_bits ->
              minRequiredSize <= LinearStream.getAvailableSpace (commandStream s')))
  /\ (forall heapType h a,
        indirectHeap s heapType = Some h ->
        IndirectHeap.getGraphicsAllocation h = Some a ->
        (minRequiredSize <= IndirectHeap.getAvailableSpace h ->
         getIndirectHeap heapType minRequiredSize s = Ok s)
        /\ forall s',
             IndirectHeap.getAvailableSpace h < minRequiredSize ->
             getIndirectHeap heapType minRequiredSize s = Ok s' ->
             let s0 := storeAllocation a InternalAllocationStorage.REUSABLE_ALLOCATION s in
             let lookup := obtainReusableAllocation
                             (heapAllocationSize heapType minRequiredSize)
                             (heapAllocationType heapType) s0 in
             let fresh := allocateGraphicsMemoryWithProperties
                            (heapAllocationSize heapType minRequiredSize)
                            (heapAllocationType heapType) (memoryManager s) in
             exists h0 a',
               indirectHeap s' heapType = Some (reserveHeap heapType h0)
               /\ IndirectHeap.getGraphicsAllocation h0 = Some a'
               /\ LinearStream.getCpuBase (IndirectHeap.stream h0)
                  = GraphicsAllocation.getUnderlyingBuffer a'
               /\ LinearStream.getUsed (IndirectHeap.stream h0) = 0
               /\ (exists e0,
                     InternalAllocationStorage.allocation e0 = a
                     /\ InternalAllocationStorage.allocationsForReuse
                          (internalAllocationStorage s0)
                        = InternalAllocationStorage.allocationsForReuse
                            (internalAllocationStorage s) ++ [e0])
               /\ match lookup.1 with
                  | Some e =>
                      a' = InternalAllocationStorage.allocation e
                      /\ memoryManager s' = memoryManager s
                  | None => fresh = (Some a', memoryManager s')
                  end
               /\ internalAllocationStorage s' = internalAllocationStorage lookup.2
               /\ (forall t, t <> heapType -> indirectHeap s' t = indirectHeap s t)
               /\ commandStream s' = commandStream s
               /\ (heapType <> IndirectHeap.SURFACE_STATE ->
                   (forall x, reserveHeap heapType x = x) ->
                   Z.max defaultHeapSize minRequiredSize + pageSize <= 2 ^ size_t_bits ->
                   exists free, heapAvailableSpace heapType s' = Some free
                                /\ minRequiredSize <= free)
               /\ (heapType = IndirectHeap.SURFACE_STATE ->
                   IndirectHeap.getMaxAvailableSpace h0
                   = wrap_size_t (defaultSshSize - pageSize))).
Proof.
  intros Hp64 Hk64 Hp Hk Hcl Hof Hmin. split; [split|].
  - apply getCS_no_swap.
  - intros s' Hlt Hcs lookup fresh.
    destruct (getCS_replaces _ _ _ Hlt Hcs)
      as (a & Hnew & Hsrc & Htemp & Hr0 & Hr1 & Hih).
    exists a. do 6 (split; [done|]).
    intros Hov. rewrite Hnew. unfold LinearStream.getAvailableSpace. simpl.
    pose proof (csStreamSize_ge k64 minRequiredSize Hp64 Hk64 Hcl Hof Hmin Hov). lia.
  - intros heapType h a Hh Ha. split; [by apply getIndirectHeap_no_swap with a|].
    intros s' Hlt Hget s0 lookup fresh.
    destruct (getIndirectHeap_swap _ _ _ _ _ _ Hh Ha Hlt Hget)
      as (h0 & a' & Hslot & Hback & Hbase & Hused & Hold & Hsrc & Hst & Hothers & Hcs
          & Hssh & Hother).
    exists h0, a'. do 9 (split; [done|]). split; [|done].
    intros Hne Hres Hov. unfold heapAvailableSpace. rewrite Hslot, Hres. simpl.
    eexists. split; [done|].
    specialize (Hother Hne).
    pose proof (heapAllocationSize_ge k minRequiredSize heapType Hp Hk Hmin) as Hge.
    rewrite bool_decide_eq_false_2 in Hge by congruence. specialize (Hge Hov).
    unfold IndirectHeap.getAvailableSpace, LinearStream.getAvailableSpace.
    unfold IndirectHeap.getMaxAvailableSpace, LinearStream.getMaxAvailableSpace in Hother.
    unfold LinearStream.getUsed in Hused. lia.
Qed.

(** C6, as amended.  After any growth of the surface-state heap through
    [allocateHeapMemory] (when the scratch-space controller keeps the
    capacity of the heap it is given) the capacity of the heap is exactly
    [defaultSshSize - pageSize] (in [size_t]), whatever was requested.  A
    [getIndirectHeap] call on a surface-state heap whose backing has too
    little room replaces the backing once: the old backing is appended to
    the reusable list, one allocation is taken from that list or else from
    the memory manager and installed with nothing used, and no other heap
    changes; the capacity afterwards is that bound, which is at least the
    request when the request is at most the bound, and below the request
    otherwise. *)
Theorem surface_state_heap_capacity (minRequiredSize : Z) s :
  (forall h, IndirectHeap.getMaxAvailableSpace (reserveHeap IndirectHeap.SURFACE_STATE h)
             = IndirectHeap.getMaxAvailableSpace h) ->
  (forall heap h' s',
     allocateHeapMemory IndirectHeap.SURFACE_STATE minRequiredSize heap s = Ok (h', s') ->
     IndirectHeap.getMaxAvailableSpace h' = wrap_size_t (defaultSshSize - pageSize))
  /\ (forall h a s',
        indirectHeap s IndirectHeap.SURFACE_STATE = Some h ->
        IndirectHeap.getGraphicsAllocation h = Some a ->
        IndirectHeap.getAvailableSpace h < minRequiredSize ->
        getIndirectHeap IndirectHeap.SURFACE_STATE minRequiredSize s = Ok s' ->
        let s0 := storeAllocation a InternalAllocationStorage.REUSABLE_ALLOCATION s in
        let lookup := obtainReusableAllocation
                        (heapAllocationSize IndirectHeap.SURFACE_STATE minRequiredSize)
                        (heapAllocationType IndirectHeap.SURFACE_STATE) s0 in
        let fresh := allocateGraphicsMemoryWithProperties
                       (heapAllocationSize IndirectHeap.SURFACE_STATE minRequiredSize)
                       (heapAllocationType IndirectHeap.SURFACE_STATE) (memoryManager s) in
        (exists h0 a',
           indirectHeap s' IndirectHeap.SURFACE_STATE
           = Some (reserveHeap IndirectHeap.SURFACE_STATE h0)
           /\ IndirectHeap.getGraphicsAllocation h0 = Some a'
           /\ LinearStream.getUsed (IndirectHeap.stream h0) = 0
           /\ (exists e0,
                 InternalAllocationStorage.allocation e0 = a
                 /\ InternalAllocationStorage.allocationsForReuse
                      (internalAllocationStorage s0)
                    = InternalAllocationStorage.allocationsForReuse
                        (internalAllocationStorage s) ++ [e0])
           /\ match lookup.1 with
              | Some e =>
                  a' = InternalAllocationStorage.allocation e
                  /\ memoryManager s' = memoryManager s
              | None => fresh = (Some a', memoryManager s')
              end
           /\ internalAllocationStorage s' = internalAllocationStorage lookup.2
           /\ (forall t, t <> IndirectHeap.SURFACE_STATE ->
                 indirectHeap s' t = indirectHeap s t))
        /\ heapCapacity IndirectHeap.SURFACE_STATE s'
           = Some (wrap_size_t (defaultSshSize - pageSize))
        /\ (minRequiredSize <= wrap_size_t (defaultSshSize - pageSize) <->
            exists c, heapCapacity IndirectHeap.SURFACE_STATE s' = Some c
                      /\ minRequiredSize <= c)).
Proof.
  intros Hres. split.
  - intros heap h' s' Hal.
    destruct (allocateHeapMemory_Ok _ _ _ _ _ _ Hal) as (h0 & -> & _ & Hssh & _).
    rewrite Hres. by apply Hssh.
  - intros h a s' Hh Ha Hlt Hget s0 lookup fresh.
    destruct (getIndirectHeap_swap _ _ _ _ _ _ Hh Ha Hlt Hget)
      as (h0 & a' & Hslot & Hback & _ & Hused & Hold & Hsrc & Hst & Hothers & _ & Hssh & _).
    split; [by exists h0, a'|].
    unfold heapCapacity. rewrite Hslot. simpl. rewrite Hres, (Hssh eq_refl).
    split; [done|]. split.
    + intros Hle. by eexists.
    + by intros (c & [= <-] & Hle).
Qed.

End GrowthClaims.

(** A surface-state heap of 60 KB (64 KB default minus a 4 KB page) asked
    for 80000 bytes is swapped once, the old backing going to the reusable
    list and the new one coming from the memory manager, and has 61440
    bytes of room afterwards, fewer than requested. *)
Lemma surface_state_swap_too_small :
  let s := heapReceiver IndirectHeap.SURFACE_STATE (testAllocation 1 65536 LINEAR_STREAM)
             61440 0 {| nextSelf := 2; remaining := 1 |} in
  heapAvailableSpace IndirectHeap.SURFACE_STATE s = Some 61440
  /\ exists s' h',
       @getIndirectHeap _ MockMemoryManager_ops testPlatform baseOverrides
         IndirectHeap.SURFACE_STATE 80000 s = Ok s'
       /\ indirectHeap s' IndirectHeap.SURFACE_STATE = Some h'
       /\ GraphicsAllocation.self <$> IndirectHeap.getGraphicsAllocation h' = Some 2%N
       /\ map (fun e => GraphicsAllocation.self (InternalAllocationStorage.allocation e))
            (InternalAllocationStorage.allocationsForReuse (internalAllocationStorage s'))
          = [1%N]
       /\ remaining (memoryManager s') = 0%nat
       /\ heapAvailableSpace IndirectHeap.SURFACE_STATE s' = Some 61440
       /\ ~ (80000 <= 61440).
Proof.
  intros s. split; [by vm_compute|]. eexists _, _.
  split; [vm_compute; reflexivity|]. split; [vm_compute; reflexivity|].
  repeat split; try (by vm_compute); lia.
Qed.

(** With a default surface-state size of 64 KB and 4 KB pages, a request
    for 100 KB on a surface-state heap of 60 KB is served by one swap, the
    old backing going to the reusable list and the new one coming from the
    memory manager, and leaves the heap with a capacity of 60 KB: at most
    the maximum minus one page, but not at least 100 KB. *)
Lemma surface_state_100KB_request :
  let s := heapReceiver IndirectHeap.SURFACE_STATE (testAllocation 1 65536 LINEAR_STREAM)
             61440 0 {| nextSelf := 2; remaining := 1 |} in
  @defaultSshSize testPlatform = 64 * 1024
  /\ exists s' h',
       @getIndirectHeap _ MockMemoryManager_ops testPlatform baseOverrides
         IndirectHeap.SURFACE_STATE (100 * 1024) s = Ok s'
       /\ indirectHeap s' IndirectHeap.SURFACE_STATE = Some h'
       /\ GraphicsAllocation.self <$> IndirectHeap.getGraphicsAllocation h' = Some 2%N
       /\ map (fun e => GraphicsAllocation.self (InternalAllocationStorage.allocation e))
            (InternalAllocationStorage.allocationsForReuse (internalAllocationStorage s'))
          = [1%N]
       /\ remaining (memoryManager s') = 0%nat
       /\ heapCapacity IndirectHeap.SURFACE_STATE s' = Some (60 * 1024)
       /\ ~ (100 * 1024 <= 60 * 1024).
Proof.
  intros s. split; [reflexivity|]. eexists _, _.
  split; [vm_compute; reflexivity|]. split; [vm_compute; reflexivity|].
  repeat split; try (by vm_compute); lia.
Qed.

(** A request so large that adding the margins wraps around in [size_t]
    gets a 64 KB buffer. *)
Example getCS_request_wraps :
  exists s',
    @getCS _ MockMemoryManager_ops testPlatform (2 ^ 64 - 1)
      (initializedReceiver {| nextSelf := 1; remaining := 1 |}) = Ok s'
    /\ LinearStream.getAvailableSpace (commandStream s') = 61376.
Proof. eexists. split; [vm_compute; reflexivity | by vm_compute]. Qed.

(** A dynamic-state heap that is nearly full, once the fence has reached
    the task count of its backing, is given the same allocation again: the
    backing is stored and found at once by the lookup, the reusable list
    is empty afterwards and the memory manager is not asked. *)
Example dynamic_state_heap_reinstalled :
  let s := heapReceiver IndirectHeap.DYNAMIC_STATE (testAllocation 1 65536 LINEAR_STREAM)
             65536 65000 {| nextSelf := 2; remaining := 1 |} in
  exists s' h',
    @getIndirectHeap _ MockMemoryManager_ops testPlatform baseOverrides
      IndirectHeap.DYNAMIC_STATE 1000 s = Ok s'
    /\ indirectHeap s' IndirectHeap.DYNAMIC_STATE = Some h'
    /\ IndirectHeap.getGraphicsAllocation h' = Some (testAllocation 1 65536 LINEAR_STREAM)
    /\ IndirectHeap.getAvailableSpace h' = 65536
    /\ InternalAllocationStorage.allocationsForReuse (internalAllocationStorage s') = []
    /\ memoryManager s' = memoryManager s.
Proof.
  intros s. eexists _, _. split; [vm_compute; reflexivity|].
  split; [vm_compute; reflexivity|]. repeat split; by vm_compute.
Qed.

Lemma backing_swap_witness :
  (exists s',
     @getCS _ MockMemoryManager_ops testPlatform 100 reuseReceiver = Ok s'
     /\ 100 <= LinearStream.getAvailableSpace (commandStream s'))
  /\ (let s := heapReceiver IndirectHeap.DYNAMIC_STATE
                 (testAllocation 1 65536 LINEAR_STREAM) 65536 100
                 {| nextSelf := 2; remaining := 1 |} in
      exists s' free,
        @getIndirectHeap _ MockMemoryManager_ops testPlatform baseOverrides
          IndirectHeap.DYNAMIC_STATE 70000 s = Ok s'
        /\ heapAvailableSpace IndirectHeap.DYNAMIC_STATE s' = Some free
        /\ 70000 <= free).
Proof.
  split.
  - destruct (@getCS _ MockMemoryManager_ops testPlatform 100 reuseReceiver)
      as [s'| |] eqn:Hcs; try (vm_compute in Hcs; discriminate).
    exists s'. split; [reflexivity|].
    destruct (proj2 (proj1 (@backing_swap _ MockMemoryManager_ops testPlatform baseOverrides
                              16 12 100 reuseReceiver eq_refl ltac:(by vm_compute) eq_refl
                              ltac:(by vm_compute) ltac:(by vm_compute)
                              ltac:(by vm_compute) ltac:(lia)))
                s' ltac:(by vm_compute) Hcs) as (a & _ & _ & _ & _ & _ & _ & Hroom).
    apply Hroom. by vm_compute.
  - intros s.
    destruct (@getIndirectHeap _ MockMemoryManager_ops testPlatform baseOverrides
                IndirectHeap.DYNAMIC_STATE 70000 s) as [s'| |] eqn:Hget;
      try (vm_compute in Hget; discriminate).
    destruct (proj2 (@backing_swap _ MockMemoryManager_ops testPlatform baseOverrides
                       16 12 70000 s eq_refl ltac:(by vm_compute) eq_refl
                       ltac:(by vm_compute) ltac:(by vm_compute) ltac:(by vm_compute)
                       ltac:(lia))
                IndirectHeap.DYNAMIC_STATE _ (testAllocation 1 65536 LINEAR_STREAM)
                eq_refl eq_refl) as [_ Hswap].
    destruct (Hswap s' ltac:(by vm_compute) Hget)
      as (h0 & a' & _ & _ & _ & _ & _ & _ & _ & _ & _ & Hfree & _).
    destruct Hfree as (free & Hfree & Hle);
      [discriminate | reflexivity | by vm_compute |].
    exists s', free. split; [reflexivity|]. split; [exact Hfree | exact Hle].
Defined.

Lemma surface_state_heap_capacity_witness :
  exists h' s',
    @allocateHeapMemory _ MockMemoryManager_ops testPlatform baseOverrides
      IndirectHeap.SURFACE_STATE 1024 None
      (initializedReceiver {| nextSelf := 1; remaining := 1 |}) = Ok (h', s')
    /\ IndirectHeap.getMaxAvailableSpace h' = 61440.
Proof.
  eexists _, _. split; [vm_compute; reflexivity|].
  refine (proj1 (@surface_state_heap_capacity _ MockMemoryManager_ops testPlatform
                   baseOverrides 1024
                   (initializedReceiver {| nextSelf := 1; remaining := 1 |})
                   (fun h => eq_refl)) None _ _ _).
  vm_compute. reflexivity.
Defined.

(** ** Allocation failure and repeated initialisation *)

Section FailureFacts.
Context {MM : Type} `{!MemoryManager MM} `{!Platform} `{!Overrides MM}.
Implicit Type s : CommandStreamReceiver MM.

(** When the stream is too small, the reusable list has nothing and the
    memory manager returns null, [getCS] reaches
    [allocation->getUnderlyingBuffer()] with a null [allocation] (or, before
    that, stores a null old backing): it has no other way out. *)
Lemma getCS_null_allocation minRequiredSize s :
  LinearStream.getAvailableSpace (commandStream s) < minRequiredSize ->
  (obtainReusableAllocation (csAllocationSize minRequiredSize) COMMAND_BUFFER s).1 = None ->
  (allocateGraphicsMemoryWithProperties (csAllocationSize minRequiredSize) COMMAND_BUFFER
     (memoryManager s)).1 = None ->
  getCS minRequiredSize s = NullDereference.
Proof.
  intros Hlt Hob Hal. unfold getCS. rewrite (proj2 (Z.ltb_lt _ _) Hlt).
  destruct (obtainReusableAllocation_frame (csAllocationSize minRequiredSize)
              COMMAND_BUFFER s) as (_ & _ & _ & _ & Hmm).
  destruct (obtainReusableAllocation _ _ s) as [reused s1]. simpl in *. subst reused.
  unfold allocateGraphicsMemory. rewrite Hmm.
  destruct (allocateGraphicsMemoryWithProperties _ _ _) as [a mm]. simpl in Hal. subst a.
  destruct (bool_decide _); simpl; [done|].
  by destruct (LinearStream.getGraphicsAllocation _).
Qed.

(** [initializeTagAllocation] tests the pointer it gets: on failure it
    returns [false] and leaves the tag as it was. *)
Lemma initializeTagAllocation_failure s :
  (allocateGraphicsMemoryWithProperties pageSize UNDECIDED (memoryManager s)).1 = None ->
  exists s', initializeTagAllocation s = Ok (false, s')
             /\ tagAllocation s' = tagAllocation s /\ tagAddress s' = tagAddress s.
Proof.
  intros Hal. unfold initializeTagAllocation, allocateGraphicsMemory.
  destruct (allocateGraphicsMemoryWithProperties _ _ _) as [a mm]. simpl in Hal. subst a.
  by eexists.
Qed.

(** [allocateDebugSurface] stops in [UNRECOVERABLE_IF] when the debug
    surface is set. *)
Lemma allocateDebugSurface_again size s :
  debugSurface s <> None -> allocateDebugSurface size s = Unrecoverable.
Proof. intros Hset. unfold allocateDebugSurface. by rewrite bool_decide_eq_true_2. Qed.

(** [initializeTagAllocation] has no such check: it never stops in
    [UNRECOVERABLE_IF], and when the memory manager delivers it installs the
    new allocation whatever the tag was. *)
Lemma initializeTagAllocation_again s :
  initializeTagAllocation s <> Unrecoverable
  /\ forall a mm,
       allocateGraphicsMemoryWithProperties pageSize UNDECIDED (memoryManager s) = (Some a, mm) ->
       exists s', initializeTagAllocation s = Ok (true, s') /\ tagAllocation s' = Some a.
Proof.
  unfold initializeTagAllocation, allocateGraphicsMemory. split.
  - by destruct (allocateGraphicsMemoryWithProperties _ _ _) as [[a|] mm].
  - intros a mm ->. simpl. by eexists.
Qed.

End FailureFacts.

(** C8.  On an initialised receiver with an empty stream and an empty
    reusable list, and a memory manager that fails, [getCS] dereferences
    the null allocation; [initializeTagAllocation] on a new receiver with
    the same memory manager returns [false] and leaves the receiver as it
    was. *)
Theorem getCS_allocation_failure :
  let mm := {| nextSelf := 1; remaining := 0 |} in
  (forall size ty, (mockAllocate size ty mm).1 = None)
  /\ (@obtainReusableAllocation MockMemoryManager
        (@csAllocationSize testPlatform 100) COMMAND_BUFFER (initializedReceiver mm)).1 = None
  /\ @getCS _ MockMemoryManager_ops testPlatform 100 (initializedReceiver mm)
     = NullDereference
  /\ @initializeTagAllocation _ MockMemoryManager_ops testPlatform (newReceiver mm)
     = Ok (false, newReceiver mm).
Proof. intros mm. split; [done|]. repeat split; by vm_compute. Qed.

(** C9.  On a receiver whose tag allocation is set, [initializeTagAllocation]
    does not stop in a fatal check: it returns [true] and the tag allocation
    is the new one, not the one that was set.  On a receiver whose debug
    surface is set, [allocateDebugSurface] stops in the fatal check. *)
Theorem initializeTagAllocation_replaces_tag :
  let s := initializedReceiver {| nextSelf := 20; remaining := 4 |} in
  tagAllocation s = Some (testAllocation 0 4096 UNDECIDED)
  /\ (exists s',
        @initializeTagAllocation _ MockMemoryManager_ops testPlatform s = Ok (true, s')
        /\ tagAllocation s' = Some (testAllocation 20 4096 UNDECIDED))
  /\ @allocateDebugSurface _ MockMemoryManager_ops 4096 debugReceiver = Unrecoverable.
Proof.
  intros s. split; [reflexivity|]. split; [|by vm_compute].
  eexists. split; [vm_compute; reflexivity | by vm_compute].
Qed.

(** ** Waiting for completion *)

Section WaitFacts.
Variable hw : Hardware.
Variables (enableTimeout : bool) (timeoutMicroseconds taskCountToWait : Z).

Lemma timeDiffAt_disabled (i : nat) : timeDiffAt hw false i = 0.
Proof. by destruct i. Qed.

Lemma loop_test_spec (i : nat) :
  (tagAt hw i <? taskCountToWait) && (timeDiffAt hw enableTimeout i <=? timeoutMicroseconds)
  = true <-> (tagAt hw i < taskCountToWait /\ timeDiffAt hw enableTimeout i <= timeoutMicroseconds).
Proof. rewrite andb_true_iff, Z.ltb_lt, Z.leb_le. done. Qed.

Lemma leavesLoopAt_spec (i : nat) :
  leavesLoopAt hw enableTimeout timeoutMicroseconds taskCountToWait i <-> ~ (tagAt hw i < taskCountToWait /\ timeDiffAt hw enableTimeout i <= timeoutMicroseconds).
Proof. unfold leavesLoopAt. lia. Qed.

(** The loop, entered at its [i]-th test, leaves at the first test [m >= i]
    that fails, having read the fence [m + 1] times and the clock once per
    iteration when the timeout is enabled. *)
Lemma pollLoop_Some (fuel i : nat) (n c : nat) :
  pollLoop hw enableTimeout timeoutMicroseconds taskCountToWait fuel i
    (if enableTimeout then i else O) (timeDiffAt hw enableTimeout i) = Some (n, c) ->
  exists m, n = S m /\ (i <= m)%nat
            /\ (forall j, (i <= j < m)%nat -> (tagAt hw j < taskCountToWait /\ timeDiffAt hw enableTimeout j <= timeoutMicroseconds))
            /\ leavesLoopAt hw enableTimeout timeoutMicroseconds taskCountToWait m
            /\ c = (if enableTimeout then m else O).
Proof.
  revert i. induction fuel as [|fuel IH]; intros i; simpl; [done|].
  destruct (_ && _) eqn:Htest.
  - apply loop_test_spec in Htest.
    assert (Hnext : pollLoop hw enableTimeout timeoutMicroseconds taskCountToWait fuel (S i)
                      (if enableTimeout then S i else O)
                      (timeDiffAt hw enableTimeout (S i)) = Some (n, c) ->
                    exists m, n = S m /\ (i <= m)%nat
                      /\ (forall j, (i <= j < m)%nat -> (tagAt hw j < taskCountToWait /\ timeDiffAt hw enableTimeout j <= timeoutMicroseconds))
                      /\ leavesLoopAt hw enableTimeout timeoutMicroseconds taskCountToWait m
                      /\ c = (if enableTimeout then m else O)).
    { intros Hrec. destruct (IH _ Hrec) as (m & -> & Hle & Hstay & Hleave & ->).
      exists m. split; [done|]. split; [lia|]. split; [|done].
      intros j Hj. destruct (decide (j = i)) as [->|]; [done|]. apply Hstay. lia. }
    destruct enableTimeout; simpl in *; [exact Hnext|].
    by rewrite timeDiffAt_disabled.
  - intros [= <- <-]. exists i. split; [done|]. split; [lia|]. split; [intros j; lia|].
    split; [|done]. apply leavesLoopAt_spec. intros Hst.
    apply loop_test_spec in Hst. congruence.
Qed.


End WaitFacts.

Section WaitRun.
Context {MM : Type} `{!Overrides MM}.
Variable hw : Hardware.
Variable gtpinIsGTPinInitialized : bool.
Implicit Type s : CommandStreamReceiver MM.

(** A call that has an outcome: without a fence cell it is the null
    dereference of the first loop test; with one, the loop was left at some
    test [m] and the result is determined by the read after the loop. *)
Lemma waitForCompletionWithTimeout_run (enableTimeout : bool)
    (timeoutMicroseconds taskCountToWait : Z) (fuel : nat) s o :
  waitForCompletionWithTimeout hw gtpinIsGTPinInitialized enableTimeout
    timeoutMicroseconds taskCountToWait fuel s = Some o ->
  match tagAddress (if latestFlushedTaskCount s <? taskCountToWait
                    then flushBatchedSubmissions s else s) with
  | None => o = NullDereference
  | Some _ =>
      exists m,
        (forall j, (j < m)%nat ->
           tagAt hw j < taskCountToWait
           /\ timeDiffAt hw enableTimeout j <= timeoutMicroseconds)
        /\ leavesLoopAt hw enableTimeout timeoutMicroseconds taskCountToWait m
        /\ o = Ok ({| completed := taskCountToWait <=? tagAt hw (S m);
                      tagReads := S (S m);
                      clockReads := S (if enableTimeout then m else O);
                      notified := if (taskCountToWait <=? tagAt hw (S m))
                                     && gtpinIsGTPinInitialized
                                  then Some taskCountToWait else None;
                      flushed := latestFlushedTaskCount s <? taskCountToWait |},
                   let s1 := if latestFlushedTaskCount s <? taskCountToWait
                             then flushBatchedSubmissions s else s in
                   setTag s1 (tagAllocation s1) (Some (tagAt hw (S m))))
  end.
Proof.
  unfold waitForCompletionWithTimeout.
  destruct (tagAddress _) as [t|]; [|by intros [= <-]].
  destruct (pollLoop _ _ _ _ _ _ _ _) as [[n c]|] eqn:Hloop; [|done].
  pose proof (pollLoop_Some hw enableTimeout timeoutMicroseconds taskCountToWait fuel 0 n c)
    as Hspec.
  simpl in Hspec. replace (if enableTimeout then 0%nat else 0%nat) with 0%nat in Hspec
    by (by destruct enableTimeout).
  destruct (Hspec Hloop) as (m & -> & _ & Hstay & Hleave & ->).
  intros Hrun. exists m. split; [intros j Hj; apply Hstay; lia|]. split; [done|].
  destruct (taskCountToWait <=? tagAt hw (S m)); injection Hrun as <-; [|done].
  by destruct gtpinIsGTPinInitialized.
Qed.


End WaitRun.

Section WaitClaims.
Context {MM : Type} `{!Overrides MM}.
Variable hw : Hardware.
Variable gtpinIsGTPinInitialized : bool.
Implicit Type s : CommandStreamReceiver MM.


End WaitClaims.



(** * Further properties of the receiver *)

(** ** Scratch size and debug surface *)

(** X1.  After any sequence of [setRequiredScratchSize] calls the required
    scratch size is the maximum of its initial value and all the sizes
    asked for: it is at least each of them, never below where it started,
    and it is one of these values. *)
Theorem setRequiredScratchSize_sequence (requests : list Z) (initial : Z) :
  let final := fold_left (fun r n => setRequiredScratchSize n r) requests initial in
  final = foldr Z.max initial requests
  /\ initial <= final
  /\ (forall n, n ∈ requests -> n <= final)
  /\ (final = initial \/ final ∈ requests).
Proof.
  assert (Hstep : forall n r, setRequiredScratchSize n r = Z.max r n).
  { intros n r. unfold setRequiredScratchSize. destruct (Z.ltb_spec r n); lia. }
  assert (Hfold : forall l i,
            fold_left (fun r n => setRequiredScratchSize n r) l i = foldr Z.max i l).
  { induction l as [|x l IH]; intros i; simpl; [done|].
    rewrite IH, Hstep. clear IH. revert i. induction l as [|y l IH]; intros i; simpl; [lia|].
    rewrite IH. lia. }
  intros final. subst final. rewrite Hfold. split; [done|].
  induction requests as [|x l (IH1 & IH2 & IH3)]; simpl.
  - split; [lia|]. split; [|by left]. intros n Hn. by apply elem_of_nil in Hn.
  - split; [lia|]. split.
    + intros n [->|Hn]%elem_of_cons; [lia|]. specialize (IH2 n Hn). lia.
    + destruct (Z.max_spec x (foldr Z.max initial l)) as [[_ ->]|[_ ->]].
      * destruct IH3 as [?|?]; [by left|]. right. by apply elem_of_cons; right.
      * right. by apply elem_of_cons; left.
Qed.

Section DebugSurfaceFacts.
Context {MM : Type} `{!MemoryManager MM}.
Implicit Type s : CommandStreamReceiver MM.

(** X2.  [allocateDebugSurface] hands out a debug surface at most once.  A
    call that returns an allocation records it, and every later call stops
    in the fatal check; a call that returns null (the memory manager
    failed) records nothing, so the next call is not fatal and asks the
    memory manager again. *)
Theorem allocateDebugSurface_once (size : Z) s (result : option GraphicsAllocation.t)
    (s' : CommandStreamReceiver MM) :
  allocateDebugSurface size s = Ok (result, s') ->
  debugSurface s = None
  /\ debugSurface s' = result
  /\ forall size',
       match result with
       | Some _ => allocateDebugSurface size' s' = Unrecoverable
       | None =>
           allocateDebugSurface size' s'
           = (let '(a, s1) := allocateGraphicsMemory size' UNDECIDED s' in
              Ok (a, setDebugSurface s1 a))
       end.
Proof.
  unfold allocateDebugSurface. destruct (debugSurface s) as [d|] eqn:Hd.
  - rewrite bool_decide_eq_true_2 by done. done.
  - rewrite bool_decide_eq_false_2 by (intros H; by apply H).
    destruct (allocateGraphicsMemory size UNDECIDED s) as [a s1] eqn:Hal.
    intros [= <- <-]. split; [done|]. split; [done|]. intros size'. simpl.
    destruct a as [a|].
    + by rewrite bool_decide_eq_true_2.
    + by rewrite bool_decide_eq_false_2 by (intros H; by apply H).
Qed.

End DebugSurfaceFacts.

Lemma allocateDebugSurface_once_witness :
  let s := initializedReceiver {| nextSelf := 20; remaining := 1 |} in
  exists a s',
    @allocateDebugSurface _ MockMemoryManager_ops 4096 s = Ok (Some a, s')
    /\ @allocateDebugSurface _ MockMemoryManager_ops 8192 s' = Unrecoverable.
Proof.
  intros s.
  destruct (@allocateDebugSurface _ MockMemoryManager_ops 4096 s) as [[[a|] s']| |] eqn:H;
    try (vm_compute in H; discriminate).
  exists a, s'. split; [reflexivity|].
  exact (proj2 (proj2 (@allocateDebugSurface_once _ MockMemoryManager_ops 4096 s
                         (Some a) s' H)) 8192).
Defined.

(** ** More on waiting for completion *)

Section WaitMore.
Context {MM : Type} `{!Overrides MM}.
Variable hw : Hardware.
Variable gtpinIsGTPinInitialized : bool.
Implicit Type s : CommandStreamReceiver MM.

(** X3.  What a call of [waitForCompletionWithTimeout] that returns has
    read and whom it has told.  It has read the fence at least twice, once
    per loop test and once after the loop.  It has read the clock once
    before the loop, for [time1], whether the timeout is enabled or not,
    and once more per loop iteration exactly when the timeout is enabled.
    [gtpinNotifyTaskCompletion] was called exactly when the call returns
    [true] and GT-Pin is initialised, and then with the task count waited
    for.  The fence cell is still there afterwards. *)
Theorem waitForCompletionWithTimeout_notifies (enableTimeout : bool)
    (timeoutMicroseconds taskCountToWait : Z) (fuel : nat) s
    (r : WaitResult) (s' : CommandStreamReceiver MM) :
  waitForCompletionWithTimeout hw gtpinIsGTPinInitialized enableTimeout
    timeoutMicroseconds taskCountToWait fuel s = Some (Ok (r, s')) ->
  (2 <= tagReads r)%nat
  /\ clockReads r = (if enableTimeout then Nat.pred (tagReads r) else 1%nat)
  /\ notified r = (if completed r && gtpinIsGTPinInitialized then Some taskCountToWait
                   else None)
  /\ tagAddress s' = Some (tagAt hw (Nat.pred (tagReads r))).
Proof.
  intros Hrun.
  pose proof (waitForCompletionWithTimeout_run hw gtpinIsGTPinInitialized _ _ _ _ _ _ Hrun)
    as Hspec.
  destruct (tagAddress _); [|done].
  destruct Hspec as (m & _ & _ & [= -> ->]). simpl.
  split; [lia|]. split; [by destruct enableTimeout|]. done.
Qed.

(** X4.  On a receiver with a fence cell, when the fence never goes back
    and the timeout is not negative, a call returns [false] only after a
    timeout: the timeout was enabled and the last clock reading was above
    it.  With the timeout disabled every call that returns returns [true];
    and when the fence is at the target at the first read, the call returns
    [true] after two fence reads and the one clock reading before the
    loop, whatever the timeout. *)
Theorem waitForCompletionWithTimeout_false_is_timeout (enableTimeout : bool)
    (timeoutMicroseconds taskCountToWait : Z) s :
  fenceMonotone hw ->
  is_Some (tagAddress (if latestFlushedTaskCount s <? taskCountToWait
                       then flushBatchedSubmissions s else s)) ->
  (forall fuel r s',
     0 <= timeoutMicroseconds ->
     waitForCompletionWithTimeout hw gtpinIsGTPinInitialized enableTimeout
       timeoutMicroseconds taskCountToWait fuel s = Some (Ok (r, s')) ->
     completed r = false ->
     enableTimeout = true
     /\ exists m, tagReads r = S (S (S m)) /\ clockReads r = S (S m)
                  /\ timeoutMicroseconds < elapsedAt hw m)
  /\ (taskCountToWait <= tagAt hw 0 ->
      forall fuel,
        exists s',
          waitForCompletionWithTimeout hw gtpinIsGTPinInitialized enableTimeout
            timeoutMicroseconds taskCountToWait (S fuel) s
          = Some (Ok ({| completed := true; tagReads := 2; clockReads := 1;
                         notified := if gtpinIsGTPinInitialized then Some taskCountToWait
                                     else None;
                         flushed := latestFlushedTaskCount s <? taskCountToWait |}, s'))).
Proof.
  intros Hmono [t Htag]. split.
  - intros fuel r s' Hto Hrun.
    pose proof (waitForCompletionWithTimeout_run hw gtpinIsGTPinInitialized _ _ _ _ _ _ Hrun)
      as Hspec.
    rewrite Htag in Hspec. destruct Hspec as (m & _ & Hleave & [= -> ->]). simpl.
    intros Hdone%Z.leb_gt.
    destruct Hleave as [Hreached|Hlate].
    + pose proof (Hmono m (S m) ltac:(lia)). lia.
    + destruct m as [|m]; simpl in Hlate; [lia|].
      destruct enableTimeout; [|lia]. split; [done|]. by exists m.
  - intros Hreached fuel. unfold waitForCompletionWithTimeout. rewrite Htag. simpl.
    rewrite (proj2 (Z.ltb_ge _ _) Hreached). simpl.
    pose proof (Hmono 0%nat 1%nat ltac:(lia)) as Hnext.
    rewrite (proj2 (Z.leb_le _ _)) by lia. by eexists.
Qed.

End WaitMore.

Lemma waitForCompletionWithTimeout_notifies_witness :
  let s := initializedReceiver {| nextSelf := 1; remaining := 0 |} in
  exists r s',
    @waitForCompletionWithTimeout _ baseOverrides busyHardware true true 10 3 4 s
      = Some (Ok (r, s'))
    /\ notified r = Some 3 /\ tagReads r = 5%nat /\ clockReads r = 4%nat.
Proof.
  intros s. eexists _, _. split; [vm_compute; reflexivity|].
  pose proof (@waitForCompletionWithTimeout_notifies _ baseOverrides busyHardware true
                true 10 3 4 s _ _ eq_refl) as (_ & Hc & Hn & _).
  split; [exact Hn|]. split; [reflexivity | exact Hc].
Defined.

Lemma waitForCompletionWithTimeout_false_is_timeout_witness :
  let s := initializedReceiver {| nextSelf := 1; remaining := 0 |} in
  fenceMonotone idleHardware
  /\ is_Some (tagAddress s)
  /\ exists r s',
       @waitForCompletionWithTimeout _ baseOverrides idleHardware false true 2 1 9 s
         = Some (Ok (r, s'))
       /\ completed r = false
       /\ exists m, tagReads r = S (S (S m)) /\ clockReads r = S (S m)
                    /\ 2 < elapsedAt idleHardware m.
Proof.
  intros s.
  assert (Hmono : fenceMonotone idleHardware) by (intros i j _; simpl; lia).
  assert (Htag : is_Some (tagAddress s)) by (by eexists).
  split; [exact Hmono|]. split; [exact Htag|].
  eexists _, _. split; [vm_compute; reflexivity|].
  split; [reflexivity|].
  refine (proj2 (proj1 (@waitForCompletionWithTimeout_false_is_timeout _ baseOverrides
                          idleHardware false true 2 1 s Hmono Htag) 9%nat _ _ _ _ _));
    [lia | vm_compute; reflexivity | reflexivity].
Defined.

(** ** More on the growth of the command stream *)

Section CommandStreamMore.
Context {MM : Type} `{!MemoryManager MM} `{!Platform}.
Implicit Type s : CommandStreamReceiver MM.



(** X5.  A request that [getCS] has served is served again without another
    swap: when a call returns, the same call on the resulting receiver
    returns it unchanged (page size a power of two, sizes without
    wrap-around). *)
Theorem getCS_settles (k minRequiredSize : Z) s s' :
  pageSize64k = 2 ^ k -> 0 <= k < size_t_bits ->
  0 <= cacheLineSize -> 0 <= csOverfetchSize -> 0 <= minRequiredSize ->
  minRequiredSize + cacheLineSize + csOverfetchSize + pageSize64k <= 2 ^ size_t_bits ->
  getCS minRequiredSize s = Ok s' ->
  getCS minRequiredSize s' = Ok s'
  /\ minRequiredSize <= LinearStream.getAvailableSpace (commandStream s').
Proof.
  intros Hp Hk Hc Ho Hm Hov Hcs.
  assert (Hroom : minRequiredSize <= LinearStream.getAvailableSpace (commandStream s')).
  { destruct (Z.lt_ge_cases (LinearStream.getAvailableSpace (commandStream s))
                minRequiredSize) as [Hlt|Hge].
    - destruct (getCS_swap _ _ _ Hlt Hcs) as (_ & -> & _). by apply (csStreamSize_ge k).
    - rewrite (getCS_no_swap _ _ Hge) in Hcs. by injection Hcs as <-. }
  split; [by apply getCS_no_swap | done].
Qed.


End CommandStreamMore.

Lemma getCS_settles_witness :
  exists s',
    @getCS _ MockMemoryManager_ops testPlatform 100 reuseReceiver = Ok s'
    /\ @getCS _ MockMemoryManager_ops testPlatform 100 s' = Ok s'.
Proof.
  destruct (@getCS _ MockMemoryManager_ops testPlatform 100 reuseReceiver)
    as [s'| |] eqn:H; try (vm_compute in H; discriminate).
  exists s'. split; [reflexivity|].
  refine (proj1 (@getCS_settles _ MockMemoryManager_ops testPlatform 16 100 reuseReceiver s'
                   eq_refl _ _ _ _ _ H)); vm_compute; intuition discriminate.
Defined.



(** ** More on the heaps *)

Section HeapMore.
Context {MM : Type} `{!MemoryManager MM} `{!Platform} `{!Overrides MM}.
Implicit Type s : CommandStreamReceiver MM.

(** The two ways through [getIndirectHeap]: the heap has a backing with
    enough room and nothing happens, or [allocateHeapMemory] runs once, on
    the receiver as it is or after the backing was retired. *)
Lemma getIndirectHeap_cases heapType minRequiredSize s :
  (exists h a,
     indirectHeap s heapType = Some h /\ IndirectHeap.getGraphicsAllocation h = Some a
     /\ minRequiredSize <= IndirectHeap.getAvailableSpace h
     /\ getIndirectHeap heapType minRequiredSize s = Ok s)
  \/ (exists s1,
        indirectHeap s1 = indirectHeap s
        /\ (indirectHeap s heapType = None -> s1 = s)
        /\ getIndirectHeap heapType minRequiredSize s
           = ('(h', s2) ← allocateHeapMemory heapType minRequiredSize
                             (indirectHeap s heapType) s1;
              Ok (setIndirectHeap s2 heapType (Some h')))).
Proof.
  unfold getIndirectHeap. destruct (indirectHeap s heapType) as [h|] eqn:Hh; simpl.
  - destruct (IndirectHeap.getGraphicsAllocation h) as [a|] eqn:Ha.
    + destruct (Z.ltb_spec (IndirectHeap.getAvailableSpace h) minRequiredSize).
      * right. eexists. split; [|split; [|reflexivity]]; done.
      * left. by exists h, a.
    + right. by exists s.
  - right. by exists s.
Qed.

(** [allocateHeapMemory] has no fatal check. *)
Lemma allocateHeapMemory_never_unrecoverable heapType minRequiredSize heap s :
  allocateHeapMemory heapType minRequiredSize heap s <> Unrecoverable.
Proof.
  unfold allocateHeapMemory.
  destruct (obtainReusableAllocation _ _ s) as [[e|] s1]; simpl.
  - by destruct heap.
  - unfold allocateGraphicsMemory.
    destruct (allocateGraphicsMemoryWithProperties _ _ (memoryManager s1)) as [[a|] mm'];
      by destruct heap.
Qed.

(** With an empty slot [allocateHeapMemory] dereferences nothing. *)
Lemma allocateHeapMemory_empty_slot heapType minRequiredSize s :
  exists h' s', allocateHeapMemory heapType minRequiredSize None s = Ok (h', s').
Proof.
  unfold allocateHeapMemory.
  destruct (obtainReusableAllocation _ _ s) as [[e|] s1]; simpl; [by eexists _, _|].
  destruct (allocateGraphicsMemory _ _ s1) as [fa s2]. by eexists _, _.
Qed.

(** When neither the reusable list nor the memory manager gives an
    allocation, [allocateHeapMemory] on a slot that holds a heap reaches
    [heapMemory->getUnderlyingBuffer()] with a null [heapMemory]. *)
Lemma allocateHeapMemory_null heapType minRequiredSize h s :
  (obtainReusableAllocation (heapAllocationSize heapType minRequiredSize)
     (heapAllocationType heapType) s).1 = None ->
  (allocateGraphicsMemoryWithProperties (heapAllocationSize heapType minRequiredSize)
     (heapAllocationType heapType) (memoryManager s)).1 = None ->
  allocateHeapMemory heapType minRequiredSize (Some h) s = NullDereference.
Proof.
  unfold allocateHeapMemory.
  destruct (obtainReusableAllocation_frame (heapAllocationSize heapType minRequiredSize)
              (heapAllocationType heapType) s) as (_ & _ & _ & _ & Hmm).
  destruct (obtainReusableAllocation _ _ s) as [reused s1]. simpl in *.
  intros -> Hfresh. unfold allocateGraphicsMemory. rewrite Hmm.
  destruct (allocateGraphicsMemoryWithProperties _ _ (memoryManager s)) as [fa mm'].
  simpl in Hfresh. by subst fa.
Qed.

(** X7.  [allocateHeapMemory] never stops in a fatal check.  It
    dereferences a null allocation exactly when the slot holds a heap, the
    reusable list has nothing to hand out and the memory manager returns
    null.  With an empty slot the same failure is not noticed: the call
    returns a new heap that has no backing allocation. *)
Theorem allocateHeapMemory_outcome heapType minRequiredSize heap s :
  let lookup := obtainReusableAllocation (heapAllocationSize heapType minRequiredSize)
                  (heapAllocationType heapType) s in
  let fresh := allocateGraphicsMemoryWithProperties
                 (heapAllocationSize heapType minRequiredSize)
                 (heapAllocationType heapType) (memoryManager s) in
  allocateHeapMemory heapType minRequiredSize heap s <> Unrecoverable
  /\ (allocateHeapMemory heapType minRequiredSize heap s = NullDereference <->
      is_Some heap /\ lookup.1 = None /\ fresh.1 = None)
  /\ (heap = None -> lookup.1 = None -> fresh.1 = None ->
      exists h0 s',
        allocateHeapMemory heapType minRequiredSize heap s = Ok (reserveHeap heapType h0, s')
        /\ IndirectHeap.getGraphicsAllocation h0 = None).
Proof.
  intros lookup fresh.
  split; [apply allocateHeapMemory_never_unrecoverable|]. split.
  - split.
    + intros Hnull. destruct heap as [h|].
      * split; [by eexists|]. subst lookup fresh. unfold allocateHeapMemory in Hnull.
        destruct (obtainReusableAllocation_frame
                    (heapAllocationSize heapType minRequiredSize)
                    (heapAllocationType heapType) s) as (_ & _ & _ & _ & Hmm).
        destruct (obtainReusableAllocation _ _ s) as [[e0|] s1]; simpl in *; [done|].
        unfold allocateGraphicsMemory in Hnull. rewrite Hmm in Hnull.
        split; [done|].
        by destruct (allocateGraphicsMemoryWithProperties _ _ (memoryManager s))
          as [[a|] mm'].
      * destruct (allocateHeapMemory_empty_slot heapType minRequiredSize s)
          as (? & ? & ?). congruence.
    + intros ([h ->] & Hlookup & Hfresh). by apply allocateHeapMemory_null.
  - intros -> Hlookup Hfresh.
    destruct (allocateHeapMemory_empty_slot heapType minRequiredSize s) as (h' & s' & Hal).
    destruct (allocateHeapMemory_Ok _ _ _ _ _ _ Hal) as (h0 & -> & _ & _ & _ & Hsrc & _).
    fold lookup fresh in Hsrc. rewrite Hlookup in Hsrc.
    exists h0, s'. split; [done|]. rewrite Hsrc in Hfresh. done.
Qed.



(** X9.  When [getIndirectHeap] returns, the slot holds a heap, which is
    the one returned, and no other slot has changed; the call never stops
    in a fatal check.  The heap has a backing allocation (the
    scratch-space controller keeping the backing of the heap it is given)
    unless the slot was empty and neither the reusable list nor the memory
    manager gave an allocation: then the heap returned has none. *)
Theorem getIndirectHeap_returns_heap heapType minRequiredSize s :
  (forall h, IndirectHeap.getGraphicsAllocation (reserveHeap heapType h)
             = IndirectHeap.getGraphicsAllocation h) ->
  getIndirectHeap heapType minRequiredSize s <> Unrecoverable
  /\ forall s',
       getIndirectHeap heapType minRequiredSize s = Ok s' ->
       exists h',
         indirectHeap s' heapType = Some h'
         /\ (IndirectHeap.getGraphicsAllocation h' = None <->
             indirectHeap s heapType = None
             /\ (obtainReusableAllocation (heapAllocationSize heapType minRequiredSize)
                   (heapAllocationType heapType) s).1 = None
             /\ (allocateGraphicsMemoryWithProperties
                   (heapAllocationSize heapType minRequiredSize)
                   (heapAllocationType heapType) (memoryManager s)).1 = None)
         /\ forall t, t <> heapType -> indirectHeap s' t = indirectHeap s t.
Proof.
  intros Hres.
  destruct (getIndirectHeap_cases heapType minRequiredSize s)
    as [(h & a & Hh & Ha & _ & ->)|(s1 & Hih & Hsame & ->)].
  - split; [done|]. intros s' [= <-]. exists h. split; [done|]. split; [|done].
    rewrite Ha, Hh. split; [done | by intros [? _]].
  - destruct (allocateHeapMemory heapType minRequiredSize (indirectHeap s heapType) s1)
      as [[h' s2]| |] eqn:Hal; simpl.
    + split; [done|]. intros s' [= <-].
      destruct (allocateHeapMemory_Ok _ _ _ _ _ _ Hal)
        as (h0 & -> & _ & _ & _ & Hsrc & _ & Hsome & _ & Hih2 & _).
      exists (reserveHeap heapType h0). simpl. rewrite decide_True by done.
      split; [done|]. split.
      * rewrite Hres. split.
        -- intros Hno. destruct (indirectHeap s heapType) as [h|] eqn:Hh.
           ++ destruct (Hsome ltac:(by eexists)) as [a Ha]. congruence.
           ++ rewrite (Hsame eq_refl) in Hsrc. split; [done|].
              destruct (obtainReusableAllocation _ _ s).1 as [e|].
              ** destruct Hsrc as [Hback _]. congruence.
              ** split; [done|]. rewrite Hsrc. done.
        -- intros (Hh & Hlookup & Hfresh). rewrite (Hsame Hh) in Hsrc.
           rewrite Hlookup in Hsrc. rewrite Hsrc in Hfresh. done.
      * intros t Hne. rewrite decide_False by done. by rewrite Hih2, Hih.
    + split; [done|]. done.
    + by destruct (allocateHeapMemory_never_unrecoverable heapType minRequiredSize
                     (indirectHeap s heapType) s1).
Qed.


End HeapMore.

Lemma allocateHeapMemory_outcome_witness :
  let s := initializedReceiver {| nextSelf := 1; remaining := 0 |} in
  (exists h0 s',
     @allocateHeapMemory _ MockMemoryManager_ops testPlatform baseOverrides
       IndirectHeap.DYNAMIC_STATE 100 None s = Ok (h0, s')
     /\ IndirectHeap.getGraphicsAllocation h0 = None)
  /\ @allocateHeapMemory _ MockMemoryManager_ops testPlatform baseOverrides
       IndirectHeap.DYNAMIC_STATE 100
       (Some (IndirectHeap.create None false)) s = NullDereference.
Proof.
  intros s. split.
  - destruct (proj2 (proj2 (@allocateHeapMemory_outcome _ MockMemoryManager_ops
                              testPlatform baseOverrides IndirectHeap.DYNAMIC_STATE 100
                              None s)) eq_refl eq_refl eq_refl) as (h0 & s' & Hal & Hno).
    exists h0, s'. split; [exact Hal | exact Hno].
  - apply (proj1 (proj2 (@allocateHeapMemory_outcome _ MockMemoryManager_ops
                           testPlatform baseOverrides IndirectHeap.DYNAMIC_STATE 100
                           (Some (IndirectHeap.create None false)) s))).
    split; [by eexists|]. split; reflexivity.
Defined.


Lemma getIndirectHeap_returns_heap_witness :
  exists s' h',
    @getIndirectHeap _ MockMemoryManager_ops testPlatform baseOverrides
      IndirectHeap.DYNAMIC_STATE 0
      (initializedReceiver {| nextSelf := 1; remaining := 0 |}) = Ok s'
    /\ indirectHeap s' IndirectHeap.DYNAMIC_STATE = Some h'
    /\ IndirectHeap.getGraphicsAllocation h' = None.
Proof.
  destruct (@getIndirectHeap _ MockMemoryManager_ops testPlatform baseOverrides
              IndirectHeap.DYNAMIC_STATE 0
              (initializedReceiver {| nextSelf := 1; remaining := 0 |}))
    as [s'| |] eqn:H; try (vm_compute in H; discriminate).
  destruct (proj2 (@getIndirectHeap_returns_heap _ MockMemoryManager_ops
                     testPlatform baseOverrides IndirectHeap.DYNAMIC_STATE 0
                     (initializedReceiver {| nextSelf := 1; remaining := 0 |})
                     (fun h => eq_refl)) s' H) as (h' & Hh & Hno & _).
  exists s', h'. split; [reflexivity|]. split; [exact Hh|].
  apply Hno. split; [reflexivity|]. split; reflexivity.
Defined.


(** ** Releasing a heap *)

Section ReleaseFacts.
Context {MM : Type}.
Implicit Type s : CommandStreamReceiver MM.

(** X11.  [releaseIndirectHeap] moves the backing of the heap to the
    reusable list and leaves the heap without buffer, backing or room: the
    backing, if there was one, is the last entry of the reusable list, once,
    and no heap refers to it through this slot any more.  Nothing else
    changes; on a slot without heap nothing happens at all; and a second
    release stores nothing. *)
Theorem releaseIndirectHeap_moves_backing (heapType : IndirectHeap.Type_) s :
  match indirectHeap s heapType with
  | None => releaseIndirectHeap heapType s = s
  | Some h =>
      let s' := releaseIndirectHeap heapType s in
      (exists h',
         indirectHeap s' heapType = Some h'
         /\ IndirectHeap.getGraphicsAllocation h' = None
         /\ LinearStream.getCpuBase (IndirectHeap.stream h') = 0
         /\ IndirectHeap.getAvailableSpace h' = 0)
      /\ InternalAllocationStorage.allocationsForReuse (internalAllocationStorage s')
         = InternalAllocationStorage.allocationsForReuse (internalAllocationStorage s)
           ++ match IndirectHeap.getGraphicsAllocation h with
              | Some a =>
                  [{| InternalAllocationStorage.allocation := a;
                      InternalAllocationStorage.freeAfter :=
                        GraphicsAllocation.getTaskCount a (osContextId s) |}]
              | None => []
              end
      /\ InternalAllocationStorage.temporaryAllocations (internalAllocationStorage s')
         = InternalAllocationStorage.temporaryAllocations (internalAllocationStorage s)
      /\ (forall t, t <> heapType -> indirectHeap s' t = indirectHeap s t)
      /\ commandStream s' = commandStream s
      /\ internalAllocationStorage (releaseIndirectHeap heapType s')
         = internalAllocationStorage s'
      /\ forall t, indirectHeap (releaseIndirectHeap heapType s') t = indirectHeap s' t
  end.
Proof.
  destruct (indirectHeap s heapType) as [h|] eqn:Hh;
    [|unfold releaseIndirectHeap; by rewrite Hh].
  assert (Hrel : releaseIndirectHeap heapType s
                 = setIndirectHeap
                     match IndirectHeap.getGraphicsAllocation h with
                     | Some heapMemory =>
                         storeAllocation heapMemory
                           InternalAllocationStorage.REUSABLE_ALLOCATION s
                     | None => s
                     end heapType
                     (Some (IndirectHeap.onStream
                              (fun st => LinearStream.replaceGraphicsAllocation
                                           (LinearStream.replaceBuffer st 0 0) None) h)))
    by (unfold releaseIndirectHeap; by rewrite Hh).
  rewrite Hrel. clear Hrel.
  set (s' := setIndirectHeap _ _ _).
  assert (Hslot : indirectHeap s' heapType
                  = Some (IndirectHeap.onStream
                            (fun st => LinearStream.replaceGraphicsAllocation
                                         (LinearStream.replaceBuffer st 0 0) None) h)).
  { subst s'. simpl. by rewrite decide_True. }
  cbv zeta. split; [eexists; split; [exact Hslot|]; by repeat split|].
  split; [subst s'; destruct (IndirectHeap.getGraphicsAllocation h); simpl;
          by rewrite ?app_nil_r|].
  split; [subst s'; by destruct (IndirectHeap.getGraphicsAllocation h)|].
  split.
  { intros t Hne. subst s'. simpl. rewrite decide_False by done.
    by destruct (IndirectHeap.getGraphicsAllocation h). }
  split; [subst s'; by destruct (IndirectHeap.getGraphicsAllocation h)|].
  clearbody s'. unfold releaseIndirectHeap. rewrite Hslot. simpl. split; [done|].
  intros t. destruct (decide (t = heapType)) as [->|Hne]; [|done].
  by rewrite Hslot.
Qed.

End ReleaseFacts.

Section ReleaseRoundTrip.
Context {MM : Type} `{!MemoryManager MM} `{!Platform} `{!Overrides MM}.
Implicit Type s : CommandStreamReceiver MM.

Lemma detachAllocation_last size ty fence l e :
  Forall (fun x => InternalAllocationStorage.reusableNow size ty fence x = false) l ->
  InternalAllocationStorage.reusableNow size ty fence e = true ->
  InternalAllocationStorage.detachAllocation size ty fence (l ++ [e]) = Some (e, l).
Proof.
  induction 1 as [|x l Hx _ IH]; intros He; simpl.
  - by rewrite He.
  - by rewrite Hx, (IH He).
Qed.

(** X12.  A heap that was released gets its backing back: when the fence
    has reached the task count recorded in the backing, the backing has
    the type and at least the size that [getIndirectHeap] looks for, and no
    older entry of the reusable list qualifies, [getIndirectHeap] after
    [releaseIndirectHeap] returns the heap over the same allocation, with
    the reusable list as it was before the release and without asking the
    memory manager (the scratch-space controller keeping the backing of the
    heap it is given). *)
Theorem releaseIndirectHeap_getIndirectHeap heapType minRequiredSize s h a fence :
  indirectHeap s heapType = Some h ->
  IndirectHeap.getGraphicsAllocation h = Some a ->
  tagAddress s = Some fence ->
  GraphicsAllocation.getTaskCount a (osContextId s) <= fence ->
  GraphicsAllocation.getAllocationType a = heapAllocationType heapType ->
  heapAllocationSize heapType minRequiredSize <= GraphicsAllocation.getUnderlyingBufferSize a ->
  Forall (fun e => InternalAllocationStorage.reusableNow
                     (heapAllocationSize heapType minRequiredSize)
                     (heapAllocationType heapType) fence e = false)
    (InternalAllocationStorage.allocationsForReuse (internalAllocationStorage s)) ->
  (forall x, IndirectHeap.getGraphicsAllocation (reserveHeap heapType x)
             = IndirectHeap.getGraphicsAllocation x) ->
  exists s',
    getIndirectHeap heapType minRequiredSize (releaseIndirectHeap heapType s) = Ok s'
    /\ (exists h', indirectHeap s' heapType = Some h'
                   /\ IndirectHeap.getGraphicsAllocation h' = Some a)
    /\ InternalAllocationStorage.allocationsForReuse (internalAllocationStorage s')
       = InternalAllocationStorage.allocationsForReuse (internalAllocationStorage s)
    /\ memoryManager s' = memoryManager s.
Proof.
  intros Hh Ha Htag Hfence Hty Hsz Hnone Hres.
  set (e := {| InternalAllocationStorage.allocation := a;
               InternalAllocationStorage.freeAfter :=
                 GraphicsAllocation.getTaskCount a (osContextId s) |}).
  assert (He : InternalAllocationStorage.reusableNow
                 (heapAllocationSize heapType minRequiredSize)
                 (heapAllocationType heapType) fence e = true).
  { unfold InternalAllocationStorage.reusableNow. simpl.
    rewrite bool_decide_eq_true_2 by done.
    by rewrite (proj2 (Z.leb_le _ _) Hsz), (proj2 (Z.leb_le _ _) Hfence). }
  pose proof (detachAllocation_last _ _ _ _ _ Hnone He) as Hdetach.
  unfold releaseIndirectHeap. rewrite Hh, Ha.
  unfold getIndirectHeap. simpl. rewrite decide_True by done. simpl.
  unfold allocateHeapMemory, obtainReusableAllocation,
    InternalAllocationStorage.obtainReusableAllocation. simpl.
  rewrite Htag. fold e. rewrite Hdetach. simpl.
  eexists. split; [reflexivity|]. simpl. rewrite decide_True by done.
  split; [eexists; split; [reflexivity|]; by rewrite Hres|]. done.
Qed.

End ReleaseRoundTrip.

Lemma releaseIndirectHeap_getIndirectHeap_witness :
  let a := testAllocation 1 65536 LINEAR_STREAM in
  let s := heapReceiver IndirectHeap.DYNAMIC_STATE a 65536 100
             {| nextSelf := 2; remaining := 0 |} in
  exists s' h',
    @getIndirectHeap _ MockMemoryManager_ops testPlatform baseOverrides
      IndirectHeap.DYNAMIC_STATE 1000 (releaseIndirectHeap IndirectHeap.DYNAMIC_STATE s)
      = Ok s'
    /\ indirectHeap s' IndirectHeap.DYNAMIC_STATE = Some h'
    /\ IndirectHeap.getGraphicsAllocation h' = Some a.
Proof.
  intros a s.
  destruct (@releaseIndirectHeap_getIndirectHeap _ MockMemoryManager_ops testPlatform
              baseOverrides IndirectHeap.DYNAMIC_STATE 1000 s _ a 0 eq_refl eq_refl eq_refl)
    as (s' & Hget & (h' & Hh & Ha) & _);
    [by vm_compute | reflexivity | by vm_compute | constructor | intros x; reflexivity |].
  exists s', h'. split; [exact Hget|]. split; [exact Hh | exact Ha].
Defined.

(** ** Eviction *)

Section EvictionFacts.
Context {MM : Type} `{!Overrides MM} `{!ResidencyOverrides MM}.
Implicit Type s : CommandStreamReceiver MM.
Implicit Type gfx : GraphicsAllocation.t.

Lemma makeResident_keeps gfx s :
  GraphicsAllocation.self (makeResident gfx s).1 = GraphicsAllocation.self gfx
  /\ GraphicsAllocation.peekEvictable (makeResident gfx s).1
     = GraphicsAllocation.peekEvictable gfx
  /\ evictionAllocations (makeResident gfx s).2 = evictionAllocations s.
Proof.
  unfold makeResident.
  destruct (GraphicsAllocation.isResidencyTaskCountBelow _ _ _); [|done].
  by destruct (negb _).
Qed.

Lemma makeNonResident_not_resident gfx s :
  GraphicsAllocation.isResident (makeNonResident gfx s).1
    (osContextId (makeNonResident gfx s).2) = false.
Proof.
  unfold makeNonResident.
  destruct (GraphicsAllocation.isResident gfx (osContextId s)); simpl.
  - destruct (makeCoherent gfx s) as [g0 s0].
    destruct (GraphicsAllocation.peekEvictable g0); simpl;
      apply isResident_releaseResidency.
  - apply isResident_releaseResidency.
Qed.

Lemma makeNonResident_context gfx s :
  (forall g r, osContextId (makeCoherent g r).2 = osContextId r) ->
  osContextId (makeNonResident gfx s).2 = osContextId s.
Proof.
  intros Hctx. unfold makeNonResident.
  destruct (GraphicsAllocation.isResident gfx (osContextId s)); [|done].
  specialize (Hctx gfx s). destruct (makeCoherent gfx s) as [g0 s0].
  by destruct (GraphicsAllocation.peekEvictable g0).
Qed.

(** One cycle, with nothing to make coherent: the first time round the
    allocation is only marked, later it is appended. *)
Lemma residencyCycle_step gfx s :
  (forall g r, makeCoherent g r = (g, r)) ->
  GraphicsAllocation.self (residencyCycle gfx s).1 = GraphicsAllocation.self gfx
  /\ GraphicsAllocation.peekEvictable (residencyCycle gfx s).1 = true
  /\ GraphicsAllocation.isResident (residencyCycle gfx s).1 (osContextId s) = false
  /\ osContextId (residencyCycle gfx s).2 = osContextId s
  /\ evictionAllocations (residencyCycle gfx s).2
     = evictionAllocations s
       ++ (if GraphicsAllocation.peekEvictable gfx then [GraphicsAllocation.self gfx]
           else []).
Proof.
  intros Hcoh. unfold residencyCycle.
  destruct (makeResident_keeps gfx s) as (Hself & Hev & Hlist).
  destruct (makeResident_receiver gfx s) as [_ Hctx].
  pose proof (makeResident_resident gfx s) as Hres.
  destruct (makeResident gfx s) as [g s1]. simpl in *.
  unfold makeNonResident. rewrite Hctx, Hres, Hcoh, Hev.
  destruct (GraphicsAllocation.peekEvictable gfx); simpl;
    rewrite ?Hctx, ?isResident_releaseResidency, ?Hself, ?Hlist, ?app_nil_r; done.
Qed.

(** X13.  The two steps of eviction, with nothing to make coherent.  The
    first cycle of making an allocation resident and non-resident only
    marks it evictable and appends nothing; every later cycle appends it to
    the eviction container.  The container is not a set: as long as
    [processEviction] does not run, [n + 1] cycles of an unmarked allocation
    leave [n] entries for it (and [n + 1] of a marked one). *)
Theorem eviction_in_two_steps gfx s (n : nat) :
  (forall g r, makeCoherent g r = (g, r)) ->
  GraphicsAllocation.peekEvictable (residencyCycle gfx s).1 = true
  /\ GraphicsAllocation.isResident (residencyCycle gfx s).1 (osContextId s) = false
  /\ evictionAllocations (residencyCycle gfx s).2
     = evictionAllocations s
       ++ (if GraphicsAllocation.peekEvictable gfx then [GraphicsAllocation.self gfx]
           else [])
  /\ evictionAllocations (residencyCycles (S n) gfx s).2
     = evictionAllocations s
       ++ replicate (if GraphicsAllocation.peekEvictable gfx then S n else n)
            (GraphicsAllocation.self gfx).
Proof.
  intros Hcoh.
  destruct (residencyCycle_step gfx s Hcoh) as (_ & Hev & Hres & _ & Hlist).
  do 3 (split; [done|]). clear Hev Hres Hlist.
  revert gfx s. induction n as [|n IH]; intros gfx s.
  - destruct (residencyCycle_step gfx s Hcoh) as (_ & _ & _ & _ & Hlist).
    simpl. destruct (residencyCycle gfx s) as [g s1]. simpl in *. rewrite Hlist.
    by destruct (GraphicsAllocation.peekEvictable gfx).
  - change (residencyCycles (S (S n)) gfx s)
      with (let '(g, s1) := residencyCycle gfx s in residencyCycles (S n) g s1).
    destruct (residencyCycle_step gfx s Hcoh) as (Hself & Hev & _ & _ & Hlist).
    destruct (residencyCycle gfx s) as [g s1]. simpl in Hself, Hev, Hlist.
    rewrite IH, Hev, Hlist, Hself, <- app_assoc.
    by destruct (GraphicsAllocation.peekEvictable gfx).
Qed.

Lemma makeNonResidentEach_Ok (surfaces : list N) :
  (forall g r, osContextId (makeCoherent g r).2 = osContextId r) ->
  forall (objects objects' : gmap N GraphicsAllocation.t) s s',
    makeNonResidentEach surfaces objects s = Ok (objects', s') ->
    osContextId s' = osContextId s
    /\ (forall p, p ∈ surfaces ->
          exists g, objects' !! p = Some g
                    /\ GraphicsAllocation.isResident g (osContextId s) = false)
    /\ (forall p, p ∉ surfaces -> objects' !! p = objects !! p).
Proof.
  intros Hctx. induction surfaces as [|p rest IH]; intros objects objects' s s'; simpl.
  - intros [= <- <-]. split; [done|]. split; [|done]. intros p Hp. by apply elem_of_nil in Hp.
  - destruct (objects !! p) as [gfx|] eqn:Hp; simpl; [|done].
    pose proof (makeNonResident_not_resident gfx s) as Hnr.
    pose proof (makeNonResident_context gfx s Hctx) as Hc.
    destruct (makeNonResident gfx s) as [g s1]. simpl in Hnr, Hc.
    intros Heach. destruct (IH _ _ _ _ Heach) as (Hc' & Hin & Hout).
    split; [congruence|]. split.
    + intros q Hq. destruct (decide (q ∈ rest)) as [Hr|Hr].
      * destruct (Hin q Hr) as (g' & Hg' & Hnr'). exists g'. by rewrite <- Hc.
      * apply elem_of_cons in Hq as [->|?]; [|done].
        exists g. rewrite (Hout p Hr), lookup_insert_eq. split; [done|]. by rewrite <- Hc.
    + intros q Hq. apply not_elem_of_cons in Hq as [Hne Hr].
      by rewrite (Hout q Hr), lookup_insert_ne.
Qed.

Lemma makeNonResidentEach_outcome (surfaces : list N) :
  forall (objects : gmap N GraphicsAllocation.t) s,
    makeNonResidentEach surfaces objects s <> Unrecoverable
    /\ (makeNonResidentEach surfaces objects s = NullDereference <->
        exists p, p ∈ surfaces /\ objects !! p = None).
Proof.
  induction surfaces as [|p rest IH]; intros objects s; simpl.
  - split; [done|]. split; [done|]. intros (p & Hp & _). by apply elem_of_nil in Hp.
  - destruct (objects !! p) as [gfx|] eqn:Hp; simpl.
    + destruct (makeNonResident gfx s) as [g s1].
      destruct (IH (<[p := g]> objects) s1) as [Hnu Hnull]. split; [done|].
      rewrite Hnull. split.
      * intros (q & Hq & Hnone). exists q. split; [by apply elem_of_cons; right|].
        destruct (decide (p = q)) as [->|Hne]; [by rewrite lookup_insert_eq in Hnone|].
        by rewrite lookup_insert_ne in Hnone.
      * intros (q & Hq & Hnone). apply elem_of_cons in Hq as [->|Hq]; [congruence|].
        exists q. split; [done|].
        destruct (decide (p = q)) as [->|Hne]; [congruence|]. by rewrite lookup_insert_ne.
    + split; [done|]. split; [|done]. intros _. exists p. split; [by apply elem_of_cons; left|done].
Qed.

(** X14.  [makeSurfacePackNonResident] on a container of allocation
    pointers, which may be the receiver's own residency container (the
    overrides keeping the context of the receiver).  When it returns, the
    container is empty, the eviction container is empty (whatever the
    [makeNonResident] calls appended is dropped at once), every allocation
    the container pointed to is not resident in the receiver's context,
    also one that was listed twice, and no other allocation object was
    touched.  It fails, by dereferencing, exactly when the container holds
    a pointer without an object. *)
Theorem makeSurfacePackNonResident_spec (c : ResidencyContainerRef)
    (objects : gmap N GraphicsAllocation.t) s :
  (forall g r, osContextId (makeCoherent g r).2 = osContextId r) ->
  osContextId (waitBeforeMakingNonResidentWhenRequired s) = osContextId s ->
  let surfaces := containerContents c (waitBeforeMakingNonResidentWhenRequired s) in
  makeSurfacePackNonResident c objects s <> Unrecoverable
  /\ (makeSurfacePackNonResident c objects s = NullDereference <->
      exists p, p ∈ surfaces /\ objects !! p = None)
  /\ forall c' objects' s',
       makeSurfacePackNonResident c objects s = Ok (c', objects', s') ->
       containerContents c' s' = []
       /\ evictionAllocations s' = []
       /\ (forall p, p ∈ surfaces ->
             exists g, objects' !! p = Some g
                       /\ GraphicsAllocation.isResident g (osContextId s) = false)
       /\ (forall p, p ∉ surfaces -> objects' !! p = objects !! p).
Proof.
  intros Hctx Hwait surfaces. unfold makeSurfacePackNonResident. fold surfaces.
  destruct (makeNonResidentEach_outcome surfaces objects
              (waitBeforeMakingNonResidentWhenRequired s)) as [Hnu Hnull].
  destruct (makeNonResidentEach surfaces objects _) as [[objects1 s1]| |] eqn:Heach;
    simpl; [| | by destruct Hnu].
  2: { split; [done|]. split; [|by intros ? ? ?].
       split; [intros _; by apply Hnull | done]. }
  split; [by destruct c|]. split.
  - split; [by destruct c|]. intros Hex. by apply Hnull in Hex.
  - intros c' objects' s' Hok.
    destruct (makeNonResidentEach_Ok surfaces Hctx _ _ _ _ Heach) as (_ & Hin & Hout).
    rewrite Hwait in Hin.
    destruct c; injection Hok as <- <- <-; simpl; by repeat split.
Qed.

End EvictionFacts.

Lemma eviction_in_two_steps_witness :
  let gfx := testAllocation 1 4096 UNDECIDED in
  let s := initializedReceiver {| nextSelf := 2; remaining := 0 |} in
  evictionAllocations (@residencyCycle _ baseOverrides gfx s).2 = []
  /\ evictionAllocations (@residencyCycles _ baseOverrides 3 gfx s).2 = [1%N; 1%N].
Proof.
  intros gfx s.
  destruct (@eviction_in_two_steps _ baseOverrides gfx s 2 (fun g r => eq_refl))
    as (_ & _ & H1 & Hn).
  split; [exact H1 | exact Hn].
Defined.

Lemma makeSurfacePackNonResident_spec_witness :
  let resident := GraphicsAllocation.updateResidencyTaskCount
                    (testAllocation 1 4096 UNDECIDED) 1 0 in
  let objects : gmap N GraphicsAllocation.t :=
    <[1%N := resident]> (<[2%N := testAllocation 2 4096 UNDECIDED]> ∅) in
  let s := initializedReceiver {| nextSelf := 3; remaining := 0 |} in
  GraphicsAllocation.isResident resident 0 = true
  /\ exists c' objects' s' g,
       @makeSurfacePackNonResident _ baseOverrides baseResidencyOverrides
         (OtherContainer [1%N; 2%N; 1%N]) objects s = Ok (c', objects', s')
       /\ objects' !! 1%N = Some g
       /\ GraphicsAllocation.isResident g 0 = false.
Proof.
  intros resident objects s. split; [reflexivity|].
  destruct (@makeSurfacePackNonResident _ baseOverrides baseResidencyOverrides
              (OtherContainer [1%N; 2%N; 1%N]) objects s) as [[[c' objects'] s']| |] eqn:H;
    try (vm_compute in H; discriminate).
  destruct (@makeSurfacePackNonResident_spec _ baseOverrides baseResidencyOverrides
              (OtherContainer [1%N; 2%N; 1%N]) objects s (fun g r => eq_refl) eq_refl)
    as (_ & _ & Hok).
  destruct (Hok c' objects' s' H) as (_ & _ & Hin & _).
  destruct (Hin 1%N) as (g & Hg & Hnr); [simpl; by left|].
  exists c', objects', s', g. split; [reflexivity|]. split; [exact Hg | exact Hnr].
Defined.

(** ** Waiting for a task count and cleaning a list *)

Section CleanFacts.
Context {MM : Type} `{!MemoryManagerRelease MM}.
Variable hw : Hardware.
Implicit Type s : CommandStreamReceiver MM.

Lemma spinUntil_Some (requiredTaskCount : Z) (fuel i n : nat) :
  spinUntil hw requiredTaskCount fuel i = Some n ->
  exists m, n = S m /\ (i <= m)%nat
            /\ (forall j, (i <= j < m)%nat -> tagAt hw j < requiredTaskCount)
            /\ requiredTaskCount <= tagAt hw m.
Proof.
  revert i. induction fuel as [|fuel IH]; intros i; simpl; [done|].
  destruct (Z.ltb_spec (tagAt hw i) requiredTaskCount) as [Hlt|Hge].
  - intros Hrec. destruct (IH _ Hrec) as (m & -> & Hle & Hbelow & Hreached).
    exists m. split; [done|]. split; [lia|]. split; [|done].
    intros j Hj. destruct (decide (j = i)) as [->|]; [done|]. apply Hbelow. lia.
  - intros [= <-]. exists i. split; [done|]. split; [lia|]. split; [intros j; lia | done].
Qed.

Lemma spinUntil_terminates (requiredTaskCount : Z) (d i : nat) :
  requiredTaskCount <= tagAt hw (i + d) ->
  exists n, spinUntil hw requiredTaskCount (S d) i = Some n.
Proof.
  revert i. induction d as [|d IH]; intros i Hreached.
  - rewrite Nat.add_0_r in Hreached. simpl.
    rewrite (proj2 (Z.ltb_ge _ _) Hreached). by eexists.
  - change (spinUntil hw requiredTaskCount (S (S d)) i)
      with (if tagAt hw i <? requiredTaskCount
            then spinUntil hw requiredTaskCount (S d) (S i) else Some (S i)).
    destruct (_ <? _); [|by eexists].
    apply IH. by replace (S i + d)%nat with (i + S d)%nat by lia.
Qed.

Lemma spinUntil_never (requiredTaskCount : Z) (fuel i : nat) :
  (forall j, (i <= j)%nat -> tagAt hw j < requiredTaskCount) ->
  spinUntil hw requiredTaskCount fuel i = None.
Proof.
  revert i. induction fuel as [|fuel IH]; intros i Hbelow; simpl; [done|].
  rewrite (proj2 (Z.ltb_lt _ _) (Hbelow i ltac:(lia))). apply IH.
  intros j Hj. apply Hbelow. lia.
Qed.

Lemma filter_none_keeps_all {A} (p : A -> bool) (l : list A) :
  List.filter p l = [] -> List.filter (fun x => negb (p x)) l = l.
Proof.
  induction l as [|x l IH]; simpl; [done|].
  destruct (p x); simpl; [done|]. intros H. by rewrite IH.
Qed.

(** With a memory manager, [cleanAllocationList] returns: the entries that
    are due are freed in list order and the others kept. *)
Lemma cleanAllocationList_Ok (waitTaskCount : Z)
    (allocationUsage : InternalAllocationStorage.AllocationUsage) s :
  exists s',
    cleanAllocationList true waitTaskCount allocationUsage s = Ok s'
    /\ allocationList allocationUsage (internalAllocationStorage s')
       = List.filter (fun e => negb (cleanedAt waitTaskCount e))
           (allocationList allocationUsage (internalAllocationStorage s))
    /\ (forall u, u <> allocationUsage ->
          allocationList u (internalAllocationStorage s')
          = allocationList u (internalAllocationStorage s))
    /\ memoryManager s'
       = freeSequence
           (map (fun e => Some (InternalAllocationStorage.allocation e))
              (List.filter (cleanedAt waitTaskCount)
                 (allocationList allocationUsage (internalAllocationStorage s))))
           (memoryManager s)
    /\ indirectHeap s' = indirectHeap s /\ commandStream s' = commandStream s
    /\ debugSurface s' = debugSurface s /\ tagAllocation s' = tagAllocation s
    /\ tagAddress s' = tagAddress s
    /\ latestFlushedTaskCount s' = latestFlushedTaskCount s
    /\ taskCount s' = taskCount s /\ osContextId s' = osContextId s.
Proof.
  unfold cleanAllocationList.
  destruct (List.filter (cleanedAt waitTaskCount) _) as [|e freed] eqn:Hf.
  - exists s. split; [done|]. rewrite (filter_none_keeps_all _ _ Hf). by repeat split.
  - eexists. split; [reflexivity|]. simpl.
    split; [by destruct allocationUsage|].
    split; [intros u Hu; by destruct allocationUsage, u|]. by repeat split.
Qed.

Lemma cleanedAt_due (waitTaskCount fence : Z) (e : InternalAllocationStorage.Entry) :
  in_uint32 (InternalAllocationStorage.freeAfter e) ->
  waitTaskCount <= fence ->
  cleanedAt waitTaskCount e = true ->
  InternalAllocationStorage.freeAfter e <= fence.
Proof.
  unfold cleanedAt, in_uint32. intros Hr Hle [Hs|Hd]%orb_true_iff.
  - apply bool_decide_eq_true in Hs. subst waitTaskCount.
    change (wrap_uint32 (-1)) with (2 ^ uint32_bits - 1) in Hle. lia.
  - apply Z.leb_le in Hd. lia.
Qed.

(** X15.  [waitForTaskCountAndCleanAllocationList] on a receiver with a
    fence cell frees nothing that the hardware may still use: when it
    returns it has read a fence value at or above the required task count,
    after reads that were all below it, and every entry it removed from the
    list has a free-after count at most that fence value, while every
    entry it kept is free only after a later task count.  It returns as
    soon as the fence can be read at or above the required count. *)
Theorem waitForTaskCountAndCleanAllocationList_safe (requiredTaskCount : Z)
    (allocationUsage : InternalAllocationStorage.AllocationUsage) (reads : nat) s :
  is_Some (tagAddress s) ->
  (forall e, e ∈ allocationList allocationUsage (internalAllocationStorage s) ->
             in_uint32 (InternalAllocationStorage.freeAfter e)) ->
  (forall fuel reads' s',
     waitForTaskCountAndCleanAllocationList hw true requiredTaskCount allocationUsage
       fuel reads s = Some (Ok (reads', s')) ->
     exists m,
       reads' = S m /\ (reads <= m)%nat
       /\ requiredTaskCount <= tagAt hw m
       /\ (forall j, (reads <= j < m)%nat -> tagAt hw j < requiredTaskCount)
       /\ tagAddress s' = Some (tagAt hw m)
       /\ (forall e,
             e ∈ allocationList allocationUsage (internalAllocationStorage s) ->
             e ∉ allocationList allocationUsage (internalAllocationStorage s') ->
             InternalAllocationStorage.freeAfter e <= tagAt hw m)
       /\ (forall e,
             e ∈ allocationList allocationUsage (internalAllocationStorage s') ->
             e ∈ allocationList allocationUsage (internalAllocationStorage s)
             /\ requiredTaskCount < InternalAllocationStorage.freeAfter e))
  /\ (forall d,
        requiredTaskCount <= tagAt hw (reads + d) ->
        exists reads' s',
          waitForTaskCountAndCleanAllocationList hw true requiredTaskCount allocationUsage
            (S d) reads s = Some (Ok (reads', s'))).
Proof.
  intros [v Htag] Hrange. unfold waitForTaskCountAndCleanAllocationList. rewrite Htag.
  split.
  - intros fuel reads' s'.
    destruct (spinUntil hw requiredTaskCount fuel reads) as [n|] eqn:Hspin; [|done].
    destruct (spinUntil_Some _ _ _ _ Hspin) as (m & -> & Hle & Hbelow & Hreached).
    set (s0 := setTag s _ _).
    destruct (cleanAllocationList_Ok requiredTaskCount allocationUsage s0)
      as (s1 & -> & Hkept & _ & _ & _ & _ & _ & _ & Htag1 & _).
    simpl. intros [= <- <-]. exists m. do 4 (split; [done|]). split; [done|].
    assert (Hlist : allocationList allocationUsage (internalAllocationStorage s0)
                    = allocationList allocationUsage (internalAllocationStorage s)) by done.
    rewrite Hkept, Hlist. split.
    + intros e Hin Hout. apply (cleanedAt_due requiredTaskCount); [by apply Hrange|done|].
      destruct (cleanedAt requiredTaskCount e) eqn:Hc; [done|]. exfalso. apply Hout.
      apply list_elem_of_In, filter_In. split; [by apply list_elem_of_In|]. by rewrite Hc.
    + intros e [Hin Hc]%list_elem_of_In%filter_In. split; [by apply list_elem_of_In|].
      apply negb_true_iff, orb_false_iff in Hc as [_ Hc]. by apply Z.leb_gt in Hc.
  - intros d Hreached. destruct (spinUntil_terminates _ _ _ Hreached) as (n & ->).
    set (s0 := setTag s _ _).
    destruct (cleanAllocationList_Ok requiredTaskCount allocationUsage s0) as (s1 & -> & _).
    simpl. by eexists _, _.
Qed.

(** X16.  The wait of [waitForTaskCountAndCleanAllocationList] has no
    timeout and no check of its own: on a receiver with a fence cell it does
    not return as long as the fence stays below the required task count,
    whatever the fuel; on a receiver without a fence cell it does not wait
    at all and cleans the list at once, without any fence read. *)
Theorem waitForTaskCountAndCleanAllocationList_edges (hasMemoryManager : bool)
    (requiredTaskCount : Z) (allocationUsage : InternalAllocationStorage.AllocationUsage)
    (fuel reads : nat) s :
  match tagAddress s with
  | Some _ =>
      (forall j, (reads <= j)%nat -> tagAt hw j < requiredTaskCount) ->
      waitForTaskCountAndCleanAllocationList hw hasMemoryManager requiredTaskCount
        allocationUsage fuel reads s = None
  | None =>
      waitForTaskCountAndCleanAllocationList hw hasMemoryManager requiredTaskCount
        allocationUsage fuel reads s
      = Some (s1 ← cleanAllocationList hasMemoryManager requiredTaskCount allocationUsage s;
              Ok (reads, s1))
  end.
Proof.
  unfold waitForTaskCountAndCleanAllocationList. destruct (tagAddress s); [|done].
  intros Hbelow. by rewrite spinUntil_never.
Qed.

End CleanFacts.

Lemma waitForTaskCountAndCleanAllocationList_safe_witness :
  exists reads' s',
    @waitForTaskCountAndCleanAllocationList _ LoggingMemoryManager_release busyHardware
      true 5 InternalAllocationStorage.TEMPORARY_ALLOCATION 6 0 dyingReceiver
      = Some (Ok (reads', s'))
    /\ tagAddress s' = Some 5
    /\ InternalAllocationStorage.temporaryAllocations (internalAllocationStorage s') = [].
Proof.
  destruct (proj2 (@waitForTaskCountAndCleanAllocationList_safe _
                     LoggingMemoryManager_release busyHardware 5
                     InternalAllocationStorage.TEMPORARY_ALLOCATION 0 dyingReceiver
                     (ex_intro _ 3 eq_refl)
                     ltac:(intros e [->|H]%elem_of_cons;
                            [by vm_compute | by apply elem_of_nil in H]))
              5%nat ltac:(simpl; lia)) as (reads' & s' & Hrun).
  exists reads', s'. split; [exact Hrun|].
  revert Hrun. vm_compute. intros [= <- <-]. split; reflexivity.
Defined.

Lemma waitForTaskCountAndCleanAllocationList_edges_witness :
  (forall j, (0 <= j)%nat -> tagAt idleHardware j < 5)
  /\ @waitForTaskCountAndCleanAllocationList _ LoggingMemoryManager_release idleHardware
       true 5 InternalAllocationStorage.TEMPORARY_ALLOCATION 100 0 dyingReceiver = None.
Proof.
  assert (Hbelow : forall j, (0 <= j)%nat -> tagAt idleHardware j < 5)
    by (intros j _; simpl; lia).
  split; [exact Hbelow|].
  exact (@waitForTaskCountAndCleanAllocationList_edges _ LoggingMemoryManager_release
           idleHardware true 5 InternalAllocationStorage.TEMPORARY_ALLOCATION 100 0
           dyingReceiver Hbelow).
Defined.

(** ** Cleaning up and destroying the receiver *)

Section CleanupFacts.
Context {MM : Type} `{!MemoryManagerRelease MM}.
Variable hw : Hardware.
Implicit Type s : CommandStreamReceiver MM.

Lemma spinUntil_more_fuel (requiredTaskCount : Z) (fuel fuel' i n : nat) :
  spinUntil hw requiredTaskCount fuel i = Some n -> (fuel <= fuel')%nat ->
  spinUntil hw requiredTaskCount fuel' i = Some n.
Proof.
  revert fuel' i. induction fuel as [|fuel IH]; intros fuel' i; simpl; [done|].
  intros Hrun Hle. destruct fuel' as [|fuel']; [lia|]. simpl.
  destruct (_ <? _); [|done]. apply IH; [done | lia].
Qed.

Lemma filter_kept_none_due {A} (p : A -> bool) (l : list A) :
  List.filter p (List.filter (fun x => negb (p x)) l) = [].
Proof.
  induction l as [|x l IH]; simpl; [done|].
  destruct (p x) eqn:Hp; simpl; [done|]. by rewrite Hp.
Qed.

Lemma filter_partition_perm {A} (p : A -> bool) (l : list A) :
  List.filter p l ++ List.filter (fun x => negb (p x)) l ≡ₚ l.
Proof.
  induction l as [|x l IH]; simpl; [done|].
  destruct (p x); simpl.
  - by rewrite IH.
  - by rewrite <- Permutation_middle, IH.
Qed.

Lemma freeSequence_app (l1 l2 : list (option GraphicsAllocation.t)) (mm : MM) :
  freeSequence (l1 ++ l2) mm = freeSequence l2 (freeSequence l1 mm).
Proof. unfold freeSequence. apply fold_left_app. Qed.

(** What a wait-and-clean that returns has done, with a memory manager. *)
Lemma waitForTaskCountAndCleanAllocationList_Ok (requiredTaskCount : Z)
    (allocationUsage : InternalAllocationStorage.AllocationUsage) (fuel reads : nat) s o :
  waitForTaskCountAndCleanAllocationList hw true requiredTaskCount allocationUsage
    fuel reads s = Some o ->
  exists reads' s',
    o = Ok (reads', s')
    /\ (tagAddress s = None -> reads' = reads)
    /\ allocationList allocationUsage (internalAllocationStorage s')
       = List.filter (fun e => negb (cleanedAt requiredTaskCount e))
           (allocationList allocationUsage (internalAllocationStorage s))
    /\ (forall u, u <> allocationUsage ->
          allocationList u (internalAllocationStorage s')
          = allocationList u (internalAllocationStorage s))
    /\ memoryManager s'
       = freeSequence
           (map (fun e => Some (InternalAllocationStorage.allocation e))
              (List.filter (cleanedAt requiredTaskCount)
                 (allocationList allocationUsage (internalAllocationStorage s))))
           (memoryManager s)
    /\ indirectHeap s' = indirectHeap s /\ commandStream s' = commandStream s
    /\ debugSurface s' = debugSurface s /\ tagAllocation s' = tagAllocation s
    /\ (tagAddress s' = None <-> tagAddress s = None)
    /\ latestFlushedTaskCount s' = latestFlushedTaskCount s.
Proof.
  unfold waitForTaskCountAndCleanAllocationList.
  destruct (tagAddress s) as [v|] eqn:Htag.
  - destruct (spinUntil hw requiredTaskCount fuel reads) as [n|]; [|done].
    set (s0 := setTag s _ _).
    destruct (cleanAllocationList_Ok requiredTaskCount allocationUsage s0)
      as (s1 & -> & Hk & Ho & Hmm & Hih & Hcs & Hd & Hta & Htg & Hlf & _).
    simpl. intros [= <-]. exists n, s1. split; [done|]. split; [done|].
    rewrite Hk, Hmm, Hih, Hcs, Hd, Hta, Htg, Hlf. split; [done|].
    split; [exact Ho|]. by repeat split.
  - destruct (cleanAllocationList_Ok requiredTaskCount allocationUsage s)
      as (s1 & -> & Hk & Ho & Hmm & Hih & Hcs & Hd & Hta & Htg & Hlf & _).
    simpl. intros [= <-]. exists reads, s1. split; [done|]. split; [done|].
    rewrite Hk, Hmm, Hih, Hcs, Hd, Hta, Htg, Hlf, Htag. by repeat split.
Qed.

Lemma waitForTaskCountAndCleanAllocationList_terminates (requiredTaskCount : Z)
    (allocationUsage : InternalAllocationStorage.AllocationUsage) (fuel d reads : nat) s :
  (forall j, (reads + d <= j)%nat -> requiredTaskCount <= tagAt hw j) ->
  (d < fuel)%nat ->
  exists reads' s',
    waitForTaskCountAndCleanAllocationList hw true requiredTaskCount allocationUsage
      fuel reads s = Some (Ok (reads', s'))
    /\ (reads <= reads' <= S (reads + d))%nat.
Proof.
  intros Hreached Hfuel. unfold waitForTaskCountAndCleanAllocationList.
  destruct (tagAddress s) as [v|].
  - destruct (spinUntil_terminates hw requiredTaskCount d reads) as (n & Hspin);
      [apply Hreached; lia|].
    rewrite (spinUntil_more_fuel _ _ fuel _ _ Hspin) by lia.
    destruct (spinUntil_Some _ _ _ _ _ Hspin) as (m & -> & Hle & Hbelow & _).
    set (s0 := setTag s _ _).
    destruct (cleanAllocationList_Ok requiredTaskCount allocationUsage s0) as (s1 & -> & _).
    simpl. eexists _, _. split; [done|]. split; [lia|].
    destruct (Nat.le_gt_cases m (reads + d)) as [?|Hgt]; [lia|].
    pose proof (Hbelow (reads + d)%nat ltac:(lia)).
    pose proof (Hreached (reads + d)%nat ltac:(lia)). lia.
  - destruct (cleanAllocationList_Ok requiredTaskCount allocationUsage s) as (s1 & -> & _).
    simpl. eexists _, _. split; [done|]. lia.
Qed.

(** What [cleanupResources] has done when it returns, with a memory
    manager. *)
Lemma cleanupResources_Ok (fuel reads : nat) s o :
  cleanupResources hw true fuel reads s = Some o ->
  exists reads' s2,
    o = Ok (reads', releaseTagAllocation (releaseCommandStream (releaseDebugSurface s2)))
    /\ (tagAddress s = None -> reads' = reads)
    /\ (forall u,
          allocationList u (internalAllocationStorage s2)
          = List.filter (fun e => negb (cleanedAt (latestFlushedTaskCount s) e))
              (allocationList u (internalAllocationStorage s)))
    /\ memoryManager s2
       = freeSequence
           (map (fun e => Some (InternalAllocationStorage.allocation e))
              (List.filter (cleanedAt (latestFlushedTaskCount s))
                 (InternalAllocationStorage.temporaryAllocations
                    (internalAllocationStorage s)))
            ++ map (fun e => Some (InternalAllocationStorage.allocation e))
                 (List.filter (cleanedAt (latestFlushedTaskCount s))
                    (InternalAllocationStorage.allocationsForReuse
                       (internalAllocationStorage s))))
           (memoryManager s)
    /\ indirectHeap s2 = indirectHeap s /\ commandStream s2 = commandStream s
    /\ debugSurface s2 = debugSurface s /\ tagAllocation s2 = tagAllocation s
    /\ latestFlushedTaskCount s2 = latestFlushedTaskCount s
    /\ (tagAddress s2 = None <-> tagAddress s = None).
Proof.
  unfold cleanupResources. simpl.
  destruct (waitForTaskCountAndCleanAllocationList hw true (latestFlushedTaskCount s)
              InternalAllocationStorage.TEMPORARY_ALLOCATION fuel reads s) as [o1|] eqn:H1;
    [|done].
  destruct (waitForTaskCountAndCleanAllocationList_Ok _ _ _ _ _ _ H1)
    as (r1 & s1 & -> & Hr1 & Hk1 & Ho1 & Hmm1 & Hih1 & Hcs1 & Hd1 & Hta1 & Htg1 & Hlf1).
  simpl.
  destruct (waitForTaskCountAndCleanAllocationList hw true (latestFlushedTaskCount s1)
              InternalAllocationStorage.REUSABLE_ALLOCATION fuel r1 s1) as [o2|] eqn:H2;
    [|done].
  destruct (waitForTaskCountAndCleanAllocationList_Ok _ _ _ _ _ _ H2)
    as (r2 & s2 & -> & Hr2 & Hk2 & Ho2 & Hmm2 & Hih2 & Hcs2 & Hd2 & Hta2 & Htg2 & Hlf2).
  simpl. intros [= <-]. exists r2, s2. split; [done|].
  split; [intros Hn; rewrite Hr2, Hr1; [done..|by apply Htg1]|].
  rewrite Hlf1 in *. split.
  { intros [|].
    - rewrite (Ho2 InternalAllocationStorage.TEMPORARY_ALLOCATION) by done. exact Hk1.
    - rewrite Hk2. by rewrite (Ho1 InternalAllocationStorage.REUSABLE_ALLOCATION). }
  split.
  { rewrite Hmm2, (Ho1 InternalAllocationStorage.REUSABLE_ALLOCATION) by done.
    by rewrite Hmm1, freeSequence_app. }
  rewrite Hih2, Hcs2, Hd2, Hta2, Hlf2, Hih1, Hcs1, Hd1, Hta1. do 5 (split; [done|]).
  by rewrite Htg2, Htg1.
Qed.

(** The three releases at the end of [cleanupResources], on a receiver
    whose tag address is null when its tag allocation is. *)
Lemma releases_spec s2 :
  (tagAllocation s2 = None -> tagAddress s2 = None) ->
  let s' := releaseTagAllocation (releaseCommandStream (releaseDebugSurface s2)) in
  debugSurface s' = None /\ tagAllocation s' = None /\ tagAddress s' = None
  /\ LinearStream.getCpuBase (commandStream s') = 0
  /\ (LinearStream.getCpuBase (commandStream s2) <> 0 ->
      LinearStream.getGraphicsAllocation (commandStream s') = None
      /\ LinearStream.getAvailableSpace (commandStream s') = 0)
  /\ indirectHeap s' = indirectHeap s2
  /\ internalAllocationStorage s' = internalAllocationStorage s2
  /\ latestFlushedTaskCount s' = latestFlushedTaskCount s2
  /\ memoryManager s'
     = freeSequence
         (match debugSurface s2 with Some d => [Some d] | None => [] end
          ++ (if bool_decide (LinearStream.getCpuBase (commandStream s2) = 0) then []
              else [LinearStream.getGraphicsAllocation (commandStream s2)])
          ++ match tagAllocation s2 with Some t => [Some t] | None => [] end)
         (memoryManager s2).
Proof.
  intros Hinv s'. subst s'.
  unfold releaseTagAllocation, releaseCommandStream, releaseDebugSurface.
  destruct (debugSurface s2) eqn:Ed; simpl;
    destruct (bool_decide (LinearStream.getCpuBase (commandStream s2) = 0)) eqn:Eb;
    simpl; rewrite ?Ed;
    try (apply bool_decide_eq_true in Eb);
    destruct (tagAllocation s2) eqn:Et; simpl; rewrite ?Ed, ?Et; repeat split;
    try done; by apply Hinv.
Qed.

Lemma cleanupResources_terminates (fuel d reads : nat) s :
  (forall j, (reads + d <= j)%nat -> latestFlushedTaskCount s <= tagAt hw j) ->
  (d < fuel)%nat ->
  exists reads' s', cleanupResources hw true fuel reads s = Some (Ok (reads', s')).
Proof.
  intros Hreached Hfuel. unfold cleanupResources. simpl.
  destruct (waitForTaskCountAndCleanAllocationList_terminates (latestFlushedTaskCount s)
              InternalAllocationStorage.TEMPORARY_ALLOCATION fuel d reads s Hreached Hfuel)
    as (r1 & s1 & Hrun1 & Hr1).
  rewrite Hrun1. simpl.
  destruct (waitForTaskCountAndCleanAllocationList_Ok _ _ _ _ _ _ Hrun1)
    as (? & ? & [= <- <-] & _ & _ & _ & _ & _ & _ & _ & _ & _ & Hlf1).
  destruct (waitForTaskCountAndCleanAllocationList_terminates (latestFlushedTaskCount s1)
              InternalAllocationStorage.REUSABLE_ALLOCATION fuel
              (reads + d - Nat.min r1 (reads + d)) r1 s1) as (r2 & s2 & Hrun2 & _).
  - intros j Hj. rewrite Hlf1. apply Hreached. lia.
  - lia.
  - rewrite Hrun2. simpl. by eexists _, _.
Qed.

(** X17.  [cleanupResources] without a memory manager does nothing, not
    even to the lists.  With one, on a receiver whose tag address is null
    when its tag allocation is, when it returns the debug surface, the tag
    allocation and the tag address are null and the command stream has no
    buffer; the heaps keep their backings; the entries left in the two
    lists are those due only after the last flushed task count; and a
    second [cleanupResources] returns at once, with no fence read, and
    changes nothing, so nothing is freed twice.  It returns when the fence
    can be read at or above the last flushed task count. *)
Theorem cleanupResources_spec (fuel reads : nat) s :
  (tagAllocation s = None -> tagAddress s = None) ->
  cleanupResources hw false fuel reads s = Some (Ok (reads, s))
  /\ (forall o, cleanupResources hw true fuel reads s = Some o ->
        exists reads' s',
          o = Ok (reads', s')
          /\ debugSurface s' = None /\ tagAllocation s' = None /\ tagAddress s' = None
          /\ LinearStream.getCpuBase (commandStream s') = 0
          /\ (LinearStream.getCpuBase (commandStream s) <> 0 ->
              LinearStream.getGraphicsAllocation (commandStream s') = None
              /\ LinearStream.getAvailableSpace (commandStream s') = 0)
          /\ indirectHeap s' = indirectHeap s
          /\ (forall u e,
                e ∈ allocationList u (internalAllocationStorage s') ->
                e ∈ allocationList u (internalAllocationStorage s)
                /\ latestFlushedTaskCount s < InternalAllocationStorage.freeAfter e)
          /\ forall fuel' reads'',
               cleanupResources hw true fuel' reads'' s' = Some (Ok (reads'', s')))
  /\ (forall d,
        (forall j, (reads + d <= j)%nat -> latestFlushedTaskCount s <= tagAt hw j) ->
        (d < fuel)%nat ->
        exists reads' s', cleanupResources hw true fuel reads s = Some (Ok (reads', s'))).
Proof.
  intros Hinv. split; [done|]. split.
  - intros o Hrun.
    destruct (cleanupResources_Ok _ _ _ _ Hrun)
      as (r & s2 & -> & _ & Hlists & _ & Hih & Hcs & Hd & Hta & Hlf & Htg).
    assert (Hinv2 : tagAllocation s2 = None -> tagAddress s2 = None).
    { rewrite Hta, Htg. exact Hinv. }
    destruct (releases_spec s2 Hinv2)
      as (Hd' & Hta' & Htg' & Hbase & Hstream & Hih' & Hst' & Hlf' & _).
    set (s' := releaseTagAllocation (releaseCommandStream (releaseDebugSurface s2))) in *.
    exists r, s'. split; [done|]. clearbody s'. do 4 (split; [done|]).
    split; [rewrite <- Hcs; exact Hstream|]. split; [congruence|].
    assert (Hleft : forall u,
              List.filter (cleanedAt (latestFlushedTaskCount s'))
                (allocationList u (internalAllocationStorage s')) = []).
    { intros u. rewrite Hlf', Hlf, Hst', Hlists. apply filter_kept_none_due. }
    split.
    + intros u e. rewrite Hst', Hlists. intros [Hin Hc]%list_elem_of_In%filter_In.
      split; [by apply list_elem_of_In|].
      apply negb_true_iff, orb_false_iff in Hc as [_ Hc]. by apply Z.leb_gt in Hc.
    + intros fuel' reads''.
      assert (Hwait : forall u,
                waitForTaskCountAndCleanAllocationList hw true (latestFlushedTaskCount s')
                  u fuel' reads'' s' = Some (Ok (reads'', s'))).
      { intros u. unfold waitForTaskCountAndCleanAllocationList. rewrite Htg'.
        unfold cleanAllocationList. by rewrite (Hleft u). }
      unfold cleanupResources. simpl. rewrite Hwait. simpl. rewrite Hwait. simpl.
      unfold releaseDebugSurface at 1. rewrite Hd'.
      unfold releaseCommandStream at 1. rewrite bool_decide_eq_true_2 by done.
      unfold releaseTagAllocation at 1. by rewrite Hta'.
  - intros d Hreached Hfuel. by apply cleanupResources_terminates with d.
Qed.

End CleanupFacts.

Section DestroyFacts.
Context {MM : Type} `{!MemoryManagerRelease MM}.
Variable hw : Hardware.
Implicit Type s : CommandStreamReceiver MM.

Lemma cleanedAt_all (e : InternalAllocationStorage.Entry) :
  cleanedAt (wrap_uint32 (-1)) e = true.
Proof. unfold cleanedAt. by rewrite bool_decide_eq_true_2. Qed.

Lemma filter_all {A} (p : A -> bool) (l : list A) :
  (forall x, p x = true) ->
  List.filter p l = l /\ List.filter (fun x => negb (p x)) l = [].
Proof.
  intros Hp. induction l as [|x l [IH1 IH2]]; simpl; [done|].
  rewrite Hp. simpl. by rewrite IH1, IH2.
Qed.

(** One round of the destructor's loop. *)
Lemma retireHeap_spec s (t : IndirectHeap.Type_) :
  indirectHeap (retireHeap s t) t = None
  /\ (forall t', t' <> t -> indirectHeap (retireHeap s t) t' = indirectHeap s t')
  /\ InternalAllocationStorage.temporaryAllocations (internalAllocationStorage (retireHeap s t))
     = InternalAllocationStorage.temporaryAllocations (internalAllocationStorage s)
  /\ map (fun e => Some (InternalAllocationStorage.allocation e))
       (InternalAllocationStorage.allocationsForReuse
          (internalAllocationStorage (retireHeap s t)))
     = map (fun e => Some (InternalAllocationStorage.allocation e))
         (InternalAllocationStorage.allocationsForReuse (internalAllocationStorage s))
       ++ match (heap ← indirectHeap s t;
                 a ← IndirectHeap.getGraphicsAllocation heap; Some (Some a)) with
          | Some p => [p]
          | None => []
          end
  /\ commandStream (retireHeap s t) = commandStream s
  /\ debugSurface (retireHeap s t) = debugSurface s
  /\ tagAllocation (retireHeap s t) = tagAllocation s
  /\ tagAddress (retireHeap s t) = tagAddress s
  /\ latestFlushedTaskCount (retireHeap s t) = latestFlushedTaskCount s
  /\ memoryManager (retireHeap s t) = memoryManager s.
Proof.
  unfold retireHeap. destruct (indirectHeap s t) as [h|] eqn:Hh; simpl.
  - rewrite decide_True by done. split; [done|].
    split; [intros t' Hne; rewrite decide_False by done;
            by destruct (IndirectHeap.getGraphicsAllocation h)|].
    destruct (IndirectHeap.getGraphicsAllocation h); simpl;
      rewrite ?map_app, ?app_nil_r; by repeat split.
  - rewrite app_nil_r. by repeat split.
Qed.

Lemma retireHeaps_spec (l : list IndirectHeap.Type_) s :
  NoDup l ->
  let s0 := fold_left retireHeap l s in
  (forall t, t ∈ l -> indirectHeap s0 t = None)
  /\ (forall t, t ∉ l -> indirectHeap s0 t = indirectHeap s t)
  /\ InternalAllocationStorage.temporaryAllocations (internalAllocationStorage s0)
     = InternalAllocationStorage.temporaryAllocations (internalAllocationStorage s)
  /\ map (fun e => Some (InternalAllocationStorage.allocation e))
       (InternalAllocationStorage.allocationsForReuse (internalAllocationStorage s0))
     = map (fun e => Some (InternalAllocationStorage.allocation e))
         (InternalAllocationStorage.allocationsForReuse (internalAllocationStorage s))
       ++ omap (fun t => heap ← indirectHeap s t;
                         a ← IndirectHeap.getGraphicsAllocation heap; Some (Some a)) l
  /\ commandStream s0 = commandStream s /\ debugSurface s0 = debugSurface s
  /\ tagAllocation s0 = tagAllocation s /\ tagAddress s0 = tagAddress s
  /\ latestFlushedTaskCount s0 = latestFlushedTaskCount s
  /\ memoryManager s0 = memoryManager s.
Proof.
  intros Hnd. revert s. induction Hnd as [|t l Hnotin Hnd IH]; intros s; simpl.
  - rewrite app_nil_r. repeat split; try done. intros t Ht. by apply elem_of_nil in Ht.
  - destruct (retireHeap_spec s t) as (Ht & Hothers & Htemp & Hreuse & Hcs & Hd & Hta & Htg
                                        & Hlf & Hmm).
    destruct (IH (retireHeap s t)) as (IHin & IHout & IHtemp & IHreuse & IHcs & IHd & IHta
                                        & IHtg & IHlf & IHmm).
    split.
    { intros t' [->|Hin]%elem_of_cons; [by rewrite IHout|by apply IHin]. }
    split.
    { intros t' [Hne Hout]%not_elem_of_cons. by rewrite IHout, Hothers. }
    split; [congruence|]. split.
    { rewrite IHreuse, Hreuse, <- app_assoc. f_equal.
      assert (Hext : omap (fun t0 => heap ← indirectHeap (retireHeap s t) t0;
                                     a ← IndirectHeap.getGraphicsAllocation heap;
                                     Some (Some a)) l
                     = omap (fun t0 => heap ← indirectHeap s t0;
                                       a ← IndirectHeap.getGraphicsAllocation heap;
                                       Some (Some a)) l).
      { apply list_omap_ext. apply Forall2_same_length_lookup. split; [done|].
        intros i x y Hx Hy. rewrite Hx in Hy. injection Hy as <-.
        rewrite Hothers; [done|]. intros ->. apply Hnotin.
        by apply list_elem_of_lookup; exists i. }
      rewrite Hext.
      by destruct (heap ← indirectHeap s t;
                   a ← IndirectHeap.getGraphicsAllocation heap; Some (Some a)). }
    repeat split; congruence.
Qed.

End DestroyFacts.

Section DestroyClaims.
Context {MM : Type} `{!MemoryManagerRelease MM}.
Variable hw : Hardware.
Implicit Type s : CommandStreamReceiver MM.

Lemma heapTypes_complete :
  NoDup heapTypes /\ forall t : IndirectHeap.Type_, t ∈ heapTypes.
Proof.
  split.
  - unfold heapTypes.
    repeat (apply NoDup_cons_2;
            [rewrite ?elem_of_cons, elem_of_nil; intuition discriminate|]).
    apply NoDup_nil_2.
  - intros []; unfold heapTypes; rewrite !elem_of_cons; auto.
Qed.

Lemma releasedPointers_flat s :
  releasedPointers s
  = map (fun e => Some (InternalAllocationStorage.allocation e))
      (InternalAllocationStorage.temporaryAllocations (internalAllocationStorage s))
    ++ map (fun e => Some (InternalAllocationStorage.allocation e))
         (InternalAllocationStorage.allocationsForReuse (internalAllocationStorage s))
    ++ omap (fun t => heap ← indirectHeap s t;
                      a ← IndirectHeap.getGraphicsAllocation heap; Some (Some a)) heapTypes
    ++ match debugSurface s with Some d => [Some d] | None => [] end
    ++ (if bool_decide (LinearStream.getCpuBase (commandStream s) = 0) then []
        else [LinearStream.getGraphicsAllocation (commandStream s)])
    ++ match tagAllocation s with Some t => [Some t] | None => [] end.
Proof. unfold releasedPointers, storedPointers. by rewrite <- !app_assoc. Qed.

(** What the destructor has done when it returns, with a memory manager:
    everything is gone from the receiver, and the pointers passed to
    [freeGraphicsMemory] are, up to order, [releasedPointers]. *)
Lemma destroyReceiver_Ok (fuel reads : nat) s o :
  (tagAllocation s = None -> tagAddress s = None) ->
  destroyReceiver hw true fuel reads s = Some o ->
  exists reads' s' freedPointers,
    o = Ok (reads', s')
    /\ InternalAllocationStorage.temporaryAllocations (internalAllocationStorage s') = []
    /\ InternalAllocationStorage.allocationsForReuse (internalAllocationStorage s') = []
    /\ (forall t, indirectHeap s' t = None)
    /\ debugSurface s' = None /\ tagAllocation s' = None /\ tagAddress s' = None
    /\ LinearStream.getCpuBase (commandStream s') = 0
    /\ memoryManager s' = freeSequence freedPointers (memoryManager s)
    /\ freedPointers ≡ₚ releasedPointers s.
Proof.
  intros Hinv. destruct heapTypes_complete as [Hnd Hall].
  destruct (retireHeaps_spec heapTypes s Hnd)
    as (Hin0 & _ & Htemp0 & Hreuse0 & Hcs0 & Hd0 & Hta0 & Htg0 & Hlf0 & Hmm0).
  unfold destroyReceiver. set (s0 := fold_left retireHeap heapTypes s) in *.
  assert (Hinv0 : tagAllocation s0 = None -> tagAddress s0 = None) by (by rewrite Hta0, Htg0).
  destruct (cleanupResources hw true fuel reads s0) as [o1|] eqn:Hclean; [|done].
  destruct (cleanupResources_Ok hw _ _ _ _ Hclean)
    as (r & s2 & -> & _ & Hlists & Hmm2 & Hih2 & Hcs2 & Hd2 & Hta2 & Hlf2 & Htg2).
  assert (Hinv2 : tagAllocation s2 = None -> tagAddress s2 = None)
    by (by rewrite Hta2, Htg2).
  destruct (releases_spec s2 Hinv2)
    as (Hd' & Hta' & Htg' & Hbase & _ & Hih' & Hst' & _ & Hmm').
  set (s3 := releaseTagAllocation (releaseCommandStream (releaseDebugSurface s2))) in *.
  simpl.
  destruct (cleanAllocationList_Ok (wrap_uint32 (-1))
              InternalAllocationStorage.REUSABLE_ALLOCATION s3)
    as (s4 & -> & Hk4 & Ho4 & Hmm4 & Hih4 & Hcs4 & Hd4 & Hta4 & Htg4 & _).
  simpl.
  destruct (cleanAllocationList_Ok (wrap_uint32 (-1))
              InternalAllocationStorage.TEMPORARY_ALLOCATION s4)
    as (s5 & -> & Hk5 & Ho5 & Hmm5 & Hih5 & Hcs5 & Hd5 & Hta5 & Htg5 & _).
  simpl. intros [= <-].
  destruct (filter_all (cleanedAt (wrap_uint32 (-1)))
              (allocationList InternalAllocationStorage.REUSABLE_ALLOCATION
                 (internalAllocationStorage s3)) cleanedAt_all) as [Hall4 Hnone4].
  destruct (filter_all (cleanedAt (wrap_uint32 (-1)))
              (allocationList InternalAllocationStorage.TEMPORARY_ALLOCATION
                 (internalAllocationStorage s4)) cleanedAt_all) as [Hall5 Hnone5].
  rewrite Hnone4 in Hk4. rewrite Hnone5 in Hk5. rewrite Hall4 in Hmm4. rewrite Hall5 in Hmm5.
  rewrite (Ho4 InternalAllocationStorage.TEMPORARY_ALLOCATION) in Hmm5 by done.
  rewrite Hst' in Hmm4, Hmm5. rewrite !Hlists in Hmm4, Hmm5.
  eexists r, s5, _. split; [done|].
  split; [exact Hk5|].
  split; [exact (eq_trans (Ho5 InternalAllocationStorage.REUSABLE_ALLOCATION
                             ltac:(done)) Hk4)|].
  split; [intros t; rewrite Hih5, Hih4, Hih', Hih2; by apply Hin0|].
  split; [congruence|]. split; [congruence|]. split; [congruence|].
  split; [by rewrite Hcs5, Hcs4|]. split.
  - rewrite Hmm5, Hmm4, Hmm', Hmm2, Hmm0, <- !freeSequence_app. reflexivity.
  - rewrite releasedPointers_flat. rewrite Hd2, Hcs2, Hta2, Hlf0, Hd0, Hcs0, Hta0.
    simpl allocationList. rewrite Htemp0.
    rewrite (app_assoc (map _ (InternalAllocationStorage.allocationsForReuse
                                 (internalAllocationStorage s)))), <- Hreuse0.
    set (c := cleanedAt (latestFlushedTaskCount s)).
    set (P := fun e => Some (InternalAllocationStorage.allocation e)).
    set (T := InternalAllocationStorage.temporaryAllocations (internalAllocationStorage s)).
    set (R0 := InternalAllocationStorage.allocationsForReuse (internalAllocationStorage s0))
      in *.
    set (rel := _ ++ _ ++ match tagAllocation s with Some t => [Some t] | None => [] end).
    assert (HT : map P (List.filter c T) ++ map P (List.filter (fun e => negb (c e)) T)
                 ≡ₚ map P T)
      by (rewrite <- map_app; apply Permutation_map, filter_partition_perm).
    assert (HR : map P (List.filter c R0) ++ map P (List.filter (fun e => negb (c e)) R0)
                 ≡ₚ map P R0)
      by (rewrite <- map_app; apply Permutation_map, filter_partition_perm).
    rewrite <- HT, <- HR. solve_Permutation.
Qed.

(** X18.  The destructor with a memory manager, on a receiver whose tag
    address is null when its tag allocation is.  When it returns, both
    lists are empty, no heap is left, and the debug surface, the tag and
    the buffer of the command stream are gone.  On a receiver whose command
    stream has a CPU base exactly when it has an allocation, the pointers
    passed to [freeGraphicsMemory] are, up to order, exactly the
    allocations the receiver owned: every entry of both lists, every heap
    backing, the debug surface, the command stream's allocation and the
    tag allocation, each once, also the entries that were not yet due.
    The allocation of a command stream whose CPU base is null is the one
    owned allocation that is not freed; and for a command stream with a CPU
    base and no allocation a null pointer is passed to [freeGraphicsMemory]
    besides the owned allocations.  The destructor has no other outcome,
    and it returns when the fence can be read at or above the last flushed
    task count. *)
Theorem destroyReceiver_frees_everything_once (fuel reads : nat) s :
  (tagAllocation s = None -> tagAddress s = None) ->
  (forall o, destroyReceiver hw true fuel reads s = Some o ->
     exists reads' s' freedPointers,
       o = Ok (reads', s')
       /\ InternalAllocationStorage.temporaryAllocations (internalAllocationStorage s') = []
       /\ InternalAllocationStorage.allocationsForReuse (internalAllocationStorage s') = []
       /\ (forall t, indirectHeap s' t = None)
       /\ debugSurface s' = None /\ tagAllocation s' = None /\ tagAddress s' = None
       /\ LinearStream.getCpuBase (commandStream s') = 0
       /\ memoryManager s' = freeSequence freedPointers (memoryManager s)
       /\ ((LinearStream.getCpuBase (commandStream s) = 0 <->
            LinearStream.getGraphicsAllocation (commandStream s) = None) ->
           freedPointers ≡ₚ ownedPointers s)
       /\ (forall c,
             LinearStream.getCpuBase (commandStream s) = 0 ->
             LinearStream.getGraphicsAllocation (commandStream s) = Some c ->
             Some c :: freedPointers ≡ₚ ownedPointers s)
       /\ (LinearStream.getCpuBase (commandStream s) <> 0 ->
           LinearStream.getGraphicsAllocation (commandStream s) = None ->
           freedPointers ≡ₚ None :: ownedPointers s))
  /\ (forall d,
        (forall j, (reads + d <= j)%nat -> latestFlushedTaskCount s <= tagAt hw j) ->
        (d < fuel)%nat ->
        exists reads' s', destroyReceiver hw true fuel reads s = Some (Ok (reads', s'))).
Proof.
  intros Hinv. split.
  - intros o Hrun.
    destruct (destroyReceiver_Ok fuel reads s o Hinv Hrun)
      as (reads' & s' & L & -> & Htemp & Hreuse & Hheaps & Hd & Hta & Htg & Hbase & Hmm
          & Hperm).
    exists reads', s', L. do 9 (split; [done|]).
    unfold releasedPointers in Hperm. unfold ownedPointers.
    destruct (bool_decide_reflect (LinearStream.getCpuBase (commandStream s) = 0))
      as [Hzero|Hnonzero];
      destruct (LinearStream.getGraphicsAllocation (commandStream s)) as [c|] eqn:Hga.
    + split; [intros [Hc _]; by specialize (Hc Hzero)|]. split; [|done].
      intros c' _ [= <-]. rewrite Hperm. solve_Permutation.
    + split; [done|]. split; [done|]. done.
    + split; [done|]. split; [done|]. done.
    + split; [intros [_ Hc]; by specialize (Hc eq_refl)|]. split; [done|].
      intros _ _. rewrite Hperm. solve_Permutation.
  - intros d Hreached Hfuel. destruct heapTypes_complete as [Hnd _].
    destruct (retireHeaps_spec heapTypes s Hnd)
      as (_ & _ & _ & _ & _ & _ & _ & _ & Hlf0 & _).
    unfold destroyReceiver. set (s0 := fold_left retireHeap heapTypes s) in *.
    destruct (cleanupResources_terminates hw fuel d reads s0) as (r & s3 & ->);
      [by rewrite Hlf0 | done |].
    simpl.
    destruct (cleanAllocationList_Ok (wrap_uint32 (-1))
                InternalAllocationStorage.REUSABLE_ALLOCATION s3) as (s4 & -> & _).
    simpl.
    destruct (cleanAllocationList_Ok (wrap_uint32 (-1))
                InternalAllocationStorage.TEMPORARY_ALLOCATION s4) as (s5 & -> & _).
    simpl. by eexists _, _.
Qed.

End DestroyClaims.

Lemma cleanupResources_spec_witness :
  exists reads' s',
    @cleanupResources _ LoggingMemoryManager_release busyHardware true 10 0 dyingReceiver
      = Some (Ok (reads', s'))
    /\ debugSurface s' = None /\ tagAddress s' = None
    /\ @cleanupResources _ LoggingMemoryManager_release busyHardware true 0 reads' s'
       = Some (Ok (reads', s')).
Proof.
  destruct (@cleanupResources _ LoggingMemoryManager_release busyHardware true 10 0
              dyingReceiver) as [o|] eqn:Hrun; [|vm_compute in Hrun; discriminate].
  destruct (proj1 (proj2 (@cleanupResources_spec _ LoggingMemoryManager_release busyHardware
                            10 0 dyingReceiver ltac:(intros [=]))) o Hrun)
    as (reads' & s' & -> & Hd & _ & Htg & _ & _ & _ & _ & Hagain).
  exists reads', s'. split; [reflexivity|]. split; [exact Hd|]. split; [exact Htg|].
  apply Hagain.
Defined.

Lemma destroyReceiver_frees_everything_once_witness :
  exists reads' s' freedPointers,
    @destroyReceiver _ LoggingMemoryManager_release busyHardware true 10 0 dyingReceiver
      = Some (Ok (reads', s'))
    /\ memoryManager s' = freeSequence freedPointers (memoryManager dyingReceiver)
    /\ freedPointers ≡ₚ ownedPointers dyingReceiver
    /\ length (freed (memoryManager s')) = 6%nat.
Proof.
  destruct (@destroyReceiver _ LoggingMemoryManager_release busyHardware true 10 0
              dyingReceiver) as [o|] eqn:Hrun; [|vm_compute in Hrun; discriminate].
  destruct (proj1 (@destroyReceiver_frees_everything_once _ LoggingMemoryManager_release
                     busyHardware 10 0 dyingReceiver ltac:(intros [=])) o Hrun)
    as (reads' & s' & L & -> & _ & _ & _ & _ & _ & _ & _ & Hmm & Hperm & _).
  exists reads', s', L. split; [reflexivity|]. split; [exact Hmm|].
  split; [apply Hperm; split; intros Hfalse; vm_compute in Hfalse; discriminate|].
  revert Hrun. vm_compute. intros [= _ <-]. reflexivity.
Defined.

(** ** Repeated residency *)

Section ResidencyCycles.
Context {MM : Type} `{!Overrides MM}.
Implicit Type s : CommandStreamReceiver MM.
Implicit Type gfx : GraphicsAllocation.t.




End ResidencyCycles.


(** ** Host pointer surfaces *)

Section HostSurfaceFacts.
Context {MM : Type} `{!HostPtrMemoryManager MM} `{!Platform}.
Variable eventNotReady : Z.
Implicit Type s : CommandStreamReceiver MM.

(** X20.  [createAllocationForHostSurface] stores what it allocates, and
    nothing else.  It returns [false] exactly when no allocation was
    obtained: the memory manager could not wrap the host pointer and either
    the copy is not allowed for the surface (then the second request is not
    made at all) or the second request failed too; then the surface and the
    lists of the receiver are as before.  When it returns [true], the
    surface holds the allocation, marked with the task count
    [eventNotReady], and that allocation is the one new entry at the end of
    the temporary list; the reusable list is as before. *)
Theorem createAllocationForHostSurface_spec (surface : HostPtrSurface)
    (isFullRangeSvm requiresL3Flush : bool) s :
  let first := allocateGraphicsMemoryForHostPtr (surfaceSize surface) (memoryPointer surface)
                 isFullRangeSvm requiresL3Flush (memoryManager s) in
  let second := allocateAlignedGraphicsMemory (surfaceSize surface) UNDECIDED pageSize
                  first.2 in
  let '(ok, surface', s') :=
    createAllocationForHostSurface eventNotReady surface isFullRangeSvm requiresL3Flush s in
  (isPtrCopyAllowed surface = false -> memoryManager s' = first.2)
  /\ InternalAllocationStorage.allocationsForReuse (internalAllocationStorage s')
     = InternalAllocationStorage.allocationsForReuse (internalAllocationStorage s)
  /\ if ok then
       exists a e,
         (first.1 = Some a \/ (first.1 = None /\ isPtrCopyAllowed surface = true
                               /\ second.1 = Some a))
         /\ surfaceAllocation surface'
            = Some (GraphicsAllocation.updateTaskCount a eventNotReady (osContextId s))
         /\ GraphicsAllocation.getTaskCount
              (GraphicsAllocation.updateTaskCount a eventNotReady (osContextId s))
              (osContextId s) = eventNotReady
         /\ InternalAllocationStorage.allocation e
            = GraphicsAllocation.updateTaskCount a eventNotReady (osContextId s)
         /\ InternalAllocationStorage.temporaryAllocations (internalAllocationStorage s')
            = InternalAllocationStorage.temporaryAllocations (internalAllocationStorage s)
              ++ [e]
     else
       first.1 = None
       /\ (isPtrCopyAllowed surface = false \/ second.1 = None)
       /\ surface' = surface
       /\ internalAllocationStorage s' = internalAllocationStorage s.
Proof.
  intros first second. subst first second. unfold createAllocationForHostSurface.
  assert (Hcount : forall a,
            GraphicsAllocation.getTaskCount
              (GraphicsAllocation.updateTaskCount a eventNotReady (osContextId s))
              (osContextId s) = eventNotReady).
  { intros a. unfold GraphicsAllocation.getTaskCount, GraphicsAllocation.updateTaskCount.
    by rewrite usage_withUsage. }
  destruct (allocateGraphicsMemoryForHostPtr _ _ _ _ _) as [[a|] mm1]; simpl.
  - split; [reflexivity|]. split; [reflexivity|].
    exists a, {| InternalAllocationStorage.allocation :=
                   GraphicsAllocation.updateTaskCount a eventNotReady (osContextId s);
                 InternalAllocationStorage.freeAfter := wrap_uint32 (taskCount s + 1) |}. split; [left; reflexivity|].
    split; [reflexivity|]. split; [apply Hcount|]. split; reflexivity.
  - destruct (isPtrCopyAllowed surface); simpl.
    + destruct (allocateAlignedGraphicsMemory _ _ _ _) as [[a|] mm2]; simpl.
      * split; [intros; discriminate|]. split; [reflexivity|].
        exists a, {| InternalAllocationStorage.allocation :=
                   GraphicsAllocation.updateTaskCount a eventNotReady (osContextId s);
                 InternalAllocationStorage.freeAfter := wrap_uint32 (taskCount s + 1) |}. split; [right; repeat split; reflexivity|].
        split; [reflexivity|]. split; [apply Hcount|]. split; reflexivity.
      * split; [intros; discriminate|]. split; [reflexivity|]. split; [reflexivity|].
        split; [right; reflexivity|]. split; reflexivity.
    + split; [reflexivity|]. split; [reflexivity|]. split; [reflexivity|].
      split; [left; reflexivity|]. split; reflexivity.
Qed.

End HostSurfaceFacts.

Lemma createAllocationForHostSurface_spec_witness :
  let surface := {| surfaceSize := 100; memoryPointer := 4096; isPtrCopyAllowed := true;
                    surfaceAllocation := None |} in
  let s := hostReceiver {| budget := 1; nextAddress := 5 |} in
  exists surface' s' e,
    @createAllocationForHostSurface _ CopyOnlyMemoryManager_ops testPlatform 4294967280
      surface false false s = (true, surface', s')
    /\ InternalAllocationStorage.temporaryAllocations (internalAllocationStorage s') = [e]
    /\ surfaceAllocation surface' = Some (InternalAllocationStorage.allocation e).
Proof.
  intros surface s.
  pose proof (@createAllocationForHostSurface_spec _ CopyOnlyMemoryManager_ops testPlatform
                4294967280 surface false false s) as Hspec.
  destruct (@createAllocationForHostSurface _ CopyOnlyMemoryManager_ops testPlatform
              4294967280 surface false false s) as [[ok surface'] s'] eqn:Hrun.
  destruct ok; [|vm_compute in Hrun; discriminate].
  destruct Hspec as (_ & _ & a & e & _ & Hsurface & _ & He & Htemp).
  exists surface', s', e. split; [reflexivity|]. split; [exact Htemp|].
  rewrite He. exact Hsurface.
Defined.
